(** * DukiTinyOS: scheduler, tick handler, task and timer modules

    A shallow embedding of the kernel sources

    - [12.02-DukiTinyOS/main.c]          (scheduler core, tick handler, CPU usage),
    - [12.01-DukiTinyOS/Source/tTask.c]  (task creation, suspension, task info),
    - [11.03-DukiTinyOS/Source/tTimer.c] (timer module),

    followed by the properties of the kernel specification that concern them.

    Conventions.  A [uint32_t] is a [Z] in [0, 2^32) and every operation that
    can leave that range is wrapped by [u32].  A pointer to a statically
    allocated object (task, event, timer) is the object's address, a [Z]; the
    objects themselves live in stores indexed by address.  A pointer into a
    task stack counts [tTaskStack] words.  A null pointer is [None]. *)

From Stdlib Require Import ZArith List Bool Lia QArith.
Import ListNotations.
Local Open Scope Z_scope.

(** ** Machine integers and stores *)

Definition u32 (x : Z) : Z := x mod 2 ^ 32.

Definition upd {A : Type} (f : Z -> A) (k : Z) (v : A) : Z -> A :=
  fun x => if Z.eqb x k then v else f x.

(** ** tLib: intrusive list and priority bitmap *)

(** Modelled from the spec: [tLib.h]/[tLib.c] are not among the sources.  The
    spec describes a circular doubly-linked list with an embedded head
    sentinel and the operations insert-first, insert-last,
    remove-specific-node, remove-first and count.  A node is embedded in
    exactly one object, so a node is named by the address of its owner and a
    list is the sequence of its nodes from the head sentinel onwards.
    [tListRemove] is the removal of a node that is on the list named.  On a
    node that is linked elsewhere or nowhere the intrusive removal unlinks
    it where it is and decrements the count of the list named; the model
    leaves the list as it is there, and what is stated about a removal
    carries the hypothesis that the node is on the list. *)
Definition tNode := Z.
Definition tList := list tNode.

Definition tListInit : tList := [].
Definition tListCount (l : tList) : Z := Z.of_nat (length l).
Definition tListFirst (l : tList) : option tNode := hd_error l.
Definition tListAddFirst (l : tList) (n : tNode) : tList := n :: l.
Definition tListAddLast (l : tList) (n : tNode) : tList := l ++ [n].
Definition tListRemoveFirst (l : tList) : tList := tl l.
Definition tListRemove (l : tList) (n : tNode) : tList :=
  filter (fun m => negb (Z.eqb m n)) l.

(** Modelled from the spec: the bitmap of [tLib] is a 32-bit word with
    [set(i)], [clear(i)] and [firstSet()], the lowest bit index that is set.
    The spec gives no result for the empty bitmap; the model answers the
    width of the word, 32. *)
Definition tBitMap := Z.

Definition tBitMapInit : tBitMap := 0.
Definition tBitMapSet (b : tBitMap) (pos : Z) : tBitMap :=
  u32 (Z.lor b (Z.shiftl 1 pos)).
Definition tBitMapClear (b : tBitMap) (pos : Z) : tBitMap :=
  Z.land b (u32 (Z.lnot (Z.shiftl 1 pos))).

Fixpoint firstSetFrom (b : tBitMap) (n : nat) (pos : Z) : Z :=
  match n with
  | O => pos
  | S n' => if Z.testbit b pos then pos else firstSetFrom b n' (pos + 1)
  end.

Definition tBitMapGetFirstSet (b : tBitMap) : Z := firstSetFrom b 32 0.

(** ** Configuration and constants *)

(** Modelled from the spec: [tConfig.h], [tTask.h] and the error codes of
    [tEvent.h] are not among the sources; the constants they define are the
    fields of a configuration.  [TINYOS_TASK_STATE_RDY] is 0 (the spec: READY
    is "no bits set"). *)
Record tConfig : Type := mkConfig {
  TINYOS_PRIO_COUNT : Z;
  TINYOS_SLICE_MAX : Z;
  TICKS_PER_SEC : Z;
  TINYOS_IDLETASK_STACK_SIZE : Z;
  TINYOS_TASK_STATE_DELAYED : Z;
  TINYOS_TASK_STATE_SUSPEND : Z;
  TINYOS_TASK_WAIT_MASK : Z;
  tErrorTimeOut : Z
}.

Definition TINYOS_TASK_STATE_RDY : Z := 0.

(** A configuration with the customary values: 32 priorities, a slice of 10
    ticks, a tick every 10 ms. *)
Definition sampleConfig : tConfig :=
  {| TINYOS_PRIO_COUNT := 32;
     TINYOS_SLICE_MAX := 10;
     TICKS_PER_SEC := 100;
     TINYOS_IDLETASK_STACK_SIZE := 1024;
     TINYOS_TASK_STATE_DELAYED := 2;
     TINYOS_TASK_STATE_SUSPEND := 4;
     TINYOS_TASK_WAIT_MASK := 0xFF0000;
     tErrorTimeOut := 1 |}.

(** ** Task control block and kernel state *)

Definition TaskId := Z.
Definition EventId := Z.

(** The fields of [tTask] that the sources read or write.  The two list
    nodes [linkNode] and [delayNode] are represented by the task's membership
    in the lists of the kernel. *)
Record tTask : Type := mkTask {
  stack : Z;
  stackBase : Z;
  stackSize : Z;
  delayTicks : Z;
  prio : Z;
  state : Z;
  slice : Z;
  suspendCount : Z;
  waitEvent : option EventId;
  eventMsg : Z;
  waitEventResult : Z;
  clean : option Z;
  cleanParam : Z;
  requestDeleteFlag : Z
}.

Definition set_stack v t := mkTask v (stackBase t) (stackSize t) (delayTicks t) (prio t) (state t) (slice t) (suspendCount t) (waitEvent t) (eventMsg t) (waitEventResult t) (clean t) (cleanParam t) (requestDeleteFlag t).
Definition set_stackBase v t := mkTask (stack t) v (stackSize t) (delayTicks t) (prio t) (state t) (slice t) (suspendCount t) (waitEvent t) (eventMsg t) (waitEventResult t) (clean t) (cleanParam t) (requestDeleteFlag t).
Definition set_stackSize v t := mkTask (stack t) (stackBase t) v (delayTicks t) (prio t) (state t) (slice t) (suspendCount t) (waitEvent t) (eventMsg t) (waitEventResult t) (clean t) (cleanParam t) (requestDeleteFlag t).
Definition set_delayTicks v t := mkTask (stack t) (stackBase t) (stackSize t) v (prio t) (state t) (slice t) (suspendCount t) (waitEvent t) (eventMsg t) (waitEventResult t) (clean t) (cleanParam t) (requestDeleteFlag t).
Definition set_prio v t := mkTask (stack t) (stackBase t) (stackSize t) (delayTicks t) v (state t) (slice t) (suspendCount t) (waitEvent t) (eventMsg t) (waitEventResult t) (clean t) (cleanParam t) (requestDeleteFlag t).
Definition set_state v t := mkTask (stack t) (stackBase t) (stackSize t) (delayTicks t) (prio t) v (slice t) (suspendCount t) (waitEvent t) (eventMsg t) (waitEventResult t) (clean t) (cleanParam t) (requestDeleteFlag t).
Definition set_slice v t := mkTask (stack t) (stackBase t) (stackSize t) (delayTicks t) (prio t) (state t) v (suspendCount t) (waitEvent t) (eventMsg t) (waitEventResult t) (clean t) (cleanParam t) (requestDeleteFlag t).
Definition set_suspendCount v t := mkTask (stack t) (stackBase t) (stackSize t) (delayTicks t) (prio t) (state t) (slice t) v (waitEvent t) (eventMsg t) (waitEventResult t) (clean t) (cleanParam t) (requestDeleteFlag t).
Definition set_waitEvent v t := mkTask (stack t) (stackBase t) (stackSize t) (delayTicks t) (prio t) (state t) (slice t) (suspendCount t) v (eventMsg t) (waitEventResult t) (clean t) (cleanParam t) (requestDeleteFlag t).
Definition set_eventMsg v t := mkTask (stack t) (stackBase t) (stackSize t) (delayTicks t) (prio t) (state t) (slice t) (suspendCount t) (waitEvent t) v (waitEventResult t) (clean t) (cleanParam t) (requestDeleteFlag t).
Definition set_waitEventResult v t := mkTask (stack t) (stackBase t) (stackSize t) (delayTicks t) (prio t) (state t) (slice t) (suspendCount t) (waitEvent t) (eventMsg t) v (clean t) (cleanParam t) (requestDeleteFlag t).
Definition set_clean v t := mkTask (stack t) (stackBase t) (stackSize t) (delayTicks t) (prio t) (state t) (slice t) (suspendCount t) (waitEvent t) (eventMsg t) (waitEventResult t) v (cleanParam t) (requestDeleteFlag t).
Definition set_cleanParam v t := mkTask (stack t) (stackBase t) (stackSize t) (delayTicks t) (prio t) (state t) (slice t) (suspendCount t) (waitEvent t) (eventMsg t) (waitEventResult t) (clean t) v (requestDeleteFlag t).
Definition set_requestDeleteFlag v t := mkTask (stack t) (stackBase t) (stackSize t) (delayTicks t) (prio t) (state t) (slice t) (suspendCount t) (waitEvent t) (eventMsg t) (waitEventResult t) (clean t) (cleanParam t) v.

(** [tEvent] of [tEvent.h]: a type tag and the list of the tasks blocked on
    the event.  The tag plays no role in the functions below and is left
    out. *)
Record tEvent : Type := mkEvent {
  waitList : tList
}.

(** The globals of [main.c], the task and event objects, RAM (indexed by
    word) and the two pieces of processor state that the HAL hooks touch:
    the interrupt mask and the pending bit of the context-switch
    interrupt. *)
Record Kernel : Type := mkKernel {
  tasks : TaskId -> tTask;
  events : EventId -> tEvent;
  curTask : option TaskId;
  nextTask : option TaskId;
  taskPrioBitMap : tBitMap;
  taskTable : Z -> tList;
  schedLockCounter : Z;
  tTaskDelayedList : tList;
  idleCount : Z;
  idleMaxCount : Z;
  tickCount : Z;
  cpuUsage : Z;
  enableCpuUsageState : Z;
  primask : Z;
  pendSV : bool;
  mem : Z -> Z
}.

Definition set_tasks v s := mkKernel v (events s) (curTask s) (nextTask s) (taskPrioBitMap s) (taskTable s) (schedLockCounter s) (tTaskDelayedList s) (idleCount s) (idleMaxCount s) (tickCount s) (cpuUsage s) (enableCpuUsageState s) (primask s) (pendSV s) (mem s).
Definition set_events v s := mkKernel (tasks s) v (curTask s) (nextTask s) (taskPrioBitMap s) (taskTable s) (schedLockCounter s) (tTaskDelayedList s) (idleCount s) (idleMaxCount s) (tickCount s) (cpuUsage s) (enableCpuUsageState s) (primask s) (pendSV s) (mem s).
Definition set_curTask v s := mkKernel (tasks s) (events s) v (nextTask s) (taskPrioBitMap s) (taskTable s) (schedLockCounter s) (tTaskDelayedList s) (idleCount s) (idleMaxCount s) (tickCount s) (cpuUsage s) (enableCpuUsageState s) (primask s) (pendSV s) (mem s).
Definition set_nextTask v s := mkKernel (tasks s) (events s) (curTask s) v (taskPrioBitMap s) (taskTable s) (schedLockCounter s) (tTaskDelayedList s) (idleCount s) (idleMaxCount s) (tickCount s) (cpuUsage s) (enableCpuUsageState s) (primask s) (pendSV s) (mem s).
Definition set_taskPrioBitMap v s := mkKernel (tasks s) (events s) (curTask s) (nextTask s) v (taskTable s) (schedLockCounter s) (tTaskDelayedList s) (idleCount s) (idleMaxCount s) (tickCount s) (cpuUsage s) (enableCpuUsageState s) (primask s) (pendSV s) (mem s).
Definition set_taskTable v s := mkKernel (tasks s) (events s) (curTask s) (nextTask s) (taskPrioBitMap s) v (schedLockCounter s) (tTaskDelayedList s) (idleCount s) (idleMaxCount s) (tickCount s) (cpuUsage s) (enableCpuUsageState s) (primask s) (pendSV s) (mem s).
Definition set_schedLockCounter v s := mkKernel (tasks s) (events s) (curTask s) (nextTask s) (taskPrioBitMap s) (taskTable s) v (tTaskDelayedList s) (idleCount s) (idleMaxCount s) (tickCount s) (cpuUsage s) (enableCpuUsageState s) (primask s) (pendSV s) (mem s).
Definition set_tTaskDelayedList v s := mkKernel (tasks s) (events s) (curTask s) (nextTask s) (taskPrioBitMap s) (taskTable s) (schedLockCounter s) v (idleCount s) (idleMaxCount s) (tickCount s) (cpuUsage s) (enableCpuUsageState s) (primask s) (pendSV s) (mem s).
Definition set_idleCount v s := mkKernel (tasks s) (events s) (curTask s) (nextTask s) (taskPrioBitMap s) (taskTable s) (schedLockCounter s) (tTaskDelayedList s) v (idleMaxCount s) (tickCount s) (cpuUsage s) (enableCpuUsageState s) (primask s) (pendSV s) (mem s).
Definition set_idleMaxCount v s := mkKernel (tasks s) (events s) (curTask s) (nextTask s) (taskPrioBitMap s) (taskTable s) (schedLockCounter s) (tTaskDelayedList s) (idleCount s) v (tickCount s) (cpuUsage s) (enableCpuUsageState s) (primask s) (pendSV s) (mem s).
Definition set_tickCount v s := mkKernel (tasks s) (events s) (curTask s) (nextTask s) (taskPrioBitMap s) (taskTable s) (schedLockCounter s) (tTaskDelayedList s) (idleCount s) (idleMaxCount s) v (cpuUsage s) (enableCpuUsageState s) (primask s) (pendSV s) (mem s).
Definition set_cpuUsage v s := mkKernel (tasks s) (events s) (curTask s) (nextTask s) (taskPrioBitMap s) (taskTable s) (schedLockCounter s) (tTaskDelayedList s) (idleCount s) (idleMaxCount s) (tickCount s) v (enableCpuUsageState s) (primask s) (pendSV s) (mem s).
Definition set_enableCpuUsageState v s := mkKernel (tasks s) (events s) (curTask s) (nextTask s) (taskPrioBitMap s) (taskTable s) (schedLockCounter s) (tTaskDelayedList s) (idleCount s) (idleMaxCount s) (tickCount s) (cpuUsage s) v (primask s) (pendSV s) (mem s).
Definition set_primask v s := mkKernel (tasks s) (events s) (curTask s) (nextTask s) (taskPrioBitMap s) (taskTable s) (schedLockCounter s) (tTaskDelayedList s) (idleCount s) (idleMaxCount s) (tickCount s) (cpuUsage s) (enableCpuUsageState s) v (pendSV s) (mem s).
Definition set_pendSV v s := mkKernel (tasks s) (events s) (curTask s) (nextTask s) (taskPrioBitMap s) (taskTable s) (schedLockCounter s) (tTaskDelayedList s) (idleCount s) (idleMaxCount s) (tickCount s) (cpuUsage s) (enableCpuUsageState s) (primask s) v (mem s).
Definition set_mem v s := mkKernel (tasks s) (events s) (curTask s) (nextTask s) (taskPrioBitMap s) (taskTable s) (schedLockCounter s) (tTaskDelayedList s) (idleCount s) (idleMaxCount s) (tickCount s) (cpuUsage s) (enableCpuUsageState s) (primask s) (pendSV s) v.

(** Writing through a task pointer: [task->field = v]. *)
Definition task_upd (task : TaskId) (f : tTask -> tTask) (s : Kernel) : Kernel :=
  set_tasks (upd (tasks s) task (f (tasks s task))) s.

(** ** HAL hooks *)

(** Modelled from the spec: the HAL is target code outside the sources.
    [tTaskEnterCritical] returns the saved interrupt state and disables
    interrupts, [tTaskExitCritical] restores the saved state, and
    [tTaskSwitch] pends the context-switch interrupt (compare
    [triggerPendSVC] of [1.07 DukiTinyOS/main.c]). *)
Definition tTaskEnterCritical (s : Kernel) : Z * Kernel :=
  (primask s, set_primask 1 s).
Definition tTaskExitCritical (status : Z) (s : Kernel) : Kernel :=
  set_primask status s.
Definition tTaskSwitch (s : Kernel) : Kernel := set_pendSV true s.

(** ** main.c: scheduler core *)

Definition ptr_eqb (p q : option TaskId) : bool :=
  match p, q with
  | Some a, Some b => Z.eqb a b
  | None, None => true
  | _, _ => false
  end.

(** [tNodeParent] maps a node to the object that embeds it; nodes are named
    by their owner, so it is the identity on the nodes of a list.  The
    definition follows the source where the bit found is the index of a
    ready list inside [taskTable] and that list is not empty.  Elsewhere the
    source has no defined result: for an empty bitmap it indexes past
    [taskTable], and for an empty list it takes the parent of the null node,
    a pointer that is not null and is no task.  [None] stands for these
    cases, and what is stated about the selection carries the hypothesis
    that the selected list is not empty. *)
Definition tTaskHighestReady (s : Kernel) : option TaskId :=
  let highestPrio := tBitMapGetFirstSet (taskPrioBitMap s) in
  tListFirst (taskTable s highestPrio).

Definition tTaskSched (s : Kernel) : Kernel :=
  let (status, s) := tTaskEnterCritical s in
  if 0 <? schedLockCounter s then tTaskExitCritical status s
  else
    let tmpTask := tTaskHighestReady s in
    let s := if ptr_eqb tmpTask (curTask s) then s
             else tTaskSwitch (set_nextTask tmpTask s) in
    tTaskExitCritical status s.

Definition tTaskDelayedInit (s : Kernel) : Kernel :=
  set_tTaskDelayedList tListInit s.

Definition tTaskSchedDisable (s : Kernel) : Kernel :=
  let (status, s) := tTaskEnterCritical s in
  let s := if schedLockCounter s <? 255
           then set_schedLockCounter (schedLockCounter s + 1) s else s in
  let s := set_taskPrioBitMap tBitMapInit s in
  tTaskExitCritical status s.

Definition tTaskSchedEnable (s : Kernel) : Kernel :=
  let (status, s) := tTaskEnterCritical s in
  let s := if 0 <? schedLockCounter s then
             let s := set_schedLockCounter (schedLockCounter s - 1) s in
             if schedLockCounter s =? 0 then tTaskSched s else s
           else s in
  tTaskExitCritical status s.

Definition tTaskSchedRdy (s : Kernel) (task : TaskId) : Kernel :=
  let p := prio (tasks s task) in
  let s := set_taskTable (upd (taskTable s) p (tListAddFirst (taskTable s p) task)) s in
  set_taskPrioBitMap (tBitMapSet (taskPrioBitMap s) p) s.

Definition tTaskSchedUnRdy (s : Kernel) (task : TaskId) : Kernel :=
  let p := prio (tasks s task) in
  let s := set_taskTable (upd (taskTable s) p (tListRemove (taskTable s p) task)) s in
  if tListCount (taskTable s p) =? 0
  then set_taskPrioBitMap (tBitMapClear (taskPrioBitMap s) p) s
  else s.

Definition tTaskSchedRemove (s : Kernel) (task : TaskId) : Kernel :=
  let p := prio (tasks s task) in
  let s := set_taskTable (upd (taskTable s) p (tListRemove (taskTable s p) task)) s in
  if tListCount (taskTable s p) =? 0
  then set_taskPrioBitMap (tBitMapClear (taskPrioBitMap s) p) s
  else s.

Definition tTimeTickInit (s : Kernel) : Kernel := set_tickCount 0 s.

Definition initCpuUsageState (s : Kernel) : Kernel :=
  let s := set_enableCpuUsageState 0 s in
  let s := set_idleCount 0 s in
  let s := set_cpuUsage 0 s in
  set_idleMaxCount 0 s.

Section WithConfig.

Variable cfg : tConfig.

Definition tTaskSchedInit (s : Kernel) : Kernel :=
  let (status, s) := tTaskEnterCritical s in
  let s := set_schedLockCounter 0 s in
  let s := set_taskTable
             (fun i => if (0 <=? i) && (i <? TINYOS_PRIO_COUNT cfg)
                       then tListInit else taskTable s i) s in
  tTaskExitCritical status s.

(** ** main.c: delay list *)

Definition tTimeTaskWait (s : Kernel) (task : TaskId) (ticks : Z) : Kernel :=
  let s := task_upd task (set_delayTicks ticks) s in
  let s := set_tTaskDelayedList (tListAddLast (tTaskDelayedList s) task) s in
  task_upd task
    (fun t => set_state (Z.lor (state t) (TINYOS_TASK_STATE_DELAYED cfg)) t) s.

Definition tTimeTaskWakeUp (s : Kernel) (task : TaskId) : Kernel :=
  let s := set_tTaskDelayedList (tListRemove (tTaskDelayedList s) task) s in
  task_upd task
    (fun t => set_state
                (Z.land (state t) (u32 (Z.lnot (TINYOS_TASK_STATE_DELAYED cfg)))) t) s.

Definition tTimeTaskRemove (s : Kernel) (task : TaskId) : Kernel :=
  set_tTaskDelayedList (tListRemove (tTaskDelayedList s) task) s.

(** Modelled from the spec: [tEvent.c] is not among the sources.  The spec:
    "eventRemoveTask(task, msg, result): remove task from its event's queue
    and mark it ready with the given result".  Marking ready clears the
    wait-for-event bits of the state (READY is "no bits set") and the
    back-reference to the event; entering the ready queue is left to the
    caller, as the tick handler shows. *)
Definition tEventRemoveTask (s : Kernel) (task : TaskId) (msg : Z) (result : Z)
  : Kernel :=
  match waitEvent (tasks s task) with
  | None => s
  | Some e =>
      let s := set_events
                 (upd (events s) e
                    (mkEvent (tListRemove (waitList (events s e)) task))) s in
      let s := task_upd task (set_waitEvent None) s in
      let s := task_upd task (set_eventMsg msg) s in
      let s := task_upd task (set_waitEventResult result) s in
      task_upd task
        (fun t => set_state
                    (Z.land (state t) (u32 (Z.lnot (TINYOS_TASK_WAIT_MASK cfg)))) t) s
  end.

(** ** main.c: CPU usage *)

(** [cpuUsage] is a [float] that receives the value of an expression over
    [uint32_t]; the field holds that value before its conversion.  Division
    is the division of [uint32_t]; the source divides without looking at the
    divisor, and [Z.div] by 0 is 0. *)
Definition checkCpuUsage (s : Kernel) : Kernel :=
  if enableCpuUsageState s =? 0 then
    let s := set_enableCpuUsageState 1 s in
    set_tickCount 0 s
  else if tickCount s =? TICKS_PER_SEC cfg then
    let s := set_idleMaxCount (idleCount s) s in
    let s := set_idleCount 0 s in
    tTaskSchedEnable s
  else if tickCount s mod TICKS_PER_SEC cfg =? 0 then
    let s := set_cpuUsage
               (u32 (u32 (1 - idleCount s / idleMaxCount s) * 100)) s in
    set_idleCount 0 s
  else s.

(** ** main.c: tick handler *)

(** Body of the loop over the delay list (lines 142-149). *)
Definition tickDelayedTask (s : Kernel) (task : TaskId) : Kernel :=
  let s := task_upd task (fun t => set_delayTicks (u32 (delayTicks t - 1)) t) s in
  if delayTicks (tasks s task) =? 0 then
    let s := match waitEvent (tasks s task) with
             | Some _ => tEventRemoveTask s task 0 (tErrorTimeOut cfg)
             | None => s
             end in
    let s := tTimeTaskWakeUp s task in
    tTaskSchedRdy s task
  else s.

(** The loop over the delay list (lines 141-150).  Removing a node leaves
    the node's own [nextNode] in place, and the body inserts nothing into the
    delay list, so the loop visits the nodes that are on the list when it
    starts, in order. *)
Definition tickDelayed (s : Kernel) : Kernel :=
  fold_left tickDelayedTask (tTaskDelayedList s) s.

(** Time slice of the running task (lines 152-159).  [curTask] is
    dereferenced unchecked: without a current task there is no result. *)
Definition tickSlice (s : Kernel) : option Kernel :=
  match curTask s with
  | None => None
  | Some c =>
      let s := task_upd c (fun t => set_slice (u32 (slice t - 1)) t) s in
      if slice (tasks s c) =? 0 then
        let p := prio (tasks s c) in
        if 0 <? tListCount (taskTable s p) then
          let s := set_taskTable
                     (upd (taskTable s) p (tListRemoveFirst (taskTable s p))) s in
          let s := set_taskTable
                     (upd (taskTable s) p (tListAddLast (taskTable s p) c)) s in
          Some (task_upd c (set_slice (TINYOS_SLICE_MAX cfg)) s)
        else Some s
      else Some s
  end.

(** The timer module of this snapshot is not among the sources; the handler
    takes its tick notification as a parameter. *)
Variable tTimerModuleTickNotify : Kernel -> Kernel.

Definition tTaskSystemTickHandler (s : Kernel) : option Kernel :=
  let (status, s) := tTaskEnterCritical s in
  let s := tickDelayed s in
  match tickSlice s with
  | None => None
  | Some s =>
      let s := set_tickCount (u32 (tickCount s + 1)) s in
      let s := checkCpuUsage s in
      let s := tTaskExitCritical status s in
      let s := tTimerModuleTickNotify s in
      Some (tTaskSched s)
  end.

End WithConfig.

(** ** tTask.c *)

(** [memset(p, c, n)] on word-indexed little-endian RAM: [n / 4] whole words
    from [p] on, and the low [n mod 4] bytes of the word after them. *)
Definition memset (m : Z -> Z) (p : Z) (c : Z) (n : Z) : Z -> Z :=
  let w := (c mod 256) * 0x01010101 in
  let r := 2 ^ (8 * (n mod 4)) in
  fun a =>
    if (p <=? a) && (a <? p + n / 4) then w
    else if a =? p + n / 4 then (m a / r) * r + w mod r
    else m a.

(** [*(--stackTop) = v], for each [v] in turn. *)
Fixpoint pushWords (m : Z -> Z) (stackTop : Z) (vs : list Z) : (Z -> Z) * Z :=
  match vs with
  | [] => (m, stackTop)
  | v :: vs' => pushWords (upd m (stackTop - 1) v) (stackTop - 1) vs'
  end.

(** The synthetic exception frame: xPSR, PC, LR, R12, R3-R0, R11-R4. *)
Definition initialFrame (entry param : Z) : list Z :=
  [ Z.shiftl 1 24; entry; 0x14;
    0x12; 0x3; 0x2; 0x1; param;
    0x11; 0x10; 0x9; 0x8; 0x7; 0x6; 0x5; 0x4 ].

(** [sizeof(tTaskStack)]: a stack word is a [uint32_t]. *)
Definition sizeof_tTaskStack : Z := 4.

(** Task information, [tTaskInfo] as [tTaskGetInfo] fills it. *)
Record tTaskInfo : Type := mkTaskInfo {
  info_delayTicks : Z;
  info_prio : Z;
  info_slice : Z;
  info_state : Z;
  info_suspendCount : Z;
  info_stackSize : Z;
  info_stackFree : Z
}.

(** Outcome of the stack scan of [tTaskGetInfo]: the number of free words,
    or the address of a word read outside the stack region of the task. *)
Inductive ScanResult : Type :=
  | ScanDone (free : Z)
  | ScanOutOfRange (addr : Z)
  | ScanNoFuel.

Section TaskWithConfig.

Variable cfg : tConfig.

(** [tNodeInit] of [delayNode] and [linkNode] makes each node point to
    itself and changes no list. *)
Definition tTaskInit (s : Kernel) (task : TaskId) (entry param : Z) (prio_ : Z)
    (stack_ : Z) (stackSize_ : Z) : Kernel :=
  let s := task_upd task (set_stackBase stack_) s in
  let s := task_upd task (set_stackSize stackSize_) s in
  let s := set_mem (memset (mem s) stack_ 0 stackSize_) s in
  let stackTop := stack_ + stackSize_ / sizeof_tTaskStack in
  let (m, stackTop) := pushWords (mem s) stackTop (initialFrame entry param) in
  let s := set_mem m s in
  let s := task_upd task (set_stack stackTop) s in
  let s := task_upd task (set_delayTicks 0) s in
  let s := task_upd task (set_prio prio_) s in
  let s := task_upd task (set_state TINYOS_TASK_STATE_RDY) s in
  let s := task_upd task (set_slice (TINYOS_SLICE_MAX cfg)) s in
  let s := task_upd task (set_suspendCount 0) s in
  let s := task_upd task (set_clean None) s in
  let s := task_upd task (set_cleanParam 0) s in
  let s := task_upd task (set_requestDeleteFlag 0) s in
  tTaskSchedRdy s task.

Definition tTaskSuspend (s : Kernel) (task : TaskId) : Kernel :=
  let (status, s) := tTaskEnterCritical s in
  let s :=
    if Z.land (state (tasks s task)) (TINYOS_TASK_STATE_DELAYED cfg) =? 0 then
      let s := task_upd task
                 (fun t => set_suspendCount (u32 (suspendCount t + 1)) t) s in
      if suspendCount (tasks s task) <=? 1 then
        let s := task_upd task
                   (fun t => set_state
                               (Z.lor (state t) (TINYOS_TASK_STATE_SUSPEND cfg)) t) s in
        let s := tTaskSchedUnRdy s task in
        if ptr_eqb (Some task) (curTask s) then
          let s := tTaskExitCritical status s in
          tTaskSched s
        else s
      else s
    else s in
  tTaskExitCritical status s.

End TaskWithConfig.

(** A word of the stack of [task], read through a pointer that is checked
    against the task's region [stackBase, stackBase + stackSize): [None]
    outside. *)
Definition stackWord (s : Kernel) (task : TaskId) (a : Z) : option Z :=
  let t := tasks s task in
  if (stackBase t <=? a) && (a <? stackBase t + stackSize t / sizeof_tTaskStack)
  then Some (mem s a) else None.

(** The loop of [tTaskGetInfo]: the condition reads the word at [stackEnd],
    advances [stackEnd], and holds when the word is 0 and the advanced
    pointer is [<= stackBase + stackSize / sizeof(tTaskStack)]; the body
    counts one free word.  One unit of fuel per evaluation of the
    condition. *)
Fixpoint stackFreeScan (s : Kernel) (task : TaskId) (fuel : nat)
    (stackEnd : Z) (stackFree : Z) : ScanResult :=
  match fuel with
  | O => ScanNoFuel
  | S fuel' =>
      match stackWord s task stackEnd with
      | None => ScanOutOfRange stackEnd
      | Some w =>
          let stackEnd := stackEnd + 1 in
          let t := tasks s task in
          if (w =? 0) &&
             (stackEnd <=? stackBase t + stackSize t / sizeof_tTaskStack)
          then stackFreeScan s task fuel' stackEnd (u32 (stackFree + 1))
          else ScanDone stackFree
      end
  end.

(** The condition is evaluated at most [stackSize / 4 + 2] times. *)
Definition scanFuel (s : Kernel) (task : TaskId) : nat :=
  Z.to_nat (stackSize (tasks s task) / sizeof_tTaskStack + 2).

Definition tTaskGetInfo (s : Kernel) (task : TaskId) : option (tTaskInfo * Kernel) :=
  let (status, s) := tTaskEnterCritical s in
  let t := tasks s task in
  match stackFreeScan s task (scanFuel s task) (stackBase t) 0 with
  | ScanDone free =>
      let info := mkTaskInfo (delayTicks t) (prio t) (slice t) (state t)
                    (suspendCount t) (stackSize t)
                    (u32 (free * sizeof_tTaskStack)) in
      Some (info, tTaskExitCritical status s)
  | _ => None
  end.

(** ** tTask.c: wake-up, deletion, requests *)

Section TaskLifeWithConfig.

Variable cfg : tConfig.

Definition tTaskWakeUp (s : Kernel) (task : TaskId) : Kernel :=
  let (status, s) := tTaskEnterCritical s in
  let s :=
    if negb (Z.land (state (tasks s task)) (TINYOS_TASK_STATE_SUSPEND cfg) =? 0) then
      let s := task_upd task
                 (fun t => set_suspendCount (u32 (suspendCount t - 1)) t) s in
      if suspendCount (tasks s task) =? 0 then
        let s := task_upd task
                   (fun t => set_state
                               (Z.land (state t)
                                  (u32 (Z.lnot (TINYOS_TASK_STATE_SUSPEND cfg)))) t) s in
        let s := tTaskSchedRdy s task in
        let s := tTaskExitCritical status s in
        tTaskSched s
      else s
    else s in
  tTaskExitCritical status s.

Definition tTaskSetCleanCallFunc (s : Kernel) (task : TaskId) (clean_ : option Z)
    (param : Z) : Kernel :=
  let s := task_upd task (set_clean clean_) s in
  task_upd task (set_cleanParam param) s.

(** The call [task->clean(task->cleanParam)], if [clean] is not null.  The
    cleanup function is application code: the model answers the call that is
    made and takes the callback to leave the kernel as it is. *)
Definition cleanCall (s : Kernel) (task : TaskId) : list (Z * Z) :=
  match clean (tasks s task) with
  | Some f => [(f, cleanParam (tasks s task))]
  | None => []
  end.

(** [tTaskForceDelete]: the cleanup calls made, and the kernel. *)
Definition tTaskForceDelete (s : Kernel) (task : TaskId) : list (Z * Z) * Kernel :=
  let (status, s) := tTaskEnterCritical s in
  let s :=
    if negb (Z.land (state (tasks s task)) (TINYOS_TASK_STATE_DELAYED cfg) =? 0)
    then tTimeTaskRemove s task
    else if Z.land (state (tasks s task)) (TINYOS_TASK_STATE_SUSPEND cfg) =? 0
         then tTaskSchedRemove s task
         else s in
  let called := cleanCall s task in
  let s := if ptr_eqb (curTask s) (Some task)
           then tTaskSched (tTaskExitCritical status s)
           else s in
  (called, tTaskExitCritical status s).

Definition tTaskRequestDelete (s : Kernel) (task : TaskId) : Kernel :=
  let (status, s) := tTaskEnterCritical s in
  let s := task_upd task (set_requestDeleteFlag 1) s in
  tTaskExitCritical status s.

(** [curTask] is dereferenced unchecked: no result without a current task.
    The flag is returned as a [uint8_t]. *)
Definition tTaskIsRequestedDeleted (s : Kernel) : option (Z * Kernel) :=
  match curTask s with
  | None => None
  | Some c =>
      let (status, s) := tTaskEnterCritical s in
      let delete := requestDeleteFlag (tasks s c) mod 256 in
      Some (delete, tTaskExitCritical status s)
  end.

Definition tTaskDeleteSelf (s : Kernel) : option (list (Z * Z) * Kernel) :=
  match curTask s with
  | None => None
  | Some c =>
      let (status, s) := tTaskEnterCritical s in
      let s := tTaskSchedRemove s c in
      let called := cleanCall s c in
      let s := tTaskExitCritical status s in
      Some (called, tTaskSched s)
  end.

End TaskLifeWithConfig.

(** ** tTimer.c *)

Module Timer.

Inductive tTimerState : Type :=
  | tTimerCreated
  | tTimerStarted
  | tTimerRunning
  | tTimerStopped
  | tTimerDestroyed.

Definition TimerId := Z.

(** [tTimer] of [tTimer.h]; [linkNode] is the timer's membership in one of
    the two timer lists. *)
Record tTimer : Type := mkTimer {
  startDelayTicks : Z;
  durationTicks : Z;
  delayTicks : Z;
  timerFunc : Z;
  arg : Z;
  config : Z;
  state : tTimerState
}.

Definition set_delayTicks v t := mkTimer (startDelayTicks t) (durationTicks t) v (timerFunc t) (arg t) (config t) (state t).
Definition set_state v t := mkTimer (startDelayTicks t) (durationTicks t) (delayTicks t) (timerFunc t) (arg t) (config t) v.

Definition TIMER_CONFIG_TYPE_HARD : Z := Z.shiftl 1 0.
Definition TIMER_CONFIG_TYPE_SOFT : Z := Z.shiftl 0 0.

(** The two lists of [tTimer.c]. *)
Inductive TimerList : Type := HardList | SoftList.

(** The statics of [tTimer.c], the timer objects, the interrupt mask, and
    the callbacks invoked so far, oldest first.  A callback is application
    code: the model records the call [(timerFunc, arg)] and takes the
    callback to leave the timer module as it is.

    Modelled from the spec: [tSem.c] is not among the sources.  Of the
    protect semaphore the model keeps the count (initial and maximal value
    1); "wait: if count > 0, decrement and return, else block", "notify: if
    max = 0 or count < max, increment".  No second task runs in between, so
    the semaphore has no waiters. *)
Record TimerModule : Type := mkModule {
  timers : TimerId -> tTimer;
  tTimerHardList : tList;
  tTimerSoftList : tList;
  tTimerProtectSem : Z;
  primask : Z;
  calls : list (Z * Z)
}.

Definition set_timers v s := mkModule v (tTimerHardList s) (tTimerSoftList s) (tTimerProtectSem s) (primask s) (calls s).
Definition set_tTimerHardList v s := mkModule (timers s) v (tTimerSoftList s) (tTimerProtectSem s) (primask s) (calls s).
Definition set_tTimerSoftList v s := mkModule (timers s) (tTimerHardList s) v (tTimerProtectSem s) (primask s) (calls s).
Definition set_tTimerProtectSem v s := mkModule (timers s) (tTimerHardList s) (tTimerSoftList s) v (primask s) (calls s).
Definition set_primask v s := mkModule (timers s) (tTimerHardList s) (tTimerSoftList s) (tTimerProtectSem s) v (calls s).
Definition set_calls v s := mkModule (timers s) (tTimerHardList s) (tTimerSoftList s) (tTimerProtectSem s) (primask s) v.

Definition timer_upd (timer : TimerId) (f : tTimer -> tTimer) (s : TimerModule)
  : TimerModule :=
  set_timers (upd (timers s) timer (f (timers s timer))) s.

Definition getList (which : TimerList) (s : TimerModule) : tList :=
  match which with
  | HardList => tTimerHardList s
  | SoftList => tTimerSoftList s
  end.

Definition setList (which : TimerList) (l : tList) (s : TimerModule) : TimerModule :=
  match which with
  | HardList => set_tTimerHardList l s
  | SoftList => set_tTimerSoftList l s
  end.

Definition tTaskEnterCritical (s : TimerModule) : Z * TimerModule :=
  (primask s, set_primask 1 s).
Definition tTaskExitCritical (status : Z) (s : TimerModule) : TimerModule :=
  set_primask status s.

(** [tSemWait(&tTimerProtectSem, 0)]: [None] when the caller would block. *)
Definition tSemWait_protect (s : TimerModule) : option TimerModule :=
  if 0 <? tTimerProtectSem s
  then Some (set_tTimerProtectSem (tTimerProtectSem s - 1) s)
  else None.

(** [tSemNotify(&tTimerProtectSem)], maximal count 1. *)
Definition tSemNotify_protect (s : TimerModule) : TimerModule :=
  if tTimerProtectSem s <? 1
  then set_tTimerProtectSem (tTimerProtectSem s + 1) s
  else s.

Definition tTimerInit (s : TimerModule) (timer : TimerId)
    (delayTicks_ durationTicks_ timerFunc_ arg_ config_ : Z) : TimerModule :=
  let t := timers s timer in
  let t := mkTimer delayTicks_ durationTicks_ (delayTicks t) timerFunc_ arg_
             config_ (state t) in
  let t := if delayTicks_ =? 0
           then set_delayTicks durationTicks_ t
           else set_delayTicks (startDelayTicks t) t in
  let t := set_state tTimerCreated t in
  set_timers (upd (timers s) timer t) s.

Definition tTimerStart (s : TimerModule) (timer : TimerId) : option TimerModule :=
  match state (timers s timer) with
  | tTimerCreated | tTimerStopped =>
      let s := timer_upd timer
                 (fun t => set_delayTicks
                             (if negb (startDelayTicks t =? 0)
                              then startDelayTicks t else durationTicks t) t) s in
      let s := timer_upd timer (set_state tTimerStarted) s in
      if negb (Z.land (config (timers s timer)) TIMER_CONFIG_TYPE_HARD =? 0) then
        let (status, s) := tTaskEnterCritical s in
        let s := set_tTimerHardList (tListAddFirst (tTimerHardList s) timer) s in
        Some (tTaskExitCritical status s)
      else
        match tSemWait_protect s with
        | None => None
        | Some s =>
            let s := set_tTimerSoftList (tListAddLast (tTimerSoftList s) timer) s in
            Some (tSemNotify_protect s)
        end
  | _ => Some s
  end.

Definition tTimerStop (s : TimerModule) (timer : TimerId) : option TimerModule :=
  match state (timers s timer) with
  | tTimerStarted | tTimerRunning =>
      if negb (Z.land (config (timers s timer)) TIMER_CONFIG_TYPE_HARD =? 0) then
        let (status, s) := tTaskEnterCritical s in
        let s := set_tTimerHardList (tListRemove (tTimerHardList s) timer) s in
        Some (tTaskExitCritical status s)
      else
        match tSemWait_protect s with
        | None => None
        | Some s =>
            let s := set_tTimerSoftList (tListRemove (tTimerSoftList s) timer) s in
            Some (tSemNotify_protect s)
        end
  | _ => Some s
  end.

(** The condition [(timer->delayTicks == 0) || (--timer->delayTicks == 0)]:
    the countdown is decremented only when it is not 0 already. *)
Definition expire (s : TimerModule) (timer : TimerId) : bool * TimerModule :=
  if delayTicks (timers s timer) =? 0 then (true, s)
  else
    let s := timer_upd timer
               (fun t => set_delayTicks (u32 (delayTicks t - 1)) t) s in
    (delayTicks (timers s timer) =? 0, s).

(** Body of the loop of [tTimerCallFuncList]. *)
Definition callFuncTimer (which : TimerList) (s : TimerModule) (timer : TimerId)
  : TimerModule :=
  let (fire, s) := expire s timer in
  if fire then
    let s := timer_upd timer (set_state tTimerRunning) s in
    let s := set_calls
               (calls s ++ [(timerFunc (timers s timer), arg (timers s timer))]) s in
    let s := timer_upd timer (set_state tTimerStarted) s in
    if 0 <? durationTicks (timers s timer) then
      timer_upd timer (fun t => set_delayTicks (durationTicks t) t) s
    else
      let s := setList which (tListRemove (getList which s) timer) s in
      timer_upd timer (set_state tTimerStopped) s
  else s.

(** The loop visits the nodes that are on the list when it starts: removing
    a node leaves the node's own [nextNode] in place. *)
Definition tTimerCallFuncList (which : TimerList) (s : TimerModule) : TimerModule :=
  fold_left (callFuncTimer which) (getList which s) s.

Definition tTimerDestroy (s : TimerModule) (timer : TimerId) : option TimerModule :=
  match tTimerStop s timer with
  | None => None
  | Some s => Some (timer_upd timer (set_state tTimerDestroyed) s)
  end.

(** [tTimerModuleInit]: both lists empty, the protect semaphore at 1.  The
    tick semaphore and the worker task are not modelled. *)
Definition tTimerModuleInit (s : TimerModule) : TimerModule :=
  let s := set_tTimerHardList tListInit s in
  let s := set_tTimerSoftList tListInit s in
  set_tTimerProtectSem 1 s.

(** Timer objects and statics at reset: all zero. *)
Definition zeroTimer : tTimer := mkTimer 0 0 0 0 0 0 tTimerCreated.
Definition resetModule : TimerModule :=
  mkModule (fun _ => zeroTimer) [] [] 0 0 [].

(** Sequencing of calls that may block. *)
Definition andThen (m : option TimerModule)
    (f : TimerModule -> option TimerModule) : option TimerModule :=
  match m with
  | Some s => f s
  | None => None
  end.

(** What an observer sees of a timer: its state, its countdown, and whether
    it is on the hard list and on the soft list. *)
Definition observe (timer : TimerId) (s : TimerModule)
  : tTimerState * Z * bool * bool :=
  (state (timers s timer), delayTicks (timers s timer),
   existsb (Z.eqb timer) (tTimerHardList s),
   existsb (Z.eqb timer) (tTimerSoftList s)).

(** A freshly initialised timer, started. *)
Definition initStart (timer : TimerId)
    (delayTicks_ durationTicks_ timerFunc_ arg_ config_ : Z)
    (s : TimerModule) : option TimerModule :=
  tTimerStart
    (tTimerInit s timer delayTicks_ durationTicks_ timerFunc_ arg_ config_) timer.

(** A freshly initialised timer, started, stopped and started again. *)
Definition initStartStopStart (timer : TimerId)
    (delayTicks_ durationTicks_ timerFunc_ arg_ config_ : Z)
    (s : TimerModule) : option TimerModule :=
  andThen
    (andThen
       (tTimerStart
          (tTimerInit s timer delayTicks_ durationTicks_ timerFunc_ arg_ config_)
          timer)
       (fun s => tTimerStop s timer))
    (fun s => tTimerStart s timer).

(** *** The scan, timer by timer *)

(** The condition of the scan holds for a timer: its countdown is 0 already,
    or decrementing it gives 0. *)
Definition expired (t : tTimer) : Prop :=
  delayTicks t = 0 \/ u32 (delayTicks t - 1) = 0.

Definition fires (t : tTimer) : bool :=
  (delayTicks t =? 0) || (u32 (delayTicks t - 1) =? 0).

(** The timer fires and is a one-shot timer. *)
Definition stops (t : tTimer) : bool :=
  fires t && negb (0 <? durationTicks t).

(** A timer after the scan has visited it. *)
Definition visited (t : tTimer) : tTimer :=
  if fires t then
    if 0 <? durationTicks t
    then mkTimer (startDelayTicks t) (durationTicks t) (durationTicks t)
           (timerFunc t) (arg t) (config t) tTimerStarted
    else mkTimer (startDelayTicks t) (durationTicks t) 0
           (timerFunc t) (arg t) (config t) tTimerStopped
  else set_delayTicks (u32 (delayTicks t - 1)) t.

(** The call that the scan makes for a timer. *)
Definition callback (s : TimerModule) (timer : TimerId) : Z * Z :=
  (timerFunc (timers s timer), arg (timers s timer)).

(** Three hard timers: a periodic one about to expire, one that keeps
    counting, and a one-shot timer whose countdown is 0. *)
Definition scanSample : TimerModule :=
  mkModule
    (upd (upd (upd (fun _ => zeroTimer)
       1 (mkTimer 0 10 1 7 1 TIMER_CONFIG_TYPE_HARD tTimerStarted))
       2 (mkTimer 5 0 5 7 2 TIMER_CONFIG_TYPE_HARD tTimerStarted))
       3 (mkTimer 0 0 0 7 3 TIMER_CONFIG_TYPE_HARD tTimerStarted))
    [1; 2; 3] [] 1 0 [].

End Timer.

(** ** Scheduler states *)

(** The state that [tTaskSched] leaves when it decides to switch to [t]. *)
Definition switch_to (t : option TaskId) (s : Kernel) : Kernel :=
  set_pendSV true (set_nextTask t s).

(** Bit [p] of [taskPrioBitMap] is set exactly when [taskTable[p]] is not
    empty, for every priority [p]. *)
Definition prioBitMap_inv (cfg : tConfig) (s : Kernel) : Prop :=
  forall p, 0 <= p < TINYOS_PRIO_COUNT cfg ->
    (taskTable s p <> [] <-> Z.testbit (taskPrioBitMap s) p = true).

(** ** Boot *)

(** The globals and RAM at reset: all zero. *)
Definition zeroTask : tTask := mkTask 0 0 0 0 0 0 0 0 None 0 0 None 0 0.

Definition resetKernel : Kernel :=
  mkKernel (fun _ => zeroTask) (fun _ => mkEvent []) None None 0 (fun _ => [])
    0 [] 0 0 0 0 0 0 false (fun _ => 0).

(** Addresses of [TtaskIdle], of [taskIdleStack] (in words) and of
    [taskIdle]; any three values serve. *)
Definition TtaskIdle : TaskId := 0x20000000.
Definition taskIdleStack : Z := 0x08000400.
Definition taskIdle : Z := 0x00000101.

(** Modelled from the spec: [tTaskRunFirst] pends the context-switch
    interrupt, whose handler makes [nextTask] the running task. *)
Definition tTaskRunFirst (s : Kernel) : Kernel := set_pendSV true s.
Definition PendSV_Handler (s : Kernel) : Kernel :=
  set_pendSV false (set_curTask (nextTask s) s).

(** [main] of [main.c]; the timer module keeps its own state and is left
    out. *)
Definition main (cfg : tConfig) (s : Kernel) : Kernel :=
  let s := tTaskSchedInit cfg s in
  let s := tTaskDelayedInit s in
  let s := tTimeTickInit s in
  let s := initCpuUsageState s in
  let s := tTaskInit cfg s TtaskIdle taskIdle 0 (TINYOS_PRIO_COUNT cfg - 1)
             taskIdleStack (TINYOS_IDLETASK_STACK_SIZE cfg) in
  let s := set_nextTask (tTaskHighestReady s) s in
  tTaskRunFirst s.

(** The kernel when the idle task starts to run. *)
Definition booted (cfg : tConfig) : Kernel := PendSV_Handler (main cfg resetKernel).

(** A second task, of priority 1, created by the idle task. *)
Definition task1 : TaskId := 0x20000100.
Definition task1Stack : Z := 0x08000800.
Definition withTask1 (cfg : tConfig) : Kernel :=
  tTaskInit cfg (booted cfg) task1 0x201 0 1 task1Stack 512.

(** [task1] after it went to sleep for [ticks] ticks. *)
Definition task1Sleeping (cfg : tConfig) (ticks : Z) : Kernel :=
  tTaskSchedUnRdy (tTimeTaskWait cfg (withTask1 cfg) task1 ticks) task1.

Definition task1Delayed (cfg : tConfig) : Kernel := task1Sleeping cfg 5.

(** A second task of priority 1, [task3].  It runs first, being the head of
    the ready list, and goes to sleep for [TINYOS_SLICE_MAX] ticks (the body
    of a delay: [tTimeTaskWait], [tTaskSchedUnRdy], [tTaskSched]); [task1]
    is given the processor with a full time slice.  The delay of [task3]
    and the slice of [task1] run out at the same tick. *)
Definition task3 : TaskId := 0x20000300.
Definition task3Stack : Z := 0x08001000.
Definition task3Sleeps (cfg : tConfig) : Kernel :=
  let s := tTaskInit cfg (withTask1 cfg) task3 0x401 0 1 task3Stack 512 in
  let s := PendSV_Handler (tTaskSched s) in
  let s := tTaskSchedUnRdy (tTimeTaskWait cfg s task3 (TINYOS_SLICE_MAX cfg)) task3 in
  PendSV_Handler (tTaskSched s).

(** [n] ticks in a row, with no timer to scan; [None] as soon as the
    handler has no result. *)
Definition ticks (cfg : tConfig) (n : nat) (s : Kernel) : option Kernel :=
  Nat.iter n
    (fun o => match o with
              | Some s => tTaskSystemTickHandler cfg (fun s => s) s
              | None => None
              end)
    (Some s).

(** What is seen of a task: whether it is on the delay list, its count, its
    state, and whether it is on the ready list of its priority. *)
Definition placed (task : TaskId) (s : Kernel) : bool * Z * Z * bool :=
  (existsb (Z.eqb task) (tTaskDelayedList s),
   delayTicks (tasks s task),
   state (tasks s task),
   existsb (Z.eqb task) (taskTable s (prio (tasks s task)))).

(** The countdown of a task reaches 0 at this tick. *)
Definition wakes (t : tTask) : bool := u32 (delayTicks t - 1) =? 0.

(** ** CPU usage as the specification words it *)

(** The spec: "cpuUsage := (1 - idleCount / idleMaxCount) x 100", a ratio
    over the exact values of the two counters. *)
Definition cpuUsage_ratio (idle idleMax : Z) : Q :=
  ((1 - inject_Z idle / inject_Z idleMax) * 100)%Q.

(** The kernel at the end of a later second (tick 200 at 100 ticks per
    second) in which the idle task counted [idle] rounds, against
    [idleMax] in the calibration second. *)
Definition secondElapsed (idle idleMax : Z) : Kernel :=
  set_tickCount 200
    (set_enableCpuUsageState 1
       (set_idleMaxCount idleMax
          (set_idleCount idle (set_cpuUsage 7 (booted sampleConfig))))).

(** The idle task, alone at its priority, with one tick of its slice
    left. *)
Definition lastSliceTick (cfg : tConfig) : Kernel :=
  task_upd TtaskIdle (set_slice 1) (booted cfg).

(** A task whose stack region of four words holds only zeros. *)
Definition zeroStackTask (cfg : tConfig) : Kernel :=
  set_mem (memset (mem (withTask1 cfg)) task1Stack 0 16)
    (task_upd task1 (set_stackSize 16) (withTask1 cfg)).

(** A task created with [stackSize = 0]. *)
Definition task2 : TaskId := 0x20000200.
Definition noStackTask (cfg : tConfig) : Kernel :=
  tTaskInit cfg (booted cfg) task2 0x301 0 2 0x08000C00 0.

(** * Properties *)

(** ** Lists *)

Lemma existsb_eqb_In (t : Z) (l : list Z) :
  existsb (Z.eqb t) l = true <-> In t l.
Proof.
  rewrite existsb_exists. split.
  - intros [x [Hx He]]. apply Z.eqb_eq in He. now subst.
  - intro H. exists t. split; [exact H | apply Z.eqb_refl].
Qed.

Lemma filter_twice {A : Type} (f g : A -> bool) (l : list A) :
  filter f (filter g l) = filter (fun x => g x && f x) l.
Proof.
  induction l as [|a l IH]; simpl; [reflexivity|].
  destruct (g a); simpl; [destruct (f a)|]; now rewrite IH.
Qed.

(** ** Critical sections *)

Lemma exit_enter_critical (s : Kernel) :
  tTaskExitCritical (fst (tTaskEnterCritical s)) (snd (tTaskEnterCritical s)) = s.
Proof. destruct s; reflexivity. Qed.

Lemma ptr_eqb_eq (p q : option TaskId) : ptr_eqb p q = true <-> p = q.
Proof.
  destruct p as [a|], q as [b|]; simpl; split; intro H;
    try discriminate; try reflexivity.
  - apply Z.eqb_eq in H. now subst.
  - injection H as ->. apply Z.eqb_refl.
Qed.

(** ** The priority bitmap *)

Lemma firstSetFrom_spec (b : tBitMap) (n : nat) :
  forall pos,
    let r := firstSetFrom b n pos in
    pos <= r <= pos + Z.of_nat n /\
    (forall j, pos <= j < r -> Z.testbit b j = false) /\
    (r < pos + Z.of_nat n -> Z.testbit b r = true).
Proof.
  induction n as [|n IH]; intro pos; cbv zeta; cbn [firstSetFrom].
  - split; [lia|]. split; [intros j Hj; lia | lia].
  - destruct (Z.testbit b pos) eqn:Eb.
    + split; [lia|]. split; [intros j Hj; lia | intros _; exact Eb].
    + destruct (IH (pos + 1)) as (Hr & Hlow & Hset).
      split; [lia|]. split.
      * intros j Hj. destruct (Z.eq_dec j pos) as [->|Hne]; [exact Eb|].
        apply Hlow. lia.
      * intro Hlt. apply Hset. lia.
Qed.

(** [tBitMapGetFirstSet] answers the lowest bit that is set among the 32
    bits of the word. *)
Lemma tBitMapGetFirstSet_lowest (b : tBitMap) (p : Z) :
  0 <= p < 32 -> Z.testbit b p = true ->
  let r := tBitMapGetFirstSet b in
  0 <= r <= p /\
  Z.testbit b r = true /\
  (forall j, 0 <= j < r -> Z.testbit b j = false).
Proof.
  intros Hp Hb r. subst r. unfold tBitMapGetFirstSet.
  destruct (firstSetFrom_spec b 32 0) as (Hr & Hlow & Hset).
  change (0 + Z.of_nat 32) with 32 in Hr, Hset.
  assert (Hle : firstSetFrom b 32 0 <= p).
  { destruct (Z.le_gt_cases (firstSetFrom b 32 0) p) as [H|H]; [exact H|].
    rewrite Hlow in Hb by lia. discriminate. }
  split; [lia|]. split; [apply Hset; lia | exact Hlow].
Qed.

(** ** The scheduler *)

(** C4.  [tTaskSched] leaves the whole kernel state as it is while
    [schedLockCounter > 0].  Otherwise, when the lowest set bit of
    [taskPrioBitMap] is the index of a ready list inside [taskTable] and that
    list is not empty, the highest ready task [t] is its head; when [t]
    differs from [curTask] the only changes are [nextTask := t] and the
    pended context switch, and when [t] is [curTask] nothing changes:
    [nextTask] keeps its value and no switch is pended.  For an empty bitmap
    or an empty list the source reads past [taskTable] or takes the parent of
    the null node; nothing is stated for those states. *)
Theorem tTaskSched_spec (cfg : tConfig) (s : Kernel) :
  (0 < schedLockCounter s -> tTaskSched s = s) /\
  (schedLockCounter s <= 0 ->
   forall t,
     tBitMapGetFirstSet (taskPrioBitMap s) < TINYOS_PRIO_COUNT cfg ->
     tListFirst (taskTable s (tBitMapGetFirstSet (taskPrioBitMap s))) = Some t ->
     tTaskHighestReady s = Some t /\
     (Some t <> curTask s ->
        tTaskSched s = switch_to (Some t) s /\
        nextTask (tTaskSched s) = Some t /\
        pendSV (tTaskSched s) = true) /\
     (Some t = curTask s ->
        tTaskSched s = s /\
        nextTask (tTaskSched s) = nextTask s /\
        pendSV (tTaskSched s) = pendSV s)).
Proof.
  unfold tTaskSched. cbn [tTaskEnterCritical].
  change (schedLockCounter (set_primask 1 s)) with (schedLockCounter s).
  change (tTaskHighestReady (set_primask 1 s)) with (tTaskHighestReady s).
  change (curTask (set_primask 1 s)) with (curTask s).
  split.
  - intro Hlock. apply Z.ltb_lt in Hlock.
    rewrite Hlock. apply (exit_enter_critical s).
  - intros Hlock t _ Hhead.
    assert (Hf : (0 <? schedLockCounter s) = false) by (apply Z.ltb_ge; exact Hlock).
    rewrite Hf.
    assert (Hsel : tTaskHighestReady s = Some t) by exact Hhead.
    rewrite Hsel.
    split; [reflexivity|].
    split.
    + intro Hne.
      destruct (ptr_eqb (Some t) (curTask s)) eqn:E.
      * apply ptr_eqb_eq in E. contradiction.
      * destruct s; repeat split; reflexivity.
    + intro He.
      destruct (ptr_eqb (Some t) (curTask s)) eqn:E.
      * destruct s; repeat split; reflexivity.
      * apply ptr_eqb_eq in He. congruence.
Qed.

Lemma tTaskSched_spec_witness :
  tTaskSched (set_schedLockCounter 1 (withTask1 sampleConfig))
    = set_schedLockCounter 1 (withTask1 sampleConfig) /\
  nextTask (tTaskSched (withTask1 sampleConfig)) = Some task1 /\
  tTaskSched (booted sampleConfig) = booted sampleConfig.
Proof.
  split; [|split].
  - apply (proj1 (tTaskSched_spec sampleConfig _)). vm_compute. reflexivity.
  - assert (Hlock : schedLockCounter (withTask1 sampleConfig) <= 0)
      by (vm_compute; discriminate).
    assert (Hin : tBitMapGetFirstSet (taskPrioBitMap (withTask1 sampleConfig))
                  < TINYOS_PRIO_COUNT sampleConfig)
      by (vm_compute; reflexivity).
    assert (Hhead : tListFirst
                      (taskTable (withTask1 sampleConfig)
                         (tBitMapGetFirstSet
                            (taskPrioBitMap (withTask1 sampleConfig))))
                    = Some task1)
      by (vm_compute; reflexivity).
    assert (Hne : Some task1 <> curTask (withTask1 sampleConfig))
      by (vm_compute; discriminate).
    destruct (proj2 (tTaskSched_spec sampleConfig _) Hlock task1 Hin Hhead)
      as (_ & Hsw & _).
    exact (proj1 (proj2 (Hsw Hne))).
  - assert (Hlock : schedLockCounter (booted sampleConfig) <= 0)
      by (vm_compute; discriminate).
    assert (Hin : tBitMapGetFirstSet (taskPrioBitMap (booted sampleConfig))
                  < TINYOS_PRIO_COUNT sampleConfig)
      by (vm_compute; reflexivity).
    assert (Hhead : tListFirst
                      (taskTable (booted sampleConfig)
                         (tBitMapGetFirstSet (taskPrioBitMap (booted sampleConfig))))
                    = Some TtaskIdle)
      by (vm_compute; reflexivity).
    assert (He : Some TtaskIdle = curTask (booted sampleConfig))
      by (vm_compute; reflexivity).
    destruct (proj2 (tTaskSched_spec sampleConfig _) Hlock TtaskIdle Hin Hhead)
      as (_ & _ & Hsame).
    exact (proj1 (Hsame He)).
Defined.

(** ** Suspending a delayed task *)

(** C9.  When the DELAYED bit of the task's state is set, [tTaskSuspend]
    returns the kernel state it was given: the task's [suspendCount] and
    state bits are as before, no ready queue and no bit of the priority
    bitmap changes, and no switch is requested ([nextTask] and the pending
    bit are as before). *)
Theorem tTaskSuspend_delayed (cfg : tConfig) (s : Kernel) (task : TaskId) :
  Z.land (state (tasks s task)) (TINYOS_TASK_STATE_DELAYED cfg) <> 0 ->
  let s' := tTaskSuspend cfg s task in
  s' = s /\
  suspendCount (tasks s' task) = suspendCount (tasks s task) /\
  state (tasks s' task) = state (tasks s task) /\
  (forall p, taskTable s' p = taskTable s p) /\
  taskPrioBitMap s' = taskPrioBitMap s /\
  nextTask s' = nextTask s /\
  pendSV s' = pendSV s.
Proof.
  intros Hd s'.
  assert (E : s' = s).
  { subst s'. unfold tTaskSuspend. simpl.
    replace (tasks (set_primask 1 s) task) with (tasks s task) by reflexivity.
    apply Z.eqb_neq in Hd. rewrite Hd.
    apply (exit_enter_critical s). }
  rewrite E. repeat split; reflexivity.
Qed.

Lemma tTaskSuspend_delayed_witness :
  tTaskSuspend sampleConfig (task1Delayed sampleConfig) task1
    = task1Delayed sampleConfig.
Proof.
  apply (tTaskSuspend_delayed sampleConfig (task1Delayed sampleConfig) task1).
  vm_compute. discriminate.
Defined.

(** ** Task creation *)

Lemma upd_same {A : Type} (f : Z -> A) (k : Z) (v : A) : upd f k v k = v.
Proof. unfold upd. now rewrite Z.eqb_refl. Qed.

Lemma upd_other {A : Type} (f : Z -> A) (k x : Z) (v : A) :
  x <> k -> upd f k v x = f x.
Proof. intro H. unfold upd. apply Z.eqb_neq in H. now rewrite H. Qed.

Lemma tasks_task_upd_same (s : Kernel) (task : TaskId) (f : tTask -> tTask) :
  tasks (task_upd task f s) task = f (tasks s task).
Proof. apply upd_same. Qed.

Lemma tasks_task_upd_other (s : Kernel) (task x : TaskId) (f : tTask -> tTask) :
  x <> task -> tasks (task_upd task f s) x = tasks s x.
Proof. intro H. simpl. now apply upd_other. Qed.

Lemma pushWords_below (vs : list Z) :
  forall (m : Z -> Z) (top a : Z),
    a < top - Z.of_nat (length vs) ->
    fst (pushWords m top vs) a = m a.
Proof.
  induction vs as [|v vs IH]; intros m top a Ha; simpl in *.
  - reflexivity.
  - rewrite IH by lia. apply upd_other. lia.
Qed.

Lemma pushWords_top (vs : list Z) :
  forall (m : Z -> Z) (top : Z),
    snd (pushWords m top vs) = top - Z.of_nat (length vs).
Proof.
  induction vs as [|v vs IH]; intros m top; simpl.
  - lia.
  - rewrite IH. lia.
Qed.

Lemma memset_zero_words (m : Z -> Z) (p n a : Z) :
  p <= a < p + n / 4 -> memset m p 0 n a = 0.
Proof.
  intros [H1 H2]. unfold memset.
  apply Z.leb_le in H1. apply Z.ltb_lt in H2.
  rewrite H1, H2. reflexivity.
Qed.

Lemma testbit_tBitMapSet_same (b p : Z) :
  0 <= p < 32 -> Z.testbit (tBitMapSet b p) p = true.
Proof.
  intro Hp. unfold tBitMapSet, u32.
  rewrite Z.mod_pow2_bits_low by lia.
  rewrite Z.lor_spec, Z.shiftl_spec by lia.
  rewrite Z.sub_diag. simpl. apply orb_true_r.
Qed.

(** The task object and RAM after [tTaskInit]. *)
Lemma tTaskInit_effect (cfg : tConfig) (s : Kernel) (task : TaskId)
    (entry param prio_ stack_ stackSize_ : Z) :
  let s' := tTaskInit cfg s task entry param prio_ stack_ stackSize_ in
  let pushed := pushWords (memset (mem s) stack_ 0 stackSize_)
                  (stack_ + stackSize_ / sizeof_tTaskStack)
                  (initialFrame entry param) in
  tasks s' task
    = mkTask (snd pushed) stack_ stackSize_ 0 prio_ TINYOS_TASK_STATE_RDY
        (TINYOS_SLICE_MAX cfg) 0 (waitEvent (tasks s task))
        (eventMsg (tasks s task)) (waitEventResult (tasks s task)) None 0 0 /\
  mem s' = fst pushed.
Proof.
  intros s' pushed. subst s' pushed. unfold tTaskInit.
  cbn [mem set_mem task_upd set_tasks].
  destruct (pushWords (memset (mem s) stack_ 0 stackSize_)
              (stack_ + stackSize_ / sizeof_tTaskStack)
              (initialFrame entry param)) as [m top].
  unfold tTaskSchedRdy.
  cbn [tasks mem set_mem task_upd set_tasks set_taskTable set_taskPrioBitMap
       fst snd].
  rewrite !upd_same. split; reflexivity.
Qed.

(** C8.  After [tTaskInit(task, entry, param, prio, stack, stackSize)] the
    saved stack pointer is 16 words below the top of the region, every word
    of the region below it holds the sentinel 0, the task is READY with a
    full slice and zeroed [suspendCount], [delayTicks], [clean],
    [cleanParam] and [requestDeleteFlag], it is the head of
    [taskTable[prio]], and bit [prio] of [taskPrioBitMap] is set. *)
Theorem tTaskInit_spec (cfg : tConfig) (s : Kernel) (task : TaskId)
    (entry param prio_ stack_ stackSize_ : Z) :
  0 <= prio_ < 32 ->
  let s' := tTaskInit cfg s task entry param prio_ stack_ stackSize_ in
  let t := tasks s' task in
  stack t = stack_ + stackSize_ / sizeof_tTaskStack - 16 /\
  (forall a, stack_ <= a < stack t -> mem s' a = 0) /\
  state t = TINYOS_TASK_STATE_RDY /\
  slice t = TINYOS_SLICE_MAX cfg /\
  suspendCount t = 0 /\
  delayTicks t = 0 /\
  clean t = None /\
  cleanParam t = 0 /\
  requestDeleteFlag t = 0 /\
  tListFirst (taskTable s' prio_) = Some task /\
  Z.testbit (taskPrioBitMap s') prio_ = true.
Proof.
  intros Hp s' t.
  unfold tTaskInit in s'.
  pose proof (pushWords_top (initialFrame entry param)
                (memset (mem s) stack_ 0 stackSize_)
                (stack_ + stackSize_ / sizeof_tTaskStack)) as Htop.
  pose proof (pushWords_below (initialFrame entry param)
                (memset (mem s) stack_ 0 stackSize_)
                (stack_ + stackSize_ / sizeof_tTaskStack)) as Hbelow.
  simpl mem in s'.
  destruct (pushWords (memset (mem s) stack_ 0 stackSize_)
              (stack_ + stackSize_ / sizeof_tTaskStack)
              (initialFrame entry param)) as [m top] eqn:Epush.
  simpl in Htop, Hbelow.
  assert (Ht : t = mkTask top stack_ stackSize_ 0 prio_ TINYOS_TASK_STATE_RDY
                     (TINYOS_SLICE_MAX cfg) 0 (waitEvent (tasks s task))
                     (eventMsg (tasks s task)) (waitEventResult (tasks s task))
                     None 0 0).
  { subst t s'. unfold tTaskSchedRdy. simpl. rewrite !upd_same. reflexivity. }
  assert (Hm : mem s' = m) by reflexivity.
  split; [rewrite Ht; exact Htop|].
  split.
  { intros a Ha. rewrite Ht in Ha. simpl stack in Ha.
    rewrite Hm, (Hbelow a) by lia.
    apply memset_zero_words. unfold sizeof_tTaskStack in *. lia. }
  do 7 (split; [rewrite Ht; reflexivity|]).
  assert (Hprio : prio (tasks s' task) = prio_).
  { fold t. rewrite Ht. reflexivity. }
  split.
  - subst s'. unfold tTaskSchedRdy. simpl. rewrite !upd_same. reflexivity.
  - subst s'. unfold tTaskSchedRdy. simpl. rewrite !upd_same. simpl.
    apply testbit_tBitMapSet_same. exact Hp.
Qed.

Lemma tTaskInit_spec_witness :
  tListFirst (taskTable (withTask1 sampleConfig) 1) = Some task1 /\
  Z.testbit (taskPrioBitMap (withTask1 sampleConfig)) 1 = true.
Proof.
  assert (Hp : 0 <= 1 < 32) by lia.
  pose proof (tTaskInit_spec sampleConfig (booted sampleConfig) task1 0x201 0 1
                task1Stack 512 Hp) as H.
  simpl in H.
  destruct H as (_ & _ & _ & _ & _ & _ & _ & _ & _ & Hh & Hb).
  split; [exact Hh | exact Hb].
Defined.

(** ** The ready-table invariant *)

Lemma prioBitMap_inv_ext (cfg : tConfig) (s s' : Kernel) :
  (forall p, taskTable s' p = taskTable s p) ->
  taskPrioBitMap s' = taskPrioBitMap s ->
  prioBitMap_inv cfg s -> prioBitMap_inv cfg s'.
Proof.
  intros Ht Hb Hinv p Hp. rewrite Ht, Hb. now apply Hinv.
Qed.

Lemma testbit_tBitMapSet_other (b p q : Z) :
  0 <= p < 32 -> p <> q ->
  Z.testbit (tBitMapSet b q) p = Z.testbit b p.
Proof.
  intros Hp Hne. unfold tBitMapSet, u32.
  rewrite Z.mod_pow2_bits_low by lia.
  rewrite Z.lor_spec.
  destruct (Z.lt_ge_cases q 0) as [Hq|Hq].
  - rewrite Z.shiftl_spec by lia.
    replace (Z.testbit 1 (p - q)) with false; [apply orb_false_r|].
    symmetry. apply Z.bits_above_log2; simpl; lia.
  - rewrite Z.shiftl_spec by lia.
    destruct (Z.lt_ge_cases p q) as [Hlt|Hge].
    + rewrite (Z.testbit_neg_r 1 (p - q)) by lia. apply orb_false_r.
    + replace (Z.testbit 1 (p - q)) with false; [apply orb_false_r|].
      symmetry. apply Z.bits_above_log2; simpl; lia.
Qed.

Lemma testbit_clear_mask (q i : Z) :
  0 <= i < 32 -> 0 <= q ->
  Z.testbit (u32 (Z.lnot (Z.shiftl 1 q))) i = negb (Z.eqb i q).
Proof.
  intros Hi Hq. unfold u32.
  rewrite Z.mod_pow2_bits_low by lia.
  rewrite Z.lnot_spec by lia.
  rewrite Z.shiftl_spec by lia.
  f_equal.
  destruct (Z.eqb_spec i q) as [->|Hne].
  - now rewrite Z.sub_diag.
  - destruct (Z.lt_ge_cases i q).
    + apply Z.testbit_neg_r. lia.
    + apply Z.bits_above_log2; simpl; lia.
Qed.

Lemma testbit_tBitMapClear_same (b p : Z) :
  0 <= p < 32 -> Z.testbit (tBitMapClear b p) p = false.
Proof.
  intro Hp. unfold tBitMapClear.
  rewrite Z.land_spec, testbit_clear_mask by lia.
  rewrite Z.eqb_refl. apply andb_false_r.
Qed.

Lemma testbit_tBitMapClear_other (b p q : Z) :
  0 <= p < 32 -> 0 <= q -> p <> q ->
  Z.testbit (tBitMapClear b q) p = Z.testbit b p.
Proof.
  intros Hp Hq Hne. unfold tBitMapClear.
  rewrite Z.land_spec, testbit_clear_mask by lia.
  apply Z.eqb_neq in Hne. rewrite Hne. apply andb_true_r.
Qed.

Section ReadyTable.

Variable cfg : tConfig.
Hypothesis prio_count_le : TINYOS_PRIO_COUNT cfg <= 32.

Lemma tTaskSchedRdy_inv (s : Kernel) (task : TaskId) :
  prioBitMap_inv cfg s -> prioBitMap_inv cfg (tTaskSchedRdy s task).
Proof.
  intros Hinv p Hp. unfold tTaskSchedRdy. simpl.
  destruct (Z.eq_dec p (prio (tasks s task))) as [->|Hne].
  - rewrite upd_same, testbit_tBitMapSet_same by lia.
    split; [reflexivity | discriminate].
  - rewrite upd_other, testbit_tBitMapSet_other by (lia || assumption).
    now apply Hinv.
Qed.

Lemma tTaskSchedUnRdy_eq (s : Kernel) (task : TaskId) :
  tTaskSchedUnRdy s task =
    let q := prio (tasks s task) in
    let l := tListRemove (taskTable s q) task in
    let s1 := set_taskTable (upd (taskTable s) q l) s in
    if tListCount l =? 0
    then set_taskPrioBitMap (tBitMapClear (taskPrioBitMap s) q) s1
    else s1.
Proof.
  unfold tTaskSchedUnRdy. simpl. rewrite upd_same. reflexivity.
Qed.

(** Removing a task from its ready list and clearing the bit when the list
    has become empty: the body shared by [tTaskSchedUnRdy] and
    [tTaskSchedRemove]. *)
Lemma tTaskSchedUnRdy_inv (s : Kernel) (task : TaskId) :
  prioBitMap_inv cfg s -> prioBitMap_inv cfg (tTaskSchedUnRdy s task).
Proof.
  intros Hinv p Hp. rewrite tTaskSchedUnRdy_eq. cbv zeta.
  set (q := prio (tasks s task)).
  destruct (tListCount (tListRemove (taskTable s q) task) =? 0) eqn:Ec.
  - apply Z.eqb_eq in Ec. unfold tListCount in Ec.
    assert (Hnil : tListRemove (taskTable s q) task = [])
      by (apply length_zero_iff_nil; lia).
    cbn [taskTable taskPrioBitMap set_taskTable set_taskPrioBitMap].
    destruct (Z.eq_dec p q) as [->|Hne].
    + rewrite upd_same, testbit_tBitMapClear_same by lia.
      split; [intro H; now elim H | discriminate].
    + rewrite upd_other by assumption.
      destruct (Z.lt_ge_cases q 0) as [Hq|Hq].
      * unfold tBitMapClear.
        assert (Hs : Z.shiftl 1 q = 0).
        { rewrite <- Z.shiftr_opp_r, Z.shiftr_div_pow2 by lia.
          apply Z.div_small. split; [lia|].
          apply Z.pow_gt_1; lia. }
        rewrite Hs.
        replace (u32 (Z.lnot 0)) with (Z.ones 32) by reflexivity.
        rewrite Z.land_spec, Z.ones_spec_low by lia.
        rewrite andb_true_r. now apply Hinv.
      * rewrite testbit_tBitMapClear_other by (lia || assumption).
        now apply Hinv.
  - cbn [taskTable taskPrioBitMap set_taskTable set_taskPrioBitMap].
    destruct (Z.eq_dec p q) as [->|Hne].
    + rewrite upd_same.
      assert (Hne' : tListRemove (taskTable s q) task <> []).
      { intro Hnil. rewrite Hnil in Ec. discriminate. }
      assert (Hold : taskTable s q <> []).
      { intro Hnil. apply Hne'. rewrite Hnil. reflexivity. }
      split; [intros _; now apply Hinv | intros _; exact Hne'].
    + rewrite upd_other by assumption. now apply Hinv.
Qed.

Lemma tTaskSchedRemove_inv (s : Kernel) (task : TaskId) :
  prioBitMap_inv cfg s -> prioBitMap_inv cfg (tTaskSchedRemove s task).
Proof. exact (tTaskSchedUnRdy_inv s task). Qed.

Lemma tTaskSched_inv (s : Kernel) :
  prioBitMap_inv cfg s -> prioBitMap_inv cfg (tTaskSched s).
Proof.
  apply prioBitMap_inv_ext.
  - intro p. unfold tTaskSched. simpl.
    destruct (0 <? schedLockCounter s); [reflexivity|].
    destruct (ptr_eqb _ _); reflexivity.
  - unfold tTaskSched. simpl.
    destruct (0 <? schedLockCounter s); [reflexivity|].
    destruct (ptr_eqb _ _); reflexivity.
Qed.

Lemma tTaskSchedEnable_inv (s : Kernel) :
  prioBitMap_inv cfg s -> prioBitMap_inv cfg (tTaskSchedEnable s).
Proof.
  intro Hinv. unfold tTaskSchedEnable. simpl.
  change (schedLockCounter (set_primask 1 s)) with (schedLockCounter s).
  destruct (0 <? schedLockCounter s).
  - simpl. destruct (schedLockCounter s - 1 =? 0).
    + apply (prioBitMap_inv_ext cfg
               (tTaskSched (set_schedLockCounter (schedLockCounter s - 1)
                              (set_primask 1 s)))); try reflexivity.
      apply tTaskSched_inv.
      apply (prioBitMap_inv_ext cfg s); try reflexivity. exact Hinv.
    + apply (prioBitMap_inv_ext cfg s); try reflexivity. exact Hinv.
  - apply (prioBitMap_inv_ext cfg s); try reflexivity. exact Hinv.
Qed.

Lemma tTaskInit_inv (s : Kernel) (task : TaskId)
    (entry param prio_ stack_ stackSize_ : Z) :
  prioBitMap_inv cfg s ->
  prioBitMap_inv cfg (tTaskInit cfg s task entry param prio_ stack_ stackSize_).
Proof.
  intro Hinv. unfold tTaskInit.
  destruct (pushWords _ _ _) as [m top].
  apply tTaskSchedRdy_inv.
  apply (prioBitMap_inv_ext cfg s); try reflexivity. exact Hinv.
Qed.

(** Whenever some task is ready, [tTaskSchedDisable] leaves a non-empty
    ready list whose bit is clear. *)
Lemma tTaskSchedDisable_not_inv (s : Kernel) (p : Z) :
  0 <= p < TINYOS_PRIO_COUNT cfg ->
  taskTable s p <> [] ->
  ~ prioBitMap_inv cfg (tTaskSchedDisable s).
Proof.
  intros Hp Hne Hinv.
  specialize (Hinv p Hp).
  assert (Ht : taskTable (tTaskSchedDisable s) p = taskTable s p).
  { unfold tTaskSchedDisable. simpl.
    destruct (schedLockCounter s <? 255); reflexivity. }
  assert (Hb : taskPrioBitMap (tTaskSchedDisable s) = 0).
  { unfold tTaskSchedDisable. simpl.
    destruct (schedLockCounter s <? 255); reflexivity. }
  rewrite Ht, Hb, Z.bits_0 in Hinv.
  apply Hinv in Hne. discriminate.
Qed.

End ReadyTable.

Lemma first_switch_tables (s : Kernel) :
  let s' := PendSV_Handler (tTaskRunFirst (set_nextTask (tTaskHighestReady s) s)) in
  (forall p, taskTable s' p = taskTable s p) /\
  taskPrioBitMap s' = taskPrioBitMap s.
Proof. split; reflexivity. Qed.

Lemma tTaskSchedInit_reset_inv (cfg : tConfig) :
  prioBitMap_inv cfg
    (initCpuUsageState
       (tTimeTickInit (tTaskDelayedInit (tTaskSchedInit cfg resetKernel)))).
Proof.
  intros p Hp.
  change (taskTable _ p)
    with (if (0 <=? p) && (p <? TINYOS_PRIO_COUNT cfg)
          then tListInit else @nil tNode).
  change (taskPrioBitMap _) with 0.
  rewrite Z.bits_0.
  destruct ((0 <=? p) && (p <? TINYOS_PRIO_COUNT cfg));
    split; intro H; try discriminate; now elim H.
Qed.

Lemma booted_inv (cfg : tConfig) :
  TINYOS_PRIO_COUNT cfg <= 32 -> prioBitMap_inv cfg (booted cfg).
Proof.
  intro Hc. unfold booted, main.
  match goal with
  | |- prioBitMap_inv _
         (PendSV_Handler (tTaskRunFirst (set_nextTask (tTaskHighestReady ?x) ?x))) =>
      destruct (first_switch_tables x) as [Ht Hb];
      apply (prioBitMap_inv_ext cfg x _ Ht Hb)
  end.
  apply tTaskInit_inv; [exact Hc|].
  apply tTaskSchedInit_reset_inv.
Qed.

(** C1.  The invariant holds when the idle task starts to run, and the
    first thing the idle task does, [tTaskSchedDisable], breaks it: the idle
    task stays on [taskTable[31]] while the whole bitmap, bit 31 included,
    is cleared. *)
Theorem tTaskSchedDisable_breaks_inv_at_boot :
  prioBitMap_inv sampleConfig (booted sampleConfig) /\
  taskTable (tTaskSchedDisable (booted sampleConfig)) 31 = [TtaskIdle] /\
  taskPrioBitMap (tTaskSchedDisable (booted sampleConfig)) = 0 /\
  ~ prioBitMap_inv sampleConfig (tTaskSchedDisable (booted sampleConfig)).
Proof.
  split; [apply booted_inv; vm_compute; discriminate|].
  split; [vm_compute; reflexivity|].
  split; [vm_compute; reflexivity|].
  apply (tTaskSchedDisable_not_inv sampleConfig (booted sampleConfig) 31).
  - vm_compute. split; [discriminate | reflexivity].
  - vm_compute. discriminate.
Qed.

(** ** The delay list at a tick *)

Lemma land_clear_mask (x d : Z) : Z.land (Z.land x (u32 (Z.lnot d))) d = 0.
Proof.
  apply Z.bits_inj'. intros i Hi.
  rewrite !Z.land_spec, Z.bits_0. unfold u32.
  destruct (Z.lt_ge_cases i 32) as [Hlt|Hge].
  - rewrite Z.mod_pow2_bits_low, Z.lnot_spec by lia.
    destruct (Z.testbit x i), (Z.testbit d i); reflexivity.
  - rewrite Z.mod_pow2_bits_high by lia.
    rewrite andb_false_r. reflexivity.
Qed.

Section DelayList.

Variable cfg : tConfig.

Lemma tickDelayedTask_sleep (s : Kernel) (a : TaskId) :
  wakes (tasks s a) = false ->
  tickDelayedTask cfg s a
    = task_upd a (fun t => set_delayTicks (u32 (delayTicks t - 1)) t) s.
Proof.
  intro Hw. unfold tickDelayedTask.
  rewrite tasks_task_upd_same. cbn [delayTicks set_delayTicks].
  unfold wakes in Hw. rewrite Hw. reflexivity.
Qed.

Lemma tEventRemoveTask_frame (s : Kernel) (a : TaskId) (msg res : Z) :
  let s1 := tEventRemoveTask cfg s a msg res in
  (forall t, t <> a -> tasks s1 t = tasks s t) /\
  prio (tasks s1 a) = prio (tasks s a) /\
  delayTicks (tasks s1 a) = delayTicks (tasks s a) /\
  taskTable s1 = taskTable s /\
  taskPrioBitMap s1 = taskPrioBitMap s /\
  tTaskDelayedList s1 = tTaskDelayedList s /\
  (forall e x, In x (waitList (events s1 e)) -> In x (waitList (events s e))) /\
  (forall e, waitEvent (tasks s a) = Some e ->
     ~ In a (waitList (events s1 e)) /\
     waitEventResult (tasks s1 a) = res).
Proof.
  unfold tEventRemoveTask.
  destruct (waitEvent (tasks s a)) as [e|] eqn:Ew.
  - cbn [tasks task_upd set_tasks set_events events taskTable taskPrioBitMap
         tTaskDelayedList].
    rewrite !upd_same.
    split; [|split; [|split; [|split; [|split; [|split; [|split]]]]]];
      try reflexivity.
    + intros t Ht. now rewrite !upd_other.
    + intros e' x. unfold upd. destruct (e' =? e) eqn:Ee; [|tauto].
      apply Z.eqb_eq in Ee. subst e'. cbn [waitList].
      unfold tListRemove. rewrite filter_In. tauto.
    + intros e' He. injection He as <-. rewrite upd_same. cbn [waitList].
      split; [|reflexivity].
      unfold tListRemove. rewrite filter_In, Z.eqb_refl. simpl.
      intros [_ Hf]. discriminate.
  - repeat split; try tauto; discriminate.
Qed.

(** What one round of the loop does to the kernel. *)
Lemma tickDelayedTask_step (s : Kernel) (a : TaskId) :
  let s1 := tickDelayedTask cfg s a in
  let old := tasks s a in
  (forall t, t <> a -> tasks s1 t = tasks s t) /\
  delayTicks (tasks s1 a) = u32 (delayTicks old - 1) /\
  prio (tasks s1 a) = prio old /\
  (forall p x, In x (taskTable s p) -> In x (taskTable s1 p)) /\
  (forall e x, In x (waitList (events s1 e)) -> In x (waitList (events s e))) /\
  tTaskDelayedList s1
    = (if wakes old then tListRemove (tTaskDelayedList s) a
       else tTaskDelayedList s) /\
  (wakes old = false ->
     tasks s1 a = set_delayTicks (u32 (delayTicks old - 1)) old) /\
  (wakes old = true ->
     Z.land (state (tasks s1 a)) (TINYOS_TASK_STATE_DELAYED cfg) = 0 /\
     In a (taskTable s1 (prio old)) /\
     (forall e, waitEvent old = Some e ->
        ~ In a (waitList (events s1 e)) /\
        waitEventResult (tasks s1 a) = tErrorTimeOut cfg)).
Proof.
  intros s1 old.
  destruct (wakes old) eqn:Hw.
  - (* the countdown reaches 0 *)
    subst s1. unfold tickDelayedTask.
    rewrite tasks_task_upd_same. cbn [delayTicks set_delayTicks waitEvent].
    fold old. unfold wakes in Hw. rewrite Hw.
    set (s0 := task_upd a (fun t => set_delayTicks (u32 (delayTicks t - 1)) t) s).
    set (s2 := match waitEvent old with
               | Some _ => tEventRemoveTask cfg s0 a 0 (tErrorTimeOut cfg)
               | None => s0
               end).
    assert (H0a : tasks s0 a = set_delayTicks (u32 (delayTicks old - 1)) old)
      by exact (tasks_task_upd_same s a _).
    assert (H0t : forall t, t <> a -> tasks s0 t = tasks s t)
      by (intros t Ht; now apply tasks_task_upd_other).
    assert (H2 : (forall t, t <> a -> tasks s2 t = tasks s t) /\
                 prio (tasks s2 a) = prio old /\
                 delayTicks (tasks s2 a) = u32 (delayTicks old - 1) /\
                 taskTable s2 = taskTable s /\
                 tTaskDelayedList s2 = tTaskDelayedList s /\
                 (forall e x, In x (waitList (events s2 e)) ->
                              In x (waitList (events s e))) /\
                 (forall e, waitEvent old = Some e ->
                    ~ In a (waitList (events s2 e)) /\
                    waitEventResult (tasks s2 a) = tErrorTimeOut cfg)).
    { subst s2. destruct (waitEvent old) as [e|] eqn:Ew.
      - destruct (tEventRemoveTask_frame s0 a 0 (tErrorTimeOut cfg))
          as (Ft & Fp & Fd & Ftt & _ & Fdl & Fe & Fw).
        rewrite H0a in Fp, Fd, Fw.
        split; [intros t Ht; rewrite Ft by exact Ht; now apply H0t|].
        split; [exact Fp|]. split; [exact Fd|].
        split; [exact Ftt|]. split; [exact Fdl|].
        split; [exact Fe|].
        intros e' He. apply Fw. cbn [waitEvent set_delayTicks].
        fold old. congruence.
      - rewrite H0a. cbn [prio delayTicks set_delayTicks].
        split; [exact H0t|].
        do 4 (split; [reflexivity|]).
        split; [intros e x Hin; exact Hin|].
        intros e He. discriminate. }
    destruct H2 as (Gt & Gp & Gd & Gtt & Gdl & Ge & Gw).
    unfold tTaskSchedRdy, tTimeTaskWakeUp.
    cbn [tasks taskTable events tTaskDelayedList task_upd set_tasks
         set_tTaskDelayedList set_taskTable set_taskPrioBitMap].
    rewrite !upd_same. cbn [prio set_state delayTicks state waitEventResult].
    rewrite Gp, Gd, Gtt, Gdl.
    split; [intros t Ht; rewrite upd_other by exact Ht; now apply Gt|].
    split; [reflexivity|]. split; [reflexivity|].
    split.
    { intros p x Hin. unfold upd. destruct (p =? prio old) eqn:Ep; [|exact Hin].
      apply Z.eqb_eq in Ep. subst p. right. exact Hin. }
    split; [exact Ge|]. split; [reflexivity|].
    split; [discriminate|].
    intros _. split; [apply land_clear_mask|].
    split; [rewrite upd_same; now left|].
    exact Gw.
  - (* the task keeps sleeping *)
    subst s1. rewrite tickDelayedTask_sleep by exact Hw.
    rewrite tasks_task_upd_same. cbn [delayTicks set_delayTicks prio].
    split; [intros t Ht; now apply tasks_task_upd_other|].
    split; [reflexivity|]. split; [reflexivity|].
    split; [intros p x Hin; exact Hin|].
    split; [intros e x Hin; exact Hin|].
    split; [reflexivity|].
    split; [intros _; reflexivity | discriminate].
Qed.

Lemma tickDelayed_fold (l : list TaskId) :
  forall s, NoDup l ->
  let s' := fold_left (tickDelayedTask cfg) l s in
  (forall t, ~ In t l -> tasks s' t = tasks s t) /\
  (forall p x, In x (taskTable s p) -> In x (taskTable s' p)) /\
  (forall e x, In x (waitList (events s' e)) -> In x (waitList (events s e))) /\
  tTaskDelayedList s'
    = filter (fun m => negb (existsb (Z.eqb m) l && wakes (tasks s m)))
        (tTaskDelayedList s) /\
  (forall t, In t l ->
     let old := tasks s t in
     delayTicks (tasks s' t) = u32 (delayTicks old - 1) /\
     (wakes old = false ->
        tasks s' t = set_delayTicks (u32 (delayTicks old - 1)) old) /\
     (wakes old = true ->
        Z.land (state (tasks s' t)) (TINYOS_TASK_STATE_DELAYED cfg) = 0 /\
        In t (taskTable s' (prio old)) /\
        (forall e, waitEvent old = Some e ->
           ~ In t (waitList (events s' e)) /\
           waitEventResult (tasks s' t) = tErrorTimeOut cfg))).
Proof.
  induction l as [|a l IH]; intros s Hnd.
  - simpl. split; [reflexivity|]. split; [auto|]. split; [auto|].
    split; [|intros t []].
    induction (tTaskDelayedList s) as [|x xs IHx]; simpl; [reflexivity|].
    now rewrite <- IHx.
  - inversion Hnd as [|a' l' Hnotin Hnd']; subst.
    simpl fold_left.
    destruct (tickDelayedTask_step s a)
      as (St & Sd & Sp & Stt & Se & Sdl & Ssleep & Swake).
    set (s1 := tickDelayedTask cfg s a) in *.
    destruct (IH s1 Hnd') as (It & Itt & Ie & Idl & Ib).
    set (s' := fold_left (tickDelayedTask cfg) l s1) in *.
    assert (Hsame : forall t, In t l -> tasks s1 t = tasks s t).
    { intros t Hin. apply St. intros ->. contradiction. }
    split; [|split; [|split; [|split]]].
    + intros t Hn. rewrite It by (intro; apply Hn; now right).
      apply St. intros ->. apply Hn. now left.
    + intros p x Hin. apply Itt, Stt, Hin.
    + intros e x Hin. apply Se, Ie, Hin.
    + rewrite Idl, Sdl.
      destruct (wakes (tasks s a)) eqn:Ew.
      * unfold tListRemove. rewrite filter_twice.
        apply filter_ext_in. intros m _. simpl existsb.
        destruct (Z.eqb_spec m a) as [->|Hne]; simpl.
        -- now rewrite Ew.
        -- destruct (existsb (Z.eqb m) l) eqn:Ein; [|reflexivity].
           apply existsb_eqb_In in Ein. now rewrite Hsame.
      * apply filter_ext_in. intros m _. simpl existsb.
        destruct (Z.eqb_spec m a) as [->|Hne]; simpl.
        -- rewrite Ew.
           destruct (existsb (Z.eqb a) l) eqn:Ein; [|reflexivity].
           apply existsb_eqb_In in Ein. contradiction.
        -- destruct (existsb (Z.eqb m) l) eqn:Ein; [|reflexivity].
           apply existsb_eqb_In in Ein. now rewrite Hsame.
    + intros t [<-|Hin] old.
      * rewrite (It a Hnotin).
        split; [exact Sd|]. split; [exact Ssleep|].
        intro Hw. destruct (Swake Hw) as (W1 & W2 & W3).
        split; [exact W1|]. split; [apply Itt, W2|].
        intros e He. destruct (W3 e He) as [W4 W5].
        split; [|exact W5].
        intro Hin. apply W4, Ie, Hin.
      * specialize (Ib t Hin). cbv zeta in Ib.
        rewrite (Hsame t Hin) in Ib. exact Ib.
Qed.

(** The loop of the tick handler over the delay list, a list without
    repetitions: every task on the list has its [delayTicks] decremented by
    one (in [uint32_t]).  A task whose count reaches 0 (a) is no longer on
    the wait list of the event it was waiting for, if any, and carries the
    result [tErrorTimeOut], (b) is off the delay list with the DELAYED bit
    clear, and (c) is on the ready list of its priority.  Every other task
    is still on the delay list, changed in its count only; the delay list
    keeps exactly these tasks, in their order. *)
Theorem tickDelayed_spec (s : Kernel) :
  NoDup (tTaskDelayedList s) ->
  let s' := tickDelayed cfg s in
  tTaskDelayedList s'
    = filter (fun t => negb (wakes (tasks s t))) (tTaskDelayedList s) /\
  (forall t, In t (tTaskDelayedList s) ->
     let old := tasks s t in
     delayTicks (tasks s' t) = u32 (delayTicks old - 1) /\
     (u32 (delayTicks old - 1) = 0 ->
        (forall e, waitEvent old = Some e ->
           ~ In t (waitList (events s' e)) /\
           waitEventResult (tasks s' t) = tErrorTimeOut cfg) /\
        ~ In t (tTaskDelayedList s') /\
        Z.land (state (tasks s' t)) (TINYOS_TASK_STATE_DELAYED cfg) = 0 /\
        In t (taskTable s' (prio old))) /\
     (u32 (delayTicks old - 1) <> 0 ->
        In t (tTaskDelayedList s') /\
        tasks s' t = set_delayTicks (u32 (delayTicks old - 1)) old)).
Proof.
  intros Hnd s'.
  destruct (tickDelayed_fold (tTaskDelayedList s) s Hnd)
    as (_ & _ & _ & Hdl & Hb).
  change (fold_left (tickDelayedTask cfg) (tTaskDelayedList s) s) with s'
    in Hdl, Hb.
  assert (Hdl' : tTaskDelayedList s'
                 = filter (fun t => negb (wakes (tasks s t)))
                     (tTaskDelayedList s)).
  { rewrite Hdl. apply filter_ext_in. intros m Hin.
    apply existsb_eqb_In in Hin. now rewrite Hin. }
  split; [exact Hdl'|].
  intros t Hin old.
  destruct (Hb t Hin) as (Hd & Hsleep & Hwake). fold old in Hd, Hsleep, Hwake.
  split; [exact Hd|]. split.
  - intro Hz.
    assert (Hw : wakes old = true) by (unfold wakes; now apply Z.eqb_eq).
    destruct (Hwake Hw) as (W1 & W2 & W3).
    split; [exact W3|]. split; [|split; [exact W1 | exact W2]].
    rewrite Hdl', filter_In. fold old. rewrite Hw.
    intros [_ Hf]. discriminate.
  - intro Hnz.
    assert (Hw : wakes old = false) by (unfold wakes; now apply Z.eqb_neq).
    split; [|exact (Hsleep Hw)].
    rewrite Hdl', filter_In. fold old. rewrite Hw. split; [exact Hin | reflexivity].
Qed.

End DelayList.

Lemma tickDelayed_spec_witness :
  tTaskDelayedList (tickDelayed sampleConfig (task1Sleeping sampleConfig 1)) = [] /\
  In task1 (taskTable (tickDelayed sampleConfig (task1Sleeping sampleConfig 1)) 1) /\
  In task1 (tTaskDelayedList (tickDelayed sampleConfig (task1Sleeping sampleConfig 2))).
Proof.
  assert (Hnd1 : NoDup (tTaskDelayedList (task1Sleeping sampleConfig 1))).
  { vm_compute. repeat constructor. intros []. }
  assert (Hnd2 : NoDup (tTaskDelayedList (task1Sleeping sampleConfig 2))).
  { vm_compute. repeat constructor. intros []. }
  destruct (tickDelayed_spec sampleConfig (task1Sleeping sampleConfig 1) Hnd1)
    as [Hl1 Ht1].
  destruct (tickDelayed_spec sampleConfig (task1Sleeping sampleConfig 2) Hnd2)
    as [_ Ht2].
  assert (Hin1 : In task1 (tTaskDelayedList (task1Sleeping sampleConfig 1)))
    by (vm_compute; now left).
  assert (Hin2 : In task1 (tTaskDelayedList (task1Sleeping sampleConfig 2)))
    by (vm_compute; now left).
  split; [|split].
  - rewrite Hl1. vm_compute. reflexivity.
  - destruct (Ht1 task1 Hin1) as (_ & Hwake & _).
    assert (Hz : u32 (delayTicks (tasks (task1Sleeping sampleConfig 1) task1) - 1) = 0)
      by (vm_compute; reflexivity).
    destruct (Hwake Hz) as (_ & _ & _ & Hrdy).
    replace 1 with (prio (tasks (task1Sleeping sampleConfig 1) task1)) at 2
      by (vm_compute; reflexivity).
    exact Hrdy.
  - destruct (Ht2 task1 Hin2) as (_ & _ & Hsleep).
    apply Hsleep. vm_compute. discriminate.
Defined.

(** C2.  The claim fails for the handler as a whole.  [task3] sleeps with
    one tick left and [task1], of the same priority, runs with one tick of
    its slice left.  The loop over the delay list wakes [task3]: it is off
    the delay list, READY and the head of the ready list of priority 1.
    The rotation of the time slice that follows removes the head of that
    list, which is [task3] and not the running task: when the handler
    returns [task3] is on neither list, READY and never scheduled again. *)
Theorem tTaskSystemTickHandler_drops_woken_task :
  let cfg := sampleConfig in
  let before := ticks cfg 9 (task3Sleeps cfg) in
  option_map (fun s => (curTask s, slice (tasks s task1), placed task3 s)) before
  = Some (Some task1, 1, (true, 1, TINYOS_TASK_STATE_DELAYED cfg, false)) /\
  option_map (fun s => placed task3 (tickDelayed cfg s)) before
  = Some (false, 0, TINYOS_TASK_STATE_RDY, true) /\
  option_map (fun s => tListFirst (taskTable (tickDelayed cfg s) 1)) before
  = Some (Some task3) /\
  option_map (placed task3) (ticks cfg 10 (task3Sleeps cfg))
  = Some (false, 0, TINYOS_TASK_STATE_RDY, false).
Proof.
  repeat split; vm_compute; reflexivity.
Qed.

(** ** Time slices *)

(** C3, amended.  On a tick where the slice of [curTask] decrements to 0:
    when [curTask] is the head of the ready list of its priority, that head
    moves to the tail and the slice is reset to [TINYOS_SLICE_MAX], also when
    [curTask] is the only entry (the list is then the same as before); when
    the list is empty, it stays empty and the slice stays 0.  The ready
    lists of the other priorities are as before. *)
Theorem tickSlice_spec (cfg : tConfig) (s : Kernel) (c : TaskId) :
  curTask s = Some c ->
  u32 (slice (tasks s c) - 1) = 0 ->
  let p := prio (tasks s c) in
  exists s',
    tickSlice cfg s = Some s' /\
    (forall rest, taskTable s p = c :: rest ->
       taskTable s' p = rest ++ [c] /\
       slice (tasks s' c) = TINYOS_SLICE_MAX cfg) /\
    (taskTable s p = [c] ->
       taskTable s' p = taskTable s p /\
       slice (tasks s' c) = TINYOS_SLICE_MAX cfg) /\
    (taskTable s p = [] ->
       taskTable s' p = [] /\ slice (tasks s' c) = 0) /\
    (forall q, q <> p -> taskTable s' q = taskTable s q).
Proof.
  intros Hc Hs p. unfold tickSlice. rewrite Hc.
  rewrite tasks_task_upd_same. cbn [slice set_slice prio].
  apply Z.eqb_eq in Hs. rewrite Hs. apply Z.eqb_eq in Hs.
  fold p. cbn [taskTable task_upd set_tasks].
  destruct (0 <? tListCount (taskTable s p)) eqn:Ecnt.
  - eexists. split; [reflexivity|].
    cbn [taskTable set_taskTable task_upd set_tasks tasks].
    rewrite !upd_same.
    split; [|split; [|split]].
    + intros rest Hl. rewrite Hl. split; reflexivity.
    + intro Hl. rewrite Hl. split; reflexivity.
    + intro Hl. rewrite Hl in Ecnt. discriminate.
    + intros q Hq. now rewrite !upd_other.
  - eexists. split; [reflexivity|].
    cbn [taskTable set_taskTable task_upd set_tasks tasks].
    rewrite !upd_same.
    split; [|split; [|split]].
    + intros rest Hl. rewrite Hl in Ecnt. discriminate.
    + intro Hl. rewrite Hl in Ecnt. discriminate.
    + intro Hl. split; [exact Hl | exact Hs].
    + reflexivity.
Qed.

Lemma tickSlice_spec_witness :
  exists s',
    tickSlice sampleConfig (lastSliceTick sampleConfig) = Some s' /\
    taskTable s' 31 = [TtaskIdle] /\
    slice (tasks s' TtaskIdle) = 10.
Proof.
  assert (Hc : curTask (lastSliceTick sampleConfig) = Some TtaskIdle)
    by (vm_compute; reflexivity).
  assert (Hs : u32 (slice (tasks (lastSliceTick sampleConfig) TtaskIdle) - 1) = 0)
    by (vm_compute; reflexivity).
  destruct (tickSlice_spec sampleConfig (lastSliceTick sampleConfig) TtaskIdle Hc Hs)
    as (s' & Hrun & _ & Hone & _ & _).
  assert (Hl : taskTable (lastSliceTick sampleConfig)
                 (prio (tasks (lastSliceTick sampleConfig) TtaskIdle))
               = [TtaskIdle])
    by (vm_compute; reflexivity).
  destruct (Hone Hl) as [Ht Hsl].
  exists s'. split; [exact Hrun|]. split.
  - replace 31 with (prio (tasks (lastSliceTick sampleConfig) TtaskIdle))
      by (vm_compute; reflexivity).
    rewrite Ht. exact Hl.
  - exact Hsl.
Defined.

(** C3 as stated fails: the idle task is the only task of priority 31 and
    its slice runs out; the slice is reset to [TINYOS_SLICE_MAX] (10) all
    the same, and is neither the 1 from before the tick nor the 0 after the
    decrement. *)
Lemma tickSlice_resets_lone_task :
  tListCount (taskTable (lastSliceTick sampleConfig) 31) = 1 /\
  slice (tasks (lastSliceTick sampleConfig) TtaskIdle) = 1 /\
  option_map (fun s => (slice (tasks s TtaskIdle), taskTable s 31))
    (tickSlice sampleConfig (lastSliceTick sampleConfig))
  = Some (10, [TtaskIdle]).
Proof. repeat split; vm_compute; reflexivity. Qed.

(** ** The stack scan of tTaskGetInfo *)

Lemma stackFreeScan_ext (s1 s2 : Kernel) (task : TaskId) :
  tasks s1 task = tasks s2 task -> mem s1 = mem s2 ->
  forall fuel stackEnd free,
    stackFreeScan s1 task fuel stackEnd free
    = stackFreeScan s2 task fuel stackEnd free.
Proof.
  intros Ht Hm. induction fuel as [|fuel IH]; intros stackEnd free; simpl.
  - reflexivity.
  - unfold stackWord. rewrite Ht, Hm.
    destruct ((stackBase (tasks s2 task) <=? stackEnd) && _); [|reflexivity].
    destruct ((mem s2 stackEnd =? 0) && _); [apply IH | reflexivity].
Qed.

(** From [k] words below the end of an all-zero region the scan runs into
    the word that follows the region. *)
Lemma stackFreeScan_zero (s : Kernel) (task : TaskId) :
  let t := tasks s task in
  let top := stackBase t + stackSize t / sizeof_tTaskStack in
  (forall a, stackBase t <= a < top -> mem s a = 0) ->
  forall (k fuel : nat) (free : Z),
    (k < fuel)%nat ->
    stackBase t <= top - Z.of_nat k ->
    stackFreeScan s task fuel (top - Z.of_nat k) free = ScanOutOfRange top.
Proof.
  intros t top Hzero.
  induction k as [|k IH]; intros fuel free Hfuel Hk.
  - destruct fuel as [|fuel]; [lia|]. cbn [stackFreeScan].
    unfold stackWord. fold t. fold top.
    replace (top - Z.of_nat 0) with top by (simpl; lia).
    replace (top <? top) with false by (symmetry; apply Z.ltb_irrefl).
    rewrite andb_false_r. reflexivity.
  - destruct fuel as [|fuel]; [lia|]. cbn [stackFreeScan].
    unfold stackWord. fold t. fold top.
    assert (H1 : (stackBase t <=? top - Z.of_nat (S k)) = true)
      by (apply Z.leb_le; lia).
    assert (H2 : (top - Z.of_nat (S k) <? top) = true)
      by (apply Z.ltb_lt; lia).
    rewrite H1, H2. cbn [andb].
    rewrite Hzero by lia. rewrite Z.eqb_refl.
    assert (H3 : (top - Z.of_nat (S k) + 1 <=? top) = true)
      by (apply Z.leb_le; lia).
    rewrite H3. cbn [andb].
    replace (top - Z.of_nat (S k) + 1) with (top - Z.of_nat k) by lia.
    apply IH; lia.
Qed.

(** C10.  When every word of the task's stack region is 0, the scan of
    [tTaskGetInfo] reads the word at [stackBase + stackSize / 4], the first
    word after the region: the bound is tested after the read and lets the
    end of the region through. *)
Theorem tTaskGetInfo_reads_past_zero_stack (s : Kernel) (task : TaskId) :
  let t := tasks s task in
  let top := stackBase t + stackSize t / sizeof_tTaskStack in
  0 <= stackSize t ->
  (forall a, stackBase t <= a < top -> mem s a = 0) ->
  stackFreeScan s task (scanFuel s task) (stackBase t) 0 = ScanOutOfRange top /\
  stackWord s task top = None /\
  tTaskGetInfo s task = None.
Proof.
  intros t top Hsize Hzero.
  assert (Hn : 0 <= stackSize t / sizeof_tTaskStack)
    by (apply Z.div_pos; [exact Hsize | reflexivity]).
  assert (Hscan : forall s0, tasks s0 task = t -> mem s0 = mem s ->
            stackFreeScan s0 task (scanFuel s task) (stackBase t) 0
            = ScanOutOfRange top).
  { intros s0 Ht Hm.
    rewrite (stackFreeScan_ext s0 s task Ht Hm).
    replace (stackBase t)
      with (top - Z.of_nat (Z.to_nat (stackSize t / sizeof_tTaskStack))) at 1
      by (unfold top; lia).
    apply (stackFreeScan_zero s task Hzero).
    - unfold scanFuel. fold t. lia.
    - fold t top. unfold top. lia. }
  split; [apply Hscan; reflexivity|].
  split.
  - unfold stackWord. fold t. fold top.
    replace (top <? top) with false by (symmetry; apply Z.ltb_irrefl).
    now rewrite andb_false_r.
  - unfold tTaskGetInfo. cbn [tTaskEnterCritical].
    change (tasks (set_primask 1 s) task) with t.
    change (scanFuel (set_primask 1 s) task) with (scanFuel s task).
    rewrite Hscan by reflexivity. reflexivity.
Qed.

Lemma tTaskGetInfo_reads_past_zero_stack_witness :
  tTaskGetInfo (zeroStackTask sampleConfig) task1 = None /\
  stackFreeScan (zeroStackTask sampleConfig) task1
    (scanFuel (zeroStackTask sampleConfig) task1) task1Stack 0
  = ScanOutOfRange (task1Stack + 4).
Proof.
  assert (Hsize : 0 <= stackSize (tasks (zeroStackTask sampleConfig) task1))
    by (vm_compute; discriminate).
  assert (Hzero : forall a,
            stackBase (tasks (zeroStackTask sampleConfig) task1) <= a
              < stackBase (tasks (zeroStackTask sampleConfig) task1)
                + stackSize (tasks (zeroStackTask sampleConfig) task1)
                  / sizeof_tTaskStack ->
            mem (zeroStackTask sampleConfig) a = 0).
  { intros a Ha.
    change (mem (zeroStackTask sampleConfig) a)
      with (memset (mem (withTask1 sampleConfig)) task1Stack 0 16 a).
    apply memset_zero_words.
    replace (stackBase (tasks (zeroStackTask sampleConfig) task1))
      with task1Stack in Ha by (vm_compute; reflexivity).
    replace (stackSize (tasks (zeroStackTask sampleConfig) task1))
      with 16 in Ha by (vm_compute; reflexivity).
    exact Ha. }
  destruct (tTaskGetInfo_reads_past_zero_stack
              (zeroStackTask sampleConfig) task1 Hsize Hzero) as (Hs & _ & Hi).
  split; [exact Hi|].
  replace task1Stack
    with (stackBase (tasks (zeroStackTask sampleConfig) task1)) at 1
    by (vm_compute; reflexivity).
  rewrite Hs. vm_compute. reflexivity.
Defined.

(** Straight after [tTaskInit] with [stackSize = 0] the region is empty and
    the first read of the scan is outside it. *)
Lemma tTaskGetInfo_no_stack :
  tTaskGetInfo (noStackTask sampleConfig) task2 = None.
Proof. vm_compute. reflexivity. Qed.

(** The scan stops inside the region when the region holds a word that is
    not 0. *)
Lemma stackFreeScan_nonzero (s : Kernel) (task : TaskId) (j : Z) :
  let t := tasks s task in
  let top := stackBase t + stackSize t / sizeof_tTaskStack in
  j < top -> mem s j <> 0 ->
  forall (k fuel : nat) (free : Z),
    (k < fuel)%nat ->
    stackBase t <= j - Z.of_nat k ->
    exists free', stackFreeScan s task fuel (j - Z.of_nat k) free = ScanDone free'.
Proof.
  intros t top Hj Hnz.
  induction k as [|k IH]; intros fuel free Hfuel Hk;
    (destruct fuel as [|fuel]; [lia|]); cbn [stackFreeScan];
    unfold stackWord; fold t; fold top.
  - replace (j - Z.of_nat 0) with j in * by (simpl; lia).
    assert (H1 : (stackBase t <=? j) = true) by (apply Z.leb_le; lia).
    assert (H2 : (j <? top) = true) by (apply Z.ltb_lt; lia).
    rewrite H1, H2. cbn [andb].
    apply Z.eqb_neq in Hnz. rewrite Hnz. cbn [andb].
    now exists free.
  - assert (H1 : (stackBase t <=? j - Z.of_nat (S k)) = true)
      by (apply Z.leb_le; lia).
    assert (H2 : (j - Z.of_nat (S k) <? top) = true) by (apply Z.ltb_lt; lia).
    rewrite H1, H2. cbn [andb].
    destruct ((mem s (j - Z.of_nat (S k)) =? 0)
              && (j - Z.of_nat (S k) + 1 <=? top)).
    + replace (j - Z.of_nat (S k) + 1) with (j - Z.of_nat k) by lia.
      apply IH; lia.
    + now exists free.
Qed.

Lemma pushWords_above (vs : list Z) :
  forall (m : Z -> Z) (top a : Z),
    top <= a -> fst (pushWords m top vs) a = m a.
Proof.
  induction vs as [|v vs IH]; intros m top a Ha; simpl.
  - reflexivity.
  - rewrite IH by lia. apply upd_other. lia.
Qed.

Lemma pushWords_first (m : Z -> Z) (top v : Z) (vs : list Z) :
  fst (pushWords m top (v :: vs)) (top - 1) = v.
Proof.
  cbn [pushWords]. rewrite pushWords_above by lia. apply upd_same.
Qed.

(** Straight after [tTaskInit] with a stack of at least one word the scan
    stays inside the region: the xPSR slot at the top of the region holds
    [1 << 24]. *)
Lemma tTaskGetInfo_after_tTaskInit (cfg : tConfig) (s : Kernel) (task : TaskId)
    (entry param prio_ stack_ stackSize_ : Z) :
  4 <= stackSize_ ->
  exists r,
    tTaskGetInfo (tTaskInit cfg s task entry param prio_ stack_ stackSize_) task
    = Some r.
Proof.
  intro Hsize.
  destruct (tTaskInit_effect cfg s task entry param prio_ stack_ stackSize_)
    as [Ht Hm].
  set (n := stackSize_ / sizeof_tTaskStack) in *.
  assert (Hn : 1 <= n).
  { subst n. unfold sizeof_tTaskStack.
    apply Z.div_le_lower_bound; lia. }
  assert (Hx : mem (tTaskInit cfg s task entry param prio_ stack_ stackSize_)
                 (stack_ + n - 1) = Z.shiftl 1 24).
  { rewrite Hm. unfold initialFrame. apply pushWords_first. }
  assert (Hb : stackBase (tasks (tTaskInit cfg s task entry param prio_ stack_
                                   stackSize_) task) = stack_)
    by (rewrite Ht; reflexivity).
  assert (Hs : stackSize (tasks (tTaskInit cfg s task entry param prio_ stack_
                                   stackSize_) task) = stackSize_)
    by (rewrite Ht; reflexivity).
  clear Ht Hm.
  generalize dependent (tTaskInit cfg s task entry param prio_ stack_ stackSize_).
  intros s' Hx Hb Hs.
  unfold tTaskGetInfo. cbn [tTaskEnterCritical].
  set (s1 := set_primask 1 s').
  assert (Ht1 : tasks s1 task = tasks s' task) by reflexivity.
  assert (Hm1 : mem s1 = mem s') by reflexivity.
  destruct (stackFreeScan_nonzero s1 task (stack_ + n - 1)) with
    (k := Z.to_nat (n - 1)) (fuel := scanFuel s1 task) (free := 0)
    as [free Hfree].
  - rewrite Ht1, Hb, Hs. fold n. lia.
  - rewrite Hm1, Hx. discriminate.
  - unfold scanFuel. rewrite Ht1, Hs. fold n. lia.
  - rewrite Ht1, Hb. lia.
  - replace (stack_ + n - 1 - Z.of_nat (Z.to_nat (n - 1))) with stack_ in Hfree
      by lia.
    rewrite Ht1, Hb, Hfree. eexists. reflexivity.
Qed.

(** ** CPU usage *)

(** C5.  At the end of a second in which the idle task counted 50 rounds
    against 100 in the calibration second, [checkCpuUsage] stores 100 where
    the ratio over the exact counters is 50: the quotient
    [idleCount / idleMaxCount] is taken in [uint32_t] and is 0 or 1 before it
    is subtracted from 1.  [idleCount] is reset.  With [idleMaxCount = 0] the
    quotient is evaluated all the same and a new value replaces the old
    one. *)
Theorem checkCpuUsage_integer_quotient :
  cpuUsage (checkCpuUsage sampleConfig (secondElapsed 50 100)) = 100 /\
  idleCount (checkCpuUsage sampleConfig (secondElapsed 50 100)) = 0 /\
  (cpuUsage_ratio 50 100 == 50)%Q /\
  ~ (inject_Z (cpuUsage (checkCpuUsage sampleConfig (secondElapsed 50 100)))
     == cpuUsage_ratio 50 100)%Q /\
  cpuUsage (secondElapsed 50 0) = 7 /\
  cpuUsage (checkCpuUsage sampleConfig (secondElapsed 50 0)) = 100.
Proof.
  repeat split; try (vm_compute; reflexivity).
  vm_compute. discriminate.
Qed.

(** Between two calibrated seconds the stored value is 100 whenever the idle
    count stayed below the calibration count, whatever the ratio. *)
Lemma checkCpuUsage_below_max (cfg : tConfig) (s : Kernel) :
  enableCpuUsageState s <> 0 ->
  tickCount s <> TICKS_PER_SEC cfg ->
  tickCount s mod TICKS_PER_SEC cfg = 0 ->
  0 <= idleCount s < idleMaxCount s ->
  cpuUsage (checkCpuUsage cfg s) = 100.
Proof.
  intros He Ht Hm Hi. unfold checkCpuUsage.
  apply Z.eqb_neq in He, Ht. apply Z.eqb_eq in Hm.
  rewrite He, Ht, Hm. simpl.
  rewrite Z.div_small by lia. reflexivity.
Qed.

(** ** Timers: start, stop, start *)

(** C7.  A periodic hard timer (period 10) and a one-shot soft timer (delay
    5) that are started, stopped and started again end up with state
    STARTED and the initial countdown but on neither timer list, whereas a
    fresh init followed by a start puts them on their list: [tTimerStop]
    takes the timer off its list and leaves its state at STARTED, so the
    second [tTimerStart] does nothing. *)
Theorem tTimerStop_leaves_state_started :
  let s0 := Timer.tTimerModuleInit Timer.resetModule in
  let hard := Timer.TIMER_CONFIG_TYPE_HARD in
  let soft := Timer.TIMER_CONFIG_TYPE_SOFT in
  option_map (Timer.observe 1) (Timer.initStartStopStart 1 0 10 7 9 hard s0)
    = Some (Timer.tTimerStarted, 10, false, false) /\
  option_map (Timer.observe 1) (Timer.initStart 1 0 10 7 9 hard s0)
    = Some (Timer.tTimerStarted, 10, true, false) /\
  option_map (Timer.observe 2) (Timer.initStartStopStart 2 5 0 7 9 soft s0)
    = Some (Timer.tTimerStarted, 5, false, false) /\
  option_map (Timer.observe 2) (Timer.initStart 2 5 0 7 9 soft s0)
    = Some (Timer.tTimerStarted, 5, false, true) /\
  option_map (Timer.observe 1)
    (Timer.andThen (Timer.initStart 1 0 10 7 9 hard s0)
       (fun s => Timer.tTimerStop s 1))
    = Some (Timer.tTimerStarted, 10, false, false).
Proof.
  repeat split; vm_compute; reflexivity.
Qed.


(** ** Timers: the scan *)

Module TimerFacts.
Import Timer.

Lemma getList_setList which l s : getList which (setList which l s) = l.
Proof. destruct which; reflexivity. Qed.

Ltac same_key a :=
  let t := fresh "t" in
  intro t; unfold timer_upd, upd; simpl;
  rewrite ?Z.eqb_refl; simpl;
  destruct (t =? a); simpl; rewrite ?Z.eqb_refl; simpl;
  try reflexivity.

Lemma callFuncTimer_step (which : TimerList) (s : TimerModule) (a : TimerId) :
  let s1 := callFuncTimer which s a in
  (forall t, timers s1 t = if t =? a then visited (timers s a) else timers s t) /\
  getList which s1
    = (if stops (timers s a) then tListRemove (getList which s) a
       else getList which s) /\
  calls s1 = calls s ++ (if fires (timers s a) then [callback s a] else []).
Proof.
  unfold callFuncTimer, expire, visited, stops, fires, callback.
  destruct (delayTicks (timers s a) =? 0) eqn:E0.
  - apply Z.eqb_eq in E0. simpl. rewrite ?upd_same. simpl.
    destruct (0 <? durationTicks (timers s a)) eqn:Ed; simpl.
    + split; [same_key a | split; [destruct which; reflexivity | reflexivity]].
    + split; [|split]; destruct which; try reflexivity;
        same_key a; unfold set_state; simpl; rewrite E0; reflexivity.
  - simpl. rewrite ?upd_same. simpl.
    destruct (u32 (delayTicks (timers s a) - 1) =? 0) eqn:E1; simpl.
    + rewrite ?upd_same. simpl.
      destruct (0 <? durationTicks (timers s a)) eqn:Ed; simpl.
      * split; [same_key a | split; [destruct which; reflexivity | reflexivity]].
      * apply Z.eqb_eq in E1.
        split; [|split]; destruct which; try reflexivity;
          same_key a; unfold set_state, set_delayTicks; simpl; rewrite ?E1;
          reflexivity.
    + split; [same_key a | split; [reflexivity | now rewrite app_nil_r]].
Qed.

Lemma scan_fold (which : TimerList) (l : list TimerId) :
  forall s, NoDup l ->
  let s' := fold_left (callFuncTimer which) l s in
  (forall t, timers s' t
     = if existsb (Z.eqb t) l then visited (timers s t) else timers s t) /\
  getList which s'
    = filter (fun m => negb (existsb (Z.eqb m) l && stops (timers s m)))
        (getList which s) /\
  calls s'
    = calls s ++ map (callback s) (filter (fun t => fires (timers s t)) l).
Proof.
  induction l as [|a l IH]; intros s Hnd.
  - simpl. split; [reflexivity|]. split; [|now rewrite app_nil_r].
    induction (getList which s) as [|x xs IHx]; simpl; [reflexivity|].
    now rewrite <- IHx.
  - inversion Hnd as [|a' l' Hnotin Hnd']; subst.
    simpl fold_left.
    destruct (callFuncTimer_step which s a) as (Ht1 & Hl1 & Hc1).
    set (s1 := callFuncTimer which s a) in *.
    destruct (IH s1 Hnd') as (Ht & Hl & Hc).
    assert (Hsame : forall t, In t l -> timers s1 t = timers s t).
    { intros t Hin. rewrite Ht1.
      destruct (Z.eqb_spec t a) as [->|]; [contradiction | reflexivity]. }
    split; [|split].
    + intro t. rewrite Ht. simpl existsb. rewrite Ht1.
      destruct (existsb (Z.eqb t) l) eqn:Ein.
      * apply existsb_eqb_In in Ein.
        destruct (Z.eqb_spec t a) as [->|]; [contradiction | reflexivity].
      * rewrite orb_false_r.
        destruct (Z.eqb_spec t a) as [->|]; reflexivity.
    + rewrite Hl, Hl1.
      destruct (stops (timers s a)) eqn:Es.
      * unfold tListRemove. rewrite filter_twice.
        apply filter_ext_in. intros m _. simpl existsb.
        rewrite Ht1.
        destruct (Z.eqb_spec m a) as [->|Hne]; simpl.
        -- now rewrite Es.
        -- reflexivity.
      * apply filter_ext_in. intros m _. simpl existsb.
        rewrite Ht1.
        destruct (Z.eqb_spec m a) as [->|Hne]; simpl.
        -- rewrite Es.
           destruct (existsb (Z.eqb a) l) eqn:Ein; [|reflexivity].
           apply existsb_eqb_In in Ein. contradiction.
        -- reflexivity.
    + rewrite Hc, Hc1. simpl filter.
      assert (Hf : filter (fun t => fires (timers s1 t)) l
                   = filter (fun t => fires (timers s t)) l).
      { apply filter_ext_in. intros t Hin. now rewrite Hsame. }
      assert (Hm : forall l0, (forall t, In t l0 -> In t l) ->
                   map (callback s1) l0 = map (callback s) l0).
      { intros l0 Hsub. apply map_ext_in. intros t Hin.
        unfold callback. now rewrite Hsame by auto. }
      rewrite Hf, Hm.
      * destruct (fires (timers s a)); simpl.
        -- now rewrite <- app_assoc.
        -- now rewrite app_nil_r.
      * intros t Hin. apply filter_In in Hin. tauto.
Qed.

(** [tTimerStop] has no assignment to the state of the timer. *)
Lemma tTimerStop_keeps_state (s s' : TimerModule) (timer : TimerId) :
  tTimerStop s timer = Some s' ->
  state (timers s' timer) = state (timers s timer).
Proof.
  unfold tTimerStop, tSemWait_protect, tSemNotify_protect.
  intro H.
  destruct (state (timers s timer)) eqn:E;
    try (injection H as <-; exact E);
    destruct (negb (Z.land (config (timers s timer)) TIMER_CONFIG_TYPE_HARD =? 0));
    try (injection H as <-; exact E);
    destruct (0 <? tTimerProtectSem s); try discriminate;
    cbn [tTimerProtectSem set_tTimerProtectSem set_tTimerSoftList] in H;
    destruct (tTimerProtectSem s - 1 <? 1);
    injection H as <-; exact E.
Qed.

(** A timer whose state is STARTED is left alone by [tTimerStart]. *)
Lemma tTimerStart_when_started (s : TimerModule) (timer : TimerId) :
  state (timers s timer) = tTimerStarted -> tTimerStart s timer = Some s.
Proof. intro H. unfold tTimerStart. now rewrite H. Qed.

Lemma fires_expired (t : tTimer) : fires t = true <-> expired t.
Proof.
  unfold fires, expired. rewrite orb_true_iff, !Z.eqb_eq. tauto.
Qed.

(** C6, amended.  In a scan of a list without repetitions the callbacks
    invoked are those of the timers whose countdown is 0 already or becomes
    0 by the decrement, once each and in list order.  Such a timer ends in
    state STARTED with the countdown reset to [durationTicks] and stays on
    the list when [durationTicks > 0]; with [durationTicks = 0] it is taken
    off the list and ends in state STOPPED.  Every other timer has its
    countdown decremented, is otherwise unchanged and stays on the list. *)
Theorem tTimerCallFuncList_spec (which : TimerList) (s : TimerModule) :
  NoDup (getList which s) ->
  let l := getList which s in
  let s' := tTimerCallFuncList which s in
  calls s' = calls s ++ map (callback s) (filter (fun t => fires (timers s t)) l) /\
  (forall t, fires (timers s t) = true <-> expired (timers s t)) /\
  (forall t, In t l ->
     let old := timers s t in
     let new := timers s' t in
     (expired old ->
        (0 < durationTicks old ->
           state new = tTimerStarted /\
           delayTicks new = durationTicks old /\
           In t (getList which s')) /\
        (durationTicks old <= 0 ->
           state new = tTimerStopped /\
           ~ In t (getList which s'))) /\
     (~ expired old ->
        new = set_delayTicks (u32 (delayTicks old - 1)) old /\
        In t (getList which s'))).
Proof.
  intros Hnd l s'.
  pose proof (scan_fold which l s Hnd) as H. cbv zeta in H.
  change (fold_left (callFuncTimer which) l s) with s' in H.
  destruct H as (Ht & Hl & Hc).
  split; [exact Hc|].
  split; [intro t; apply fires_expired|].
  intros t Hin old new.
  assert (Hnew : new = visited old).
  { unfold new. rewrite Ht.
    apply existsb_eqb_In in Hin. now rewrite Hin. }
  assert (Hmem : In t (getList which s') <-> stops old = false).
  { rewrite Hl, filter_In. fold l.
    apply existsb_eqb_In in Hin. rewrite Hin. simpl. fold old.
    apply existsb_eqb_In in Hin.
    destruct (stops old); simpl; intuition congruence. }
  split.
  - intro Hex. apply fires_expired in Hex.
    split.
    + intro Hd. apply Z.ltb_lt in Hd.
      rewrite Hnew, Hmem. unfold visited, stops. rewrite Hex, Hd.
      repeat split.
    + intro Hd. apply Z.ltb_ge in Hd.
      rewrite Hnew, Hmem. unfold visited, stops. rewrite Hex, Hd.
      split; [reflexivity | discriminate].
  - intro Hex.
    assert (Hf : fires old = false).
    { destruct (fires old) eqn:E; [|reflexivity].
      apply fires_expired in E. contradiction. }
    rewrite Hnew, Hmem. unfold visited, stops. rewrite Hf.
    split; reflexivity.
Qed.

Lemma tTimerCallFuncList_spec_witness :
  calls (tTimerCallFuncList HardList scanSample) = [(7, 1); (7, 3)].
Proof.
  assert (Hnd : NoDup (getList HardList scanSample)).
  { simpl. repeat constructor; simpl; intuition discriminate. }
  destruct (tTimerCallFuncList_spec HardList scanSample Hnd) as [Hc _].
  rewrite Hc. vm_compute. reflexivity.
Defined.

(** C6 as stated fails: a one-shot timer initialised with no delay and no
    period is started with countdown 0; decrementing 0 does not give 0, and
    the scan invokes its callback all the same. *)
Lemma tTimerCallFuncList_calls_at_zero :
  option_map
    (fun s => (delayTicks (timers s 1),
               u32 (delayTicks (timers s 1) - 1) =? 0,
               calls (tTimerCallFuncList HardList s)))
    (initStart 1 0 0 7 9 TIMER_CONFIG_TYPE_HARD (tTimerModuleInit resetModule))
  = Some (0, false, [(7, 9)]).
Proof. vm_compute. reflexivity. Qed.

End TimerFacts.

(** * Further properties *)

(** ** What the scheduler leaves alone *)

(** [tTaskSched] returns the state it was given or that state with
    [nextTask] set and the switch pended. *)
Lemma tTaskSched_cases (s : Kernel) :
  tTaskSched s = s \/ tTaskSched s = switch_to (tTaskHighestReady s) s.
Proof.
  unfold tTaskSched. cbn [tTaskEnterCritical].
  change (schedLockCounter (set_primask 1 s)) with (schedLockCounter s).
  change (tTaskHighestReady (set_primask 1 s)) with (tTaskHighestReady s).
  change (curTask (set_primask 1 s)) with (curTask s).
  destruct (0 <? schedLockCounter s).
  - left. apply (exit_enter_critical s).
  - destruct (ptr_eqb (tTaskHighestReady s) (curTask s)).
    + left. apply (exit_enter_critical s).
    + right. destruct s; reflexivity.
Qed.

Lemma tTaskSched_frame (s : Kernel) :
  tasks (tTaskSched s) = tasks s /\
  events (tTaskSched s) = events s /\
  curTask (tTaskSched s) = curTask s /\
  taskPrioBitMap (tTaskSched s) = taskPrioBitMap s /\
  taskTable (tTaskSched s) = taskTable s /\
  schedLockCounter (tTaskSched s) = schedLockCounter s /\
  tTaskDelayedList (tTaskSched s) = tTaskDelayedList s /\
  primask (tTaskSched s) = primask s /\
  mem (tTaskSched s) = mem s.
Proof.
  destruct (tTaskSched_cases s) as [E|E]; rewrite E; repeat split.
Qed.

(** ** The scheduler lock *)

Lemma tTaskSchedDisable_lock (s : Kernel) :
  schedLockCounter (tTaskSchedDisable s)
  = if schedLockCounter s <? 255 then schedLockCounter s + 1
    else schedLockCounter s.
Proof.
  unfold tTaskSchedDisable. cbn [tTaskEnterCritical].
  change (schedLockCounter (set_primask 1 s)) with (schedLockCounter s).
  destruct (schedLockCounter s <? 255); reflexivity.
Qed.

Lemma tTaskSchedEnable_lock (s : Kernel) :
  schedLockCounter (tTaskSchedEnable s)
  = if 0 <? schedLockCounter s then schedLockCounter s - 1
    else schedLockCounter s.
Proof.
  unfold tTaskSchedEnable. cbn [tTaskEnterCritical].
  change (schedLockCounter (set_primask 1 s)) with (schedLockCounter s).
  destruct (0 <? schedLockCounter s); [|reflexivity].
  cbn [schedLockCounter set_schedLockCounter].
  destruct (schedLockCounter s - 1 =? 0); [|reflexivity].
  cbn [tTaskExitCritical schedLockCounter set_primask].
  destruct (tTaskSched_frame
              (set_schedLockCounter (schedLockCounter s - 1) (set_primask 1 s)))
    as (_ & _ & _ & _ & _ & Hl & _).
  rewrite Hl. reflexivity.
Qed.

(** X1.  The lock counter stays within [0, 255]: [tTaskSchedDisable]
    saturates at 255 and [tTaskSchedEnable] does nothing at 0.  Below 255 a
    disable followed by an enable gives the counter back; at 255 the
    saturated disable is not counted, so the enable that matches it lowers
    the counter to 254. *)
Theorem schedLockCounter_nesting (s : Kernel) :
  0 <= schedLockCounter s <= 255 ->
  0 <= schedLockCounter (tTaskSchedDisable s) <= 255 /\
  0 <= schedLockCounter (tTaskSchedEnable s) <= 255 /\
  (schedLockCounter s = 0 -> tTaskSchedEnable s = s) /\
  (schedLockCounter s < 255 ->
     schedLockCounter (tTaskSchedEnable (tTaskSchedDisable s))
     = schedLockCounter s) /\
  (schedLockCounter s = 255 ->
     schedLockCounter (tTaskSchedDisable s) = 255 /\
     schedLockCounter (tTaskSchedEnable (tTaskSchedDisable s)) = 254).
Proof.
  intro Hb.
  pose proof (tTaskSchedDisable_lock s) as Hd.
  pose proof (tTaskSchedEnable_lock s) as He.
  pose proof (tTaskSchedEnable_lock (tTaskSchedDisable s)) as Hed.
  split; [|split; [|split; [|split]]].
  - rewrite Hd. destruct (Z.ltb_spec (schedLockCounter s) 255); lia.
  - rewrite He. destruct (Z.ltb_spec 0 (schedLockCounter s)); lia.
  - intro H0. unfold tTaskSchedEnable. cbn [tTaskEnterCritical].
    change (schedLockCounter (set_primask 1 s)) with (schedLockCounter s).
    rewrite H0. cbn [Z.ltb Z.compare]. apply (exit_enter_critical s).
  - intro Hlt. rewrite Hed, Hd.
    destruct (Z.ltb_spec (schedLockCounter s) 255); [|lia].
    destruct (Z.ltb_spec 0 (schedLockCounter s + 1)); lia.
  - intro H255. rewrite Hed, Hd, H255. split; reflexivity.
Qed.

Lemma schedLockCounter_nesting_witness :
  schedLockCounter
    (tTaskSchedEnable (tTaskSchedDisable (set_schedLockCounter 255 (booted sampleConfig))))
  = 254 /\
  schedLockCounter (tTaskSchedEnable (tTaskSchedDisable (booted sampleConfig))) = 0.
Proof.
  split.
  - assert (Hb : 0 <= schedLockCounter (set_schedLockCounter 255 (booted sampleConfig))
                 <= 255) by (cbn [schedLockCounter set_schedLockCounter]; lia).
    destruct (schedLockCounter_nesting _ Hb) as (_ & _ & _ & _ & H).
    apply H. reflexivity.
  - assert (Hb : 0 <= schedLockCounter (booted sampleConfig) <= 255)
      by (vm_compute; split; discriminate).
    destruct (schedLockCounter_nesting _ Hb) as (_ & _ & _ & H & _).
    rewrite H by (vm_compute; reflexivity). vm_compute. reflexivity.
Defined.

(** ** Priority selection *)

(** X2.  Under the ready-table invariant, as soon as some priority has a
    ready task [tTaskHighestReady] answers the head of the ready list of the
    numerically lowest priority that is not empty, and an unlocked
    [tTaskSched] makes that task [nextTask] unless it is running already. *)
Theorem tTaskHighestReady_lowest_prio (cfg : tConfig) (s : Kernel) (p : Z) :
  TINYOS_PRIO_COUNT cfg <= 32 ->
  prioBitMap_inv cfg s ->
  0 <= p < TINYOS_PRIO_COUNT cfg ->
  taskTable s p <> [] ->
  exists q t,
    0 <= q <= p /\
    (forall j, 0 <= j < q -> taskTable s j = []) /\
    tListFirst (taskTable s q) = Some t /\
    tTaskHighestReady s = Some t /\
    (schedLockCounter s <= 0 -> curTask s <> Some t ->
       nextTask (tTaskSched s) = Some t /\ pendSV (tTaskSched s) = true).
Proof.
  intros Hc Hinv Hp Hne.
  assert (Hbit : Z.testbit (taskPrioBitMap s) p = true) by (apply Hinv; assumption).
  destruct (tBitMapGetFirstSet_lowest (taskPrioBitMap s) p) as (Hq & Hset & Hlow);
    [lia | exact Hbit |].
  set (q := tBitMapGetFirstSet (taskPrioBitMap s)) in *.
  assert (Hqne : taskTable s q <> []) by (apply Hinv; [lia | exact Hset]).
  destruct (taskTable s q) as [|t rest] eqn:El; [now elim Hqne|].
  assert (Hh : tTaskHighestReady s = Some t).
  { unfold tTaskHighestReady. fold q. rewrite El. reflexivity. }
  exists q, t.
  split; [exact Hq|]. split.
  { intros j Hj. destruct (taskTable s j) as [|x xs] eqn:Ej; [reflexivity|].
    assert (Hbj : Z.testbit (taskPrioBitMap s) j = true).
    { apply Hinv; [lia|]. rewrite Ej. discriminate. }
    rewrite Hlow in Hbj by lia. discriminate. }
  split; [rewrite El; reflexivity|]. split; [exact Hh|].
  intros Hlock Hcur.
  unfold tTaskSched. cbn [tTaskEnterCritical].
  change (schedLockCounter (set_primask 1 s)) with (schedLockCounter s).
  change (tTaskHighestReady (set_primask 1 s)) with (tTaskHighestReady s).
  change (curTask (set_primask 1 s)) with (curTask s).
  assert (Hf : (0 <? schedLockCounter s) = false) by (apply Z.ltb_ge; exact Hlock).
  rewrite Hf, Hh.
  destruct (ptr_eqb (Some t) (curTask s)) eqn:E.
  - apply ptr_eqb_eq in E. congruence.
  - split; reflexivity.
Qed.

Lemma tTaskHighestReady_lowest_prio_witness :
  exists q t,
    0 <= q <= 31 /\
    (forall j, 0 <= j < q -> taskTable (withTask1 sampleConfig) j = []) /\
    tListFirst (taskTable (withTask1 sampleConfig) q) = Some t /\
    tTaskHighestReady (withTask1 sampleConfig) = Some t.
Proof.
  assert (Hc : TINYOS_PRIO_COUNT sampleConfig <= 32) by (vm_compute; discriminate).
  assert (Hinv : prioBitMap_inv sampleConfig (withTask1 sampleConfig)).
  { unfold withTask1. apply tTaskInit_inv; [exact Hc|]. apply booted_inv. exact Hc. }
  assert (Hp : 0 <= 31 < TINYOS_PRIO_COUNT sampleConfig)
    by (vm_compute; split; [discriminate | reflexivity]).
  assert (Hne : taskTable (withTask1 sampleConfig) 31 <> [])
    by (vm_compute; discriminate).
  destruct (tTaskHighestReady_lowest_prio sampleConfig (withTask1 sampleConfig) 31
              Hc Hinv Hp Hne) as (q & t & H1 & H2 & H3 & H4 & _).
  exists q, t.
  split; [exact H1|]. split; [exact H2|]. split; [exact H3 | exact H4].
Defined.

(** ** Ready and unready *)

Lemma tBitMapSet_high (b p i : Z) :
  32 <= i -> Z.testbit (tBitMapSet b p) i = false.
Proof.
  intro Hi. unfold tBitMapSet, u32. apply Z.mod_pow2_bits_high. lia.
Qed.

Lemma testbit_u32_range (b i : Z) :
  0 <= b < 2 ^ 32 -> 32 <= i -> Z.testbit b i = false.
Proof.
  intros Hb Hi.
  rewrite <- (Z.mod_small b (2 ^ 32)) by exact Hb.
  apply Z.mod_pow2_bits_high. lia.
Qed.

(** X3.  Making a task ready and unready again gives back the ready lists
    and the bitmap, when the task was not on the ready list of its priority
    and the bit of that priority told whether the list was empty. *)
Theorem tTaskSchedUnRdy_tTaskSchedRdy (s : Kernel) (task : TaskId) :
  let p := prio (tasks s task) in
  0 <= p < 32 ->
  0 <= taskPrioBitMap s < 2 ^ 32 ->
  ~ In task (taskTable s p) ->
  (taskTable s p <> [] <-> Z.testbit (taskPrioBitMap s) p = true) ->
  let s' := tTaskSchedUnRdy (tTaskSchedRdy s task) task in
  (forall q, taskTable s' q = taskTable s q) /\
  taskPrioBitMap s' = taskPrioBitMap s.
Proof.
  intros p Hp Hb Hnin Hbit s'.
  assert (Hfil : forall l, ~ In task l -> tListRemove l task = l).
  { induction l as [|x l IH]; intro Hn; simpl; [reflexivity|].
    destruct (Z.eqb_spec x task) as [->|Hne]; simpl.
    - elim Hn. now left.
    - rewrite IH; [reflexivity|]. intro H. apply Hn. now right. }
  subst s'. rewrite tTaskSchedUnRdy_eq.
  set (s1 := tTaskSchedRdy s task).
  assert (Hp1 : prio (tasks s1 task) = p) by reflexivity.
  assert (Ht1 : taskTable s1 = upd (taskTable s) p (task :: taskTable s p))
    by reflexivity.
  assert (Hb1 : taskPrioBitMap s1 = tBitMapSet (taskPrioBitMap s) p)
    by reflexivity.
  cbv zeta. rewrite Hp1, Ht1, Hb1, upd_same.
  assert (Hrem : tListRemove (task :: taskTable s p) task = taskTable s p).
  { unfold tListRemove. simpl. rewrite Z.eqb_refl. simpl. apply Hfil, Hnin. }
  rewrite Hrem.
  assert (Htab : forall q,
            upd (upd (taskTable s) p (task :: taskTable s p)) p (taskTable s p) q
            = taskTable s q).
  { intro q. unfold upd. destruct (Z.eqb_spec q p) as [->|]; reflexivity. }
  destruct (taskTable s p) as [|x l] eqn:El.
  - cbn [tListCount length Z.of_nat Z.eqb].
    cbn [taskTable taskPrioBitMap set_taskTable set_taskPrioBitMap].
    split; [exact Htab|].
    assert (Hclear : Z.testbit (taskPrioBitMap s) p = false).
    { destruct (Z.testbit (taskPrioBitMap s) p) eqn:E; [|reflexivity].
      destruct Hbit as [_ H]. now elim (H eq_refl). }
    apply Z.bits_inj'. intros i Hi.
    destruct (Z.lt_ge_cases i 32) as [Hlt|Hge].
    + destruct (Z.eq_dec i p) as [->|Hne].
      * rewrite testbit_tBitMapClear_same by lia. now rewrite Hclear.
      * rewrite testbit_tBitMapClear_other by lia.
        apply testbit_tBitMapSet_other; lia.
    + unfold tBitMapClear. rewrite Z.land_spec, tBitMapSet_high by lia.
      simpl. symmetry. apply testbit_u32_range; assumption.
  - replace (tListCount (x :: l) =? 0) with false
      by (symmetry; apply Z.eqb_neq; unfold tListCount; simpl length; lia).
    cbn [taskTable taskPrioBitMap set_taskTable].
    split; [exact Htab|]. rewrite Hb1.
    assert (Hset : Z.testbit (taskPrioBitMap s) p = true)
      by (apply Hbit; discriminate).
    apply Z.bits_inj'. intros i Hi.
    destruct (Z.lt_ge_cases i 32) as [Hlt|Hge].
    + destruct (Z.eq_dec i p) as [->|Hne].
      * rewrite testbit_tBitMapSet_same by lia. now rewrite Hset.
      * apply testbit_tBitMapSet_other; lia.
    + rewrite tBitMapSet_high by lia. symmetry.
      apply testbit_u32_range; assumption.
Qed.

Lemma tTaskSchedUnRdy_tTaskSchedRdy_witness :
  taskPrioBitMap
    (tTaskSchedUnRdy (tTaskSchedRdy (task1Delayed sampleConfig) task1) task1)
  = taskPrioBitMap (task1Delayed sampleConfig).
Proof.
  apply (tTaskSchedUnRdy_tTaskSchedRdy (task1Delayed sampleConfig) task1).
  - vm_compute. split; [discriminate | reflexivity].
  - vm_compute. split; [discriminate | reflexivity].
  - vm_compute. intros [].
  - vm_compute. split; [intro H; now elim H | discriminate].
Defined.

(** ** Suspend and wake up *)

Section SuspendWakeUp.

Variable cfg : tConfig.

(** The effect of [tTaskSuspend] on a task that is not delayed. *)
Lemma tTaskSuspend_effect (s : Kernel) (task : TaskId) :
  Z.land (state (tasks s task)) (TINYOS_TASK_STATE_DELAYED cfg) = 0 ->
  let s' := tTaskSuspend cfg s task in
  let p := prio (tasks s task) in
  let c' := u32 (suspendCount (tasks s task) + 1) in
  (forall x, x <> task -> tasks s' x = tasks s x) /\
  prio (tasks s' task) = p /\
  suspendCount (tasks s' task) = c' /\
  state (tasks s' task)
    = (if c' <=? 1
       then Z.lor (state (tasks s task)) (TINYOS_TASK_STATE_SUSPEND cfg)
       else state (tasks s task)) /\
  (forall q, taskTable s' q
     = if (c' <=? 1) && (q =? p) then tListRemove (taskTable s p) task
       else taskTable s q) /\
  tTaskDelayedList s' = tTaskDelayedList s /\
  events s' = events s /\
  schedLockCounter s' = schedLockCounter s /\
  primask s' = primask s /\
  curTask s' = curTask s.
Proof.
  intros Hd s' p c'. subst s'. unfold tTaskSuspend. cbn [tTaskEnterCritical].
  change (tasks (set_primask 1 s) task) with (tasks s task).
  rewrite Hd. cbn [Z.eqb].
  rewrite tasks_task_upd_same. cbn [suspendCount set_suspendCount].
  change (tasks (set_primask 1 s) task) with (tasks s task).
  fold c'.
  destruct (c' <=? 1) eqn:Ec.
  - set (sb := task_upd task
                 (fun t => set_state (Z.lor (state t) (TINYOS_TASK_STATE_SUSPEND cfg)) t)
                 (task_upd task
                    (fun t => set_suspendCount (u32 (suspendCount t + 1)) t)
                    (set_primask 1 s))).
    assert (Hbt : tasks sb task
                  = set_state
                      (Z.lor (state (tasks s task)) (TINYOS_TASK_STATE_SUSPEND cfg))
                      (set_suspendCount c' (tasks s task))).
    { subst sb. rewrite tasks_task_upd_same.
      change (tasks (task_upd task _ (set_primask 1 s)) task)
        with (upd (tasks s) task
                (set_suspendCount (u32 (suspendCount (tasks s task) + 1))
                   (tasks s task)) task).
      rewrite upd_same. reflexivity. }
    assert (Hbx : forall x, x <> task -> tasks sb x = tasks s x).
    { intros x Hx. subst sb. rewrite !tasks_task_upd_other by exact Hx.
      reflexivity. }
    assert (Hbp : prio (tasks sb task) = p) by (rewrite Hbt; reflexivity).
    rewrite (tTaskSchedUnRdy_eq sb task). cbv zeta. rewrite Hbp.
    change (taskTable sb) with (taskTable s).
    change (taskPrioBitMap sb) with (taskPrioBitMap s).
    set (sc := if tListCount (tListRemove (taskTable s p) task) =? 0
               then set_taskPrioBitMap (tBitMapClear (taskPrioBitMap s) p)
                      (set_taskTable
                         (upd (taskTable s) p (tListRemove (taskTable s p) task)) sb)
               else set_taskTable
                      (upd (taskTable s) p (tListRemove (taskTable s p) task)) sb).
    assert (Hc : tasks sc = tasks sb /\
                 taskTable sc = upd (taskTable s) p (tListRemove (taskTable s p) task) /\
                 tTaskDelayedList sc = tTaskDelayedList s /\
                 events sc = events s /\
                 schedLockCounter sc = schedLockCounter s /\
                 curTask sc = curTask s).
    { subst sc. destruct (tListCount _ =? 0); repeat split. }
    destruct Hc as (C1 & C2 & C3 & C4 & C5 & C6).
    rewrite C6.
    assert (Hfin : forall sf,
              tasks sf = tasks sc -> taskTable sf = taskTable sc ->
              tTaskDelayedList sf = tTaskDelayedList sc ->
              events sf = events sc ->
              schedLockCounter sf = schedLockCounter sc ->
              curTask sf = curTask sc ->
              let s' := tTaskExitCritical (primask s) sf in
              (forall x, x <> task -> tasks s' x = tasks s x) /\
              prio (tasks s' task) = p /\
              suspendCount (tasks s' task) = c' /\
              state (tasks s' task)
                = Z.lor (state (tasks s task)) (TINYOS_TASK_STATE_SUSPEND cfg) /\
              (forall q, taskTable s' q
                 = if true && (q =? p) then tListRemove (taskTable s p) task
                   else taskTable s q) /\
              tTaskDelayedList s' = tTaskDelayedList s /\
              events s' = events s /\
              schedLockCounter s' = schedLockCounter s /\
              primask s' = primask s /\
              curTask s' = curTask s).
    { intros sf F1 F2 F3 F4 F5 F6 s'. subst s'.
      cbn [tTaskExitCritical tasks taskTable tTaskDelayedList events
           schedLockCounter primask curTask set_primask].
      rewrite F1, F2, F3, F4, F5, F6, C1, C2, C3, C4, C5, C6.
      split; [exact Hbx|]. rewrite Hbt.
      do 3 (split; [reflexivity|]).
      split; [|repeat split].
      intro q. cbn [andb]. unfold upd. destruct (q =? p); reflexivity. }
    destruct (ptr_eqb (Some task) (curTask s)).
    + destruct (tTaskSched_frame (tTaskExitCritical (primask s) sc))
        as (T1 & T2 & T3 & _ & T5 & T6 & T7 & _ & _).
      apply Hfin; [rewrite T1 | rewrite T5 | rewrite T7 | rewrite T2
                   | rewrite T6 | rewrite T3]; reflexivity.
    + apply Hfin; reflexivity.
  - cbn [tTaskExitCritical tasks taskTable tTaskDelayedList events
         schedLockCounter primask curTask set_primask task_upd set_tasks].
    rewrite upd_same. cbn [prio suspendCount state set_suspendCount andb].
    split; [intros x Hx; now apply upd_other|].
    repeat split.
Qed.

(** The effect of [tTaskWakeUp] on a task whose SUSPEND bit is set. *)
Lemma tTaskWakeUp_effect (s : Kernel) (task : TaskId) :
  Z.land (state (tasks s task)) (TINYOS_TASK_STATE_SUSPEND cfg) <> 0 ->
  let s' := tTaskWakeUp cfg s task in
  let p := prio (tasks s task) in
  let c' := u32 (suspendCount (tasks s task) - 1) in
  (forall x, x <> task -> tasks s' x = tasks s x) /\
  prio (tasks s' task) = p /\
  suspendCount (tasks s' task) = c' /\
  state (tasks s' task)
    = (if c' =? 0
       then Z.land (state (tasks s task))
              (u32 (Z.lnot (TINYOS_TASK_STATE_SUSPEND cfg)))
       else state (tasks s task)) /\
  (forall q, taskTable s' q
     = if (c' =? 0) && (q =? p) then task :: taskTable s p else taskTable s q) /\
  taskPrioBitMap s'
    = (if c' =? 0 then tBitMapSet (taskPrioBitMap s) p else taskPrioBitMap s) /\
  tTaskDelayedList s' = tTaskDelayedList s /\
  events s' = events s /\
  schedLockCounter s' = schedLockCounter s /\
  primask s' = primask s /\
  curTask s' = curTask s.
Proof.
  intros Hs s' p c'. subst s'. unfold tTaskWakeUp. cbn [tTaskEnterCritical].
  change (tasks (set_primask 1 s) task) with (tasks s task).
  apply Z.eqb_neq in Hs. rewrite Hs. cbn [negb].
  rewrite tasks_task_upd_same. cbn [suspendCount set_suspendCount].
  change (tasks (set_primask 1 s) task) with (tasks s task).
  fold c'.
  destruct (c' =? 0) eqn:Ec.
  - set (sr := tTaskSchedRdy _ task).
    assert (Hr : (forall x, x <> task -> tasks sr x = tasks s x) /\
                 tasks sr task
                 = set_state
                     (Z.land (state (tasks s task))
                        (u32 (Z.lnot (TINYOS_TASK_STATE_SUSPEND cfg))))
                     (set_suspendCount c' (tasks s task)) /\
                 taskTable sr = upd (taskTable s) p (task :: taskTable s p) /\
                 taskPrioBitMap sr = tBitMapSet (taskPrioBitMap s) p /\
                 tTaskDelayedList sr = tTaskDelayedList s /\
                 events sr = events s /\
                 schedLockCounter sr = schedLockCounter s /\
                 curTask sr = curTask s).
    { subst sr. unfold tTaskSchedRdy.
      cbn [tasks taskTable taskPrioBitMap tTaskDelayedList events
           schedLockCounter curTask task_upd set_tasks set_taskTable
           set_taskPrioBitMap set_primask].
      rewrite !upd_same. cbn [prio set_state set_suspendCount].
      split; [intros x Hx; now rewrite !upd_other by exact Hx|].
      repeat split. }
    destruct Hr as (R1 & R2 & R3 & R4 & R5 & R6 & R7 & R8).
    destruct (tTaskSched_frame (tTaskExitCritical (primask s) sr))
      as (T1 & T2 & T3 & T4 & T5 & T6 & T7 & _ & _).
    cbn [tTaskExitCritical tasks taskTable taskPrioBitMap tTaskDelayedList
         events schedLockCounter primask curTask set_primask].
    rewrite T1, T2, T3, T4, T5, T6, T7.
    cbn [tTaskExitCritical tasks taskTable taskPrioBitMap tTaskDelayedList
         events schedLockCounter primask curTask set_primask].
    rewrite R2, R3, R4, R5, R6, R7, R8.
    split; [exact R1|].
    do 3 (split; [reflexivity|]).
    split; [|repeat split].
    intro q. cbn [andb]. unfold upd. destruct (q =? p); reflexivity.
  - cbn [tTaskExitCritical tasks taskTable taskPrioBitMap tTaskDelayedList
         events schedLockCounter primask curTask set_primask task_upd set_tasks].
    rewrite upd_same. cbn [prio suspendCount state set_suspendCount andb].
    split; [intros x Hx; now apply upd_other|].
    repeat split.
Qed.

(** X4.  [tTaskWakeUp] on a task whose SUSPEND bit is clear returns the
    kernel state it was given. *)
Theorem tTaskWakeUp_not_suspended (s : Kernel) (task : TaskId) :
  Z.land (state (tasks s task)) (TINYOS_TASK_STATE_SUSPEND cfg) = 0 ->
  tTaskWakeUp cfg s task = s.
Proof.
  intro Hs. unfold tTaskWakeUp. cbn [tTaskEnterCritical].
  change (tasks (set_primask 1 s) task) with (tasks s task).
  rewrite Hs. cbn [Z.eqb negb]. apply (exit_enter_critical s).
Qed.

Hypothesis suspend_bit : (TINYOS_TASK_STATE_SUSPEND cfg) <> 0.
Hypothesis suspend_not_delayed :
  Z.land (TINYOS_TASK_STATE_SUSPEND cfg) (TINYOS_TASK_STATE_DELAYED cfg) = 0.

Lemma lor_suspend_delayed (x : Z) :
  Z.land x (TINYOS_TASK_STATE_DELAYED cfg) = 0 ->
  Z.land (Z.lor x (TINYOS_TASK_STATE_SUSPEND cfg)) (TINYOS_TASK_STATE_DELAYED cfg) = 0.
Proof.
  intro H. rewrite Z.land_lor_distr_l, H, suspend_not_delayed. reflexivity.
Qed.

Lemma lor_suspend_set (x : Z) :
  Z.land (Z.lor x (TINYOS_TASK_STATE_SUSPEND cfg)) (TINYOS_TASK_STATE_SUSPEND cfg) <> 0.
Proof.
  rewrite Z.land_lor_distr_l, Z.land_diag. intro H.
  apply Z.lor_eq_0_iff in H. now destruct H.
Qed.

Lemma land_clear_suspend_delayed (x : Z) :
  Z.land x (TINYOS_TASK_STATE_DELAYED cfg) = 0 ->
  Z.land (Z.land x (u32 (Z.lnot (TINYOS_TASK_STATE_SUSPEND cfg))))
    (TINYOS_TASK_STATE_DELAYED cfg) = 0.
Proof.
  intro H.
  rewrite <- Z.land_assoc, (Z.land_comm (u32 _) (TINYOS_TASK_STATE_DELAYED cfg)),
    Z.land_assoc, H.
  apply Z.land_0_l.
Qed.

(** After [n + 1] suspensions of a ready task the count is [n + 1], the
    task is suspended and off the ready list of its priority. *)
Lemma tTaskSuspend_iter (s : Kernel) (task : TaskId) (n : nat) :
  Z.land (state (tasks s task)) (TINYOS_TASK_STATE_DELAYED cfg) = 0 ->
  suspendCount (tasks s task) = 0 ->
  Z.of_nat n + 1 < 2 ^ 32 ->
  let s' := Nat.iter (S n) (fun s => tTaskSuspend cfg s task) s in
  prio (tasks s' task) = prio (tasks s task) /\
  suspendCount (tasks s' task) = Z.of_nat n + 1 /\
  Z.land (state (tasks s' task)) (TINYOS_TASK_STATE_DELAYED cfg) = 0 /\
  Z.land (state (tasks s' task)) (TINYOS_TASK_STATE_SUSPEND cfg) <> 0 /\
  ~ In task (taskTable s' (prio (tasks s task))).
Proof.
  intros Hd Hc. induction n as [|n IH]; intro Hn.
  - cbn [Nat.iter nat_rect].
    destruct (tTaskSuspend_effect s task Hd)
      as (_ & Ep & Ec & Es & Et & _).
    rewrite Hc in Ec, Es, Et. change (u32 (0 + 1)) with 1 in Ec, Es, Et.
    change (1 <=? 1) with true in Es, Et.
    rewrite Ep, Ec, Es, Et, Z.eqb_refl. cbn [andb].
    split; [reflexivity|]. split; [reflexivity|].
    split; [now apply lor_suspend_delayed|].
    split; [apply lor_suspend_set|].
    unfold tListRemove. rewrite filter_In, Z.eqb_refl. intros [_ H]. discriminate.
  - assert (Hn' : Z.of_nat n + 1 < 2 ^ 32) by lia.
    specialize (IH Hn'). cbv zeta in IH. cbv zeta.
    change (Nat.iter (S (S n)) (fun s0 => tTaskSuspend cfg s0 task) s)
      with (tTaskSuspend cfg
              (Nat.iter (S n) (fun s0 => tTaskSuspend cfg s0 task) s) task).
    set (s1 := Nat.iter (S n) (fun s0 => tTaskSuspend cfg s0 task) s) in *.
    destruct IH as (Ip & Ic & Id & Is & It).
    destruct (tTaskSuspend_effect s1 task Id)
      as (_ & Ep & Ec & Es & Et & _).
    rewrite Ic in Ec, Es, Et.
    assert (Hu : u32 (Z.of_nat n + 1 + 1) = Z.of_nat n + 2).
    { unfold u32. rewrite Z.mod_small; lia. }
    rewrite Hu in Ec, Es, Et.
    assert (Hgt : (Z.of_nat n + 2 <=? 1) = false) by (apply Z.leb_gt; lia).
    rewrite Hgt in Es, Et. cbn [andb] in Et.
    rewrite Ep, Ec, Es, Et, Ip.
    split; [reflexivity|]. split; [lia|].
    split; [exact Id|]. split; [exact Is|].
    exact It.
Qed.

(** From a task suspended [c] times, [k <= c] wake-ups. *)
Lemma tTaskWakeUp_iter (s : Kernel) (task : TaskId) (c : Z) (k : nat) :
  suspendCount (tasks s task) = c ->
  c < 2 ^ 32 ->
  Z.of_nat k <= c ->
  Z.land (state (tasks s task)) (TINYOS_TASK_STATE_SUSPEND cfg) <> 0 ->
  ~ In task (taskTable s (prio (tasks s task))) ->
  let s' := Nat.iter k (fun s => tTaskWakeUp cfg s task) s in
  prio (tasks s' task) = prio (tasks s task) /\
  suspendCount (tasks s' task) = c - Z.of_nat k /\
  (Z.of_nat k < c ->
     Z.land (state (tasks s' task)) (TINYOS_TASK_STATE_SUSPEND cfg) <> 0 /\
     ~ In task (taskTable s' (prio (tasks s task)))) /\
  (Z.of_nat k = c -> 1 <= c ->
     Z.land (state (tasks s' task)) (TINYOS_TASK_STATE_SUSPEND cfg) = 0 /\
     tListFirst (taskTable s' (prio (tasks s task))) = Some task).
Proof.
  intros Hc Hlt. induction k as [|k IH]; intros Hk Hs Hn.
  - cbn [Nat.iter nat_rect].
    split; [reflexivity|]. split; [simpl; lia|].
    split; [intros _; split; assumption|].
    intros H0 H1. simpl in H0. lia.
  - assert (Hk' : Z.of_nat k <= c) by lia.
    specialize (IH Hk' Hs Hn). cbv zeta in IH. cbv zeta.
    change (Nat.iter (S k) (fun s0 => tTaskWakeUp cfg s0 task) s)
      with (tTaskWakeUp cfg
              (Nat.iter k (fun s0 => tTaskWakeUp cfg s0 task) s) task).
    set (s1 := Nat.iter k (fun s0 => tTaskWakeUp cfg s0 task) s) in *.
    destruct IH as (Ip & Ic & Isus & _).
    destruct Isus as [Is It]; [lia|].
    destruct (tTaskWakeUp_effect s1 task Is)
      as (_ & Ep & Ec & Es & Et & _).
    rewrite Ic in Ec, Es, Et.
    assert (Hu : u32 (c - Z.of_nat k - 1) = c - Z.of_nat (S k)).
    { unfold u32. rewrite Z.mod_small; lia. }
    rewrite Hu in Ec, Es, Et.
    rewrite Ep, Ec, Ip.
    split; [reflexivity|]. split; [reflexivity|].
    split.
    + intro Hlt'.
      assert (Hnz : (c - Z.of_nat (S k) =? 0) = false) by (apply Z.eqb_neq; lia).
      rewrite Hnz in Es, Et. cbn [andb] in Et.
      rewrite Es, Et. split; assumption.
    + intros Heq _.
      assert (Hz : (c - Z.of_nat (S k) =? 0) = true) by (apply Z.eqb_eq; lia).
      rewrite Hz in Es, Et. rewrite Es, Et, Ip, Z.eqb_refl. cbn [andb].
      split; [apply land_clear_mask | reflexivity].
Qed.

(** X5.  Suspensions nest: a ready task that is suspended [n >= 1] times
    and woken [k <= n] times has suspend count [n - k]; as long as [k < n]
    it stays suspended and off the ready list of its priority, and the
    [n]-th wake-up clears the SUSPEND bit and puts it at the head of that
    list. *)
Theorem tTaskSuspend_tTaskWakeUp_nest (s : Kernel) (task : TaskId) (n k : nat) :
  Z.land (state (tasks s task)) (TINYOS_TASK_STATE_DELAYED cfg) = 0 ->
  suspendCount (tasks s task) = 0 ->
  (1 <= n)%nat -> (k <= n)%nat -> Z.of_nat n < 2 ^ 32 ->
  let s1 := Nat.iter n (fun s => tTaskSuspend cfg s task) s in
  let s2 := Nat.iter k (fun s => tTaskWakeUp cfg s task) s1 in
  let p := prio (tasks s task) in
  suspendCount (tasks s2 task) = Z.of_nat n - Z.of_nat k /\
  ((k < n)%nat ->
     Z.land (state (tasks s2 task)) (TINYOS_TASK_STATE_SUSPEND cfg) <> 0 /\
     ~ In task (taskTable s2 p)) /\
  (k = n ->
     Z.land (state (tasks s2 task)) (TINYOS_TASK_STATE_SUSPEND cfg) = 0 /\
     tListFirst (taskTable s2 p) = Some task).
Proof.
  intros Hd Hc Hn Hk Hlt s1 s2 p.
  destruct n as [|n]; [lia|].
  destruct (tTaskSuspend_iter s task n Hd Hc) as (Ip & Ic & Id & Is & It); [lia|].
  fold s1 in Ip, Ic, Id, Is, It. fold p in Ip, It.
  assert (Hn1 : ~ In task (taskTable s1 (prio (tasks s1 task))))
    by (rewrite Ip; exact It).
  destruct (tTaskWakeUp_iter s1 task (Z.of_nat n + 1) k Ic) as (Wp & Wc & Wlt & Weq);
    [lia | lia | exact Is | exact Hn1 |].
  fold s2 in Wp, Wc, Wlt, Weq. rewrite Ip in Wlt, Weq.
  split; [rewrite Wc; lia|].
  split.
  - intro H. apply Wlt. lia.
  - intro H. apply Weq; lia.
Qed.

End SuspendWakeUp.

Lemma tTaskWakeUp_not_suspended_witness :
  tTaskWakeUp sampleConfig (withTask1 sampleConfig) task1 = withTask1 sampleConfig.
Proof.
  apply (tTaskWakeUp_not_suspended sampleConfig (withTask1 sampleConfig) task1).
  vm_compute. reflexivity.
Defined.

Lemma tTaskSuspend_tTaskWakeUp_nest_witness :
  suspendCount
    (tasks (Nat.iter 1 (fun s => tTaskWakeUp sampleConfig s task1)
              (Nat.iter 2 (fun s => tTaskSuspend sampleConfig s task1)
                 (withTask1 sampleConfig))) task1)
  = 1.
Proof.
  assert (Hb : TINYOS_TASK_STATE_SUSPEND sampleConfig <> 0)
    by (vm_compute; discriminate).
  assert (Hsd : Z.land (TINYOS_TASK_STATE_SUSPEND sampleConfig)
                  (TINYOS_TASK_STATE_DELAYED sampleConfig) = 0)
    by (vm_compute; reflexivity).
  assert (Hd : Z.land (state (tasks (withTask1 sampleConfig) task1))
                 (TINYOS_TASK_STATE_DELAYED sampleConfig) = 0)
    by (vm_compute; reflexivity).
  assert (Hc : suspendCount (tasks (withTask1 sampleConfig) task1) = 0)
    by (vm_compute; reflexivity).
  assert (Hn : (1 <= 2)%nat) by lia.
  assert (Hk : (1 <= 2)%nat) by lia.
  assert (Hlt : Z.of_nat 2 < 2 ^ 32) by (vm_compute; reflexivity).
  destruct (tTaskSuspend_tTaskWakeUp_nest sampleConfig Hb Hsd
              (withTask1 sampleConfig) task1 2 1 Hd Hc Hn Hk Hlt) as [H _].
  exact H.
Defined.

(** ** Operations that keep the ready-table invariant *)

Section KeepInvariant.

Variable cfg : tConfig.
Hypothesis prio_count_le : TINYOS_PRIO_COUNT cfg <= 32.

Lemma inv_exit (status : Z) (s : Kernel) :
  prioBitMap_inv cfg s -> prioBitMap_inv cfg (tTaskExitCritical status s).
Proof. apply prioBitMap_inv_ext; reflexivity. Qed.

Lemma inv_task_upd (task : TaskId) (f : tTask -> tTask) (s : Kernel) :
  prioBitMap_inv cfg s -> prioBitMap_inv cfg (task_upd task f s).
Proof. apply prioBitMap_inv_ext; reflexivity. Qed.

Lemma tTaskSuspend_inv (s : Kernel) (task : TaskId) :
  prioBitMap_inv cfg s -> prioBitMap_inv cfg (tTaskSuspend cfg s task).
Proof.
  intro Hinv. unfold tTaskSuspend. cbn [tTaskEnterCritical].
  apply inv_exit.
  assert (H1 : prioBitMap_inv cfg (set_primask 1 s))
    by (revert Hinv; apply prioBitMap_inv_ext; reflexivity).
  generalize dependent (set_primask 1 s). intros s1 H1.
  destruct (Z.land (state (tasks s1 task)) (TINYOS_TASK_STATE_DELAYED cfg) =? 0);
    [|exact H1].
  assert (H2 := inv_task_upd task
                  (fun t => set_suspendCount (u32 (suspendCount t + 1)) t) s1 H1).
  generalize dependent (task_upd task
                          (fun t => set_suspendCount (u32 (suspendCount t + 1)) t) s1).
  intros s2 H2.
  destruct (suspendCount (tasks s2 task) <=? 1); [|exact H2].
  assert (H3 := tTaskSchedUnRdy_inv cfg prio_count_le _ task
                  (inv_task_upd task
                     (fun t => set_state
                                 (Z.lor (state t) (TINYOS_TASK_STATE_SUSPEND cfg)) t)
                     s2 H2)).
  generalize dependent (tTaskSchedUnRdy
                          (task_upd task
                             (fun t => set_state
                                         (Z.lor (state t)
                                            (TINYOS_TASK_STATE_SUSPEND cfg)) t) s2)
                          task).
  intros s3 H3.
  destruct (ptr_eqb (Some task) (curTask s3)); [|exact H3].
  apply tTaskSched_inv, inv_exit, H3.
Qed.

Lemma tTaskWakeUp_inv (s : Kernel) (task : TaskId) :
  prioBitMap_inv cfg s -> prioBitMap_inv cfg (tTaskWakeUp cfg s task).
Proof.
  intro Hinv. unfold tTaskWakeUp. cbn [tTaskEnterCritical].
  apply inv_exit.
  assert (H1 : prioBitMap_inv cfg (set_primask 1 s))
    by (revert Hinv; apply prioBitMap_inv_ext; reflexivity).
  generalize dependent (set_primask 1 s). intros s1 H1.
  destruct (negb (Z.land (state (tasks s1 task)) (TINYOS_TASK_STATE_SUSPEND cfg) =? 0));
    [|exact H1].
  assert (H2 := inv_task_upd task
                  (fun t => set_suspendCount (u32 (suspendCount t - 1)) t) s1 H1).
  generalize dependent (task_upd task
                          (fun t => set_suspendCount (u32 (suspendCount t - 1)) t) s1).
  intros s2 H2.
  destruct (suspendCount (tasks s2 task) =? 0); [|exact H2].
  apply tTaskSched_inv, inv_exit, (tTaskSchedRdy_inv cfg prio_count_le), inv_task_upd, H2.
Qed.

Lemma tTaskForceDelete_inv (s : Kernel) (task : TaskId) :
  prioBitMap_inv cfg s -> prioBitMap_inv cfg (snd (tTaskForceDelete cfg s task)).
Proof.
  intro Hinv. unfold tTaskForceDelete. cbn [tTaskEnterCritical snd].
  apply inv_exit.
  assert (H1 : prioBitMap_inv cfg (set_primask 1 s))
    by (revert Hinv; apply prioBitMap_inv_ext; reflexivity).
  generalize dependent (set_primask 1 s). intros s1 H1.
  assert (H2 : prioBitMap_inv cfg
                 (if negb (Z.land (state (tasks s1 task))
                             (TINYOS_TASK_STATE_DELAYED cfg) =? 0)
                  then tTimeTaskRemove s1 task
                  else if Z.land (state (tasks s1 task))
                            (TINYOS_TASK_STATE_SUSPEND cfg) =? 0
                       then tTaskSchedRemove s1 task else s1)).
  { destruct (negb _).
    - revert H1. apply prioBitMap_inv_ext; reflexivity.
    - destruct (_ =? 0); [|exact H1].
      apply (tTaskSchedRemove_inv cfg prio_count_le), H1. }
  match goal with
  | H : prioBitMap_inv cfg ?x |- _ =>
      match x with
      | (if _ then _ else _) => generalize dependent x
      end
  end.
  intros s2 H2.
  destruct (ptr_eqb (curTask s2) (Some task)); [|exact H2].
  apply tTaskSched_inv, inv_exit, H2.
Qed.

Lemma tickDelayedTask_inv (s : Kernel) (task : TaskId) :
  prioBitMap_inv cfg s -> prioBitMap_inv cfg (tickDelayedTask cfg s task).
Proof.
  intro Hinv. unfold tickDelayedTask.
  assert (H1 := inv_task_upd task
                  (fun t => set_delayTicks (u32 (delayTicks t - 1)) t) s Hinv).
  generalize dependent (task_upd task
                          (fun t => set_delayTicks (u32 (delayTicks t - 1)) t) s).
  intros s1 H1.
  destruct (delayTicks (tasks s1 task) =? 0); [|exact H1].
  apply (tTaskSchedRdy_inv cfg prio_count_le).
  unfold tTimeTaskWakeUp. apply inv_task_upd.
  assert (H2 : prioBitMap_inv cfg
                 match waitEvent (tasks s1 task) with
                 | Some _ => tEventRemoveTask cfg s1 task 0 (tErrorTimeOut cfg)
                 | None => s1
                 end).
  { destruct (waitEvent (tasks s1 task)); [|exact H1].
    destruct (tEventRemoveTask_frame cfg s1 task 0 (tErrorTimeOut cfg))
      as (_ & _ & _ & Ft & Fb & _).
    revert H1. apply prioBitMap_inv_ext; [intro p; now rewrite Ft | exact Fb]. }
  revert H2. apply prioBitMap_inv_ext; reflexivity.
Qed.

Lemma tickDelayed_inv (s : Kernel) :
  prioBitMap_inv cfg s -> prioBitMap_inv cfg (tickDelayed cfg s).
Proof.
  unfold tickDelayed. generalize (tTaskDelayedList s). intro l. revert s.
  induction l as [|a l IH]; intros s Hinv; simpl fold_left.
  - exact Hinv.
  - apply IH, tickDelayedTask_inv, Hinv.
Qed.

Lemma tickSlice_inv (s s' : Kernel) :
  prioBitMap_inv cfg s -> tickSlice cfg s = Some s' -> prioBitMap_inv cfg s'.
Proof.
  intros Hinv. unfold tickSlice.
  destruct (curTask s) as [c|]; [|discriminate].
  assert (H1 := inv_task_upd c (fun t => set_slice (u32 (slice t - 1)) t) s Hinv).
  generalize dependent (task_upd c (fun t => set_slice (u32 (slice t - 1)) t) s).
  intros s1 H1.
  destruct (slice (tasks s1 c) =? 0); [|intro H; injection H as <-; exact H1].
  destruct (0 <? tListCount (taskTable s1 (prio (tasks s1 c)))) eqn:Ecnt;
    [|intro H; injection H as <-; exact H1].
  intro H; injection H as <-.
  apply inv_task_upd.
  cbn [taskTable set_taskTable tasks]. rewrite upd_same.
  set (p := prio (tasks s1 c)) in *.
  intros q Hq.
  cbn [taskTable taskPrioBitMap set_taskTable].
  destruct (Z.eq_dec q p) as [->|Hne].
  - rewrite upd_same.
    assert (Hold : taskTable s1 p <> []).
    { intro Hnil. rewrite Hnil in Ecnt. discriminate. }
    split; [intros _; now apply H1|].
    intros _ Hnil. unfold tListAddLast in Hnil.
    apply app_eq_nil in Hnil. destruct Hnil as [_ Hnil]. discriminate.
  - rewrite !upd_other by exact Hne. now apply H1.
Qed.

Lemma tTimeTaskWait_inv (s : Kernel) (task : TaskId) (ticks : Z) :
  prioBitMap_inv cfg s -> prioBitMap_inv cfg (tTimeTaskWait cfg s task ticks).
Proof. apply prioBitMap_inv_ext; reflexivity. Qed.

(** X6.  Every operation on the ready table other than
    [tTaskSchedDisable] keeps the invariant "bit [p] set iff [taskTable[p]]
    not empty": making ready and unready, removing, enabling the scheduler,
    scheduling, task creation, suspending, waking up, force deletion, the
    delay loop of the tick handler and the rotation of the time slice.
    Where an operation removes the task from a list, the task is taken to
    be on that list: on the ready list of its priority for
    [tTaskSchedUnRdy], [tTaskSchedRemove], a [tTaskSuspend] that takes
    effect and the [tTaskForceDelete] of a task that is neither delayed nor
    suspended, and on the delay list for the [tTaskForceDelete] of a
    delayed task. *)
Theorem ready_table_invariant_kept (s : Kernel) (task : TaskId) :
  prioBitMap_inv cfg s ->
  let t := tasks s task in
  let ready := In task (taskTable s (prio t)) in
  let delayed := Z.land (state t) (TINYOS_TASK_STATE_DELAYED cfg) in
  let suspended := Z.land (state t) (TINYOS_TASK_STATE_SUSPEND cfg) in
  prioBitMap_inv cfg (tTaskSchedRdy s task) /\
  (ready -> prioBitMap_inv cfg (tTaskSchedUnRdy s task)) /\
  (ready -> prioBitMap_inv cfg (tTaskSchedRemove s task)) /\
  prioBitMap_inv cfg (tTaskSchedEnable s) /\
  prioBitMap_inv cfg (tTaskSched s) /\
  (forall entry param prio_ stack_ stackSize_,
     prioBitMap_inv cfg (tTaskInit cfg s task entry param prio_ stack_ stackSize_)) /\
  ((delayed = 0 -> u32 (suspendCount t + 1) <= 1 -> ready) ->
     prioBitMap_inv cfg (tTaskSuspend cfg s task)) /\
  prioBitMap_inv cfg (tTaskWakeUp cfg s task) /\
  ((delayed <> 0 -> In task (tTaskDelayedList s)) ->
   (delayed = 0 -> suspended = 0 -> ready) ->
     prioBitMap_inv cfg (snd (tTaskForceDelete cfg s task))) /\
  prioBitMap_inv cfg (tickDelayed cfg s) /\
  (forall s', tickSlice cfg s = Some s' -> prioBitMap_inv cfg s').
Proof.
  intros Hinv t ready delayed suspended.
  split; [now apply tTaskSchedRdy_inv|].
  split; [intros _; now apply tTaskSchedUnRdy_inv|].
  split; [intros _; now apply tTaskSchedRemove_inv|].
  split; [now apply tTaskSchedEnable_inv|].
  split; [now apply tTaskSched_inv|].
  split; [intros; now apply tTaskInit_inv|].
  split; [intros _; now apply tTaskSuspend_inv|].
  split; [now apply tTaskWakeUp_inv|].
  split; [intros _ _; now apply tTaskForceDelete_inv|].
  split; [now apply tickDelayed_inv|].
  intros s' H. now apply (tickSlice_inv s s').
Qed.

End KeepInvariant.

Lemma ready_table_invariant_kept_witness :
  prioBitMap_inv sampleConfig
    (tTaskSuspend sampleConfig (withTask1 sampleConfig) task1) /\
  prioBitMap_inv sampleConfig
    (snd (tTaskForceDelete sampleConfig (task1Delayed sampleConfig) task1)) /\
  prioBitMap_inv sampleConfig (tickDelayed sampleConfig (task1Sleeping sampleConfig 1)).
Proof.
  assert (Hc : TINYOS_PRIO_COUNT sampleConfig <= 32) by (vm_compute; discriminate).
  assert (H1 : prioBitMap_inv sampleConfig (withTask1 sampleConfig)).
  { unfold withTask1. apply tTaskInit_inv; [exact Hc|]. apply booted_inv. exact Hc. }
  assert (H2 : forall n, prioBitMap_inv sampleConfig (task1Sleeping sampleConfig n)).
  { intro n. unfold task1Sleeping. apply tTaskSchedUnRdy_inv; [exact Hc|].
    apply tTimeTaskWait_inv, H1. }
  pose proof (ready_table_invariant_kept sampleConfig Hc _ task1 H1) as K1.
  pose proof (ready_table_invariant_kept sampleConfig Hc _ task1 (H2 5)) as K2.
  pose proof (ready_table_invariant_kept sampleConfig Hc _ task1 (H2 1)) as K3.
  cbv zeta in K1, K2, K3.
  destruct K1 as (_ & _ & _ & _ & _ & _ & Ksus & _).
  destruct K2 as (_ & _ & _ & _ & _ & _ & _ & _ & Kdel & _).
  destruct K3 as (_ & _ & _ & _ & _ & _ & _ & _ & _ & Ktick & _).
  split; [|split; [|exact Ktick]].
  - apply Ksus. intros _ _. vm_compute. left. reflexivity.
  - apply Kdel.
    + intros _. vm_compute. left. reflexivity.
    + intro Hd. vm_compute in Hd. discriminate.
Defined.

(** ** Deleting a task *)

Section DeleteTask.

Variable cfg : tConfig.

(** The cleanup call of [tTaskForceDelete] is read from the task as it was
    on entry: the removal from the lists does not write the task object. *)
Lemma tTaskForceDelete_called (s : Kernel) (task : TaskId) :
  fst (tTaskForceDelete cfg s task)
  = match clean (tasks s task) with
    | Some f => [(f, cleanParam (tasks s task))]
    | None => []
    end.
Proof.
  unfold tTaskForceDelete. cbn [tTaskEnterCritical fst].
  change (tasks (set_primask 1 s) task) with (tasks s task).
  destruct (negb (Z.land (state (tasks s task)) (TINYOS_TASK_STATE_DELAYED cfg) =? 0));
    [reflexivity|].
  destruct (Z.land (state (tasks s task)) (TINYOS_TASK_STATE_SUSPEND cfg) =? 0);
    [|reflexivity].
  unfold tTaskSchedRemove, cleanCall.
  destruct (tListCount _ =? 0); reflexivity.
Qed.

(** X7.  [tTaskForceDelete] of a task that is on the list it is removed
    from (the delay list for a delayed task, the ready list of its priority
    for a task that is neither delayed nor suspended) calls the cleanup
    function of the task, if it has one, once and with its parameter.  A
    delayed task is taken off the delay list and the ready lists stay as
    they are; a task that is neither delayed nor suspended is taken off the
    ready list of its priority; a suspended task is on neither and nothing
    is removed.  The task objects and the wait lists of the events are not
    touched: a delayed task that waits for an event stays on the event's
    list. *)
Theorem tTaskForceDelete_spec (s : Kernel) (task : TaskId) :
  let called := fst (tTaskForceDelete cfg s task) in
  let s' := snd (tTaskForceDelete cfg s task) in
  let st := state (tasks s task) in
  let p := prio (tasks s task) in
  (Z.land st (TINYOS_TASK_STATE_DELAYED cfg) <> 0 ->
     In task (tTaskDelayedList s)) ->
  (Z.land st (TINYOS_TASK_STATE_DELAYED cfg) = 0 ->
   Z.land st (TINYOS_TASK_STATE_SUSPEND cfg) = 0 ->
     In task (taskTable s p)) ->
  called = match clean (tasks s task) with
           | Some f => [(f, cleanParam (tasks s task))]
           | None => []
           end /\
  tasks s' = tasks s /\
  events s' = events s /\
  (Z.land st (TINYOS_TASK_STATE_DELAYED cfg) <> 0 ->
     ~ In task (tTaskDelayedList s') /\ taskTable s' = taskTable s) /\
  (Z.land st (TINYOS_TASK_STATE_DELAYED cfg) = 0 ->
   Z.land st (TINYOS_TASK_STATE_SUSPEND cfg) = 0 ->
     ~ In task (taskTable s' p) /\ tTaskDelayedList s' = tTaskDelayedList s) /\
  (Z.land st (TINYOS_TASK_STATE_DELAYED cfg) = 0 ->
   Z.land st (TINYOS_TASK_STATE_SUSPEND cfg) <> 0 ->
     taskTable s' = taskTable s /\ tTaskDelayedList s' = tTaskDelayedList s).
Proof.
  intros called s' st p _ _. subst called s'.
  unfold tTaskForceDelete. cbn [tTaskEnterCritical fst snd].
  change (tasks (set_primask 1 s) task) with (tasks s task). fold st.
  set (s2 := if negb (Z.land st (TINYOS_TASK_STATE_DELAYED cfg) =? 0)
             then tTimeTaskRemove (set_primask 1 s) task
             else if Z.land st (TINYOS_TASK_STATE_SUSPEND cfg) =? 0
                  then tTaskSchedRemove (set_primask 1 s) task
                  else set_primask 1 s).
  assert (Hrem : forall l x, ~ In x (tListRemove l x)).
  { intros l x. unfold tListRemove. rewrite filter_In, Z.eqb_refl.
    intros [_ H]. discriminate. }
  assert (H2 : tasks s2 = tasks s /\ events s2 = events s /\
               (Z.land st (TINYOS_TASK_STATE_DELAYED cfg) <> 0 ->
                  ~ In task (tTaskDelayedList s2) /\ taskTable s2 = taskTable s) /\
               (Z.land st (TINYOS_TASK_STATE_DELAYED cfg) = 0 ->
                Z.land st (TINYOS_TASK_STATE_SUSPEND cfg) = 0 ->
                  ~ In task (taskTable s2 p) /\
                  tTaskDelayedList s2 = tTaskDelayedList s) /\
               (Z.land st (TINYOS_TASK_STATE_DELAYED cfg) = 0 ->
                Z.land st (TINYOS_TASK_STATE_SUSPEND cfg) <> 0 ->
                  taskTable s2 = taskTable s /\
                  tTaskDelayedList s2 = tTaskDelayedList s)).
  { subst s2.
    destruct (Z.eqb_spec (Z.land st (TINYOS_TASK_STATE_DELAYED cfg)) 0) as [Hd|Hd];
      cbn [negb].
    - destruct (Z.eqb_spec (Z.land st (TINYOS_TASK_STATE_SUSPEND cfg)) 0) as [Hs|Hs].
      + unfold tTaskSchedRemove.
        change (prio (tasks (set_primask 1 s) task)) with p.
        destruct (tListCount _ =? 0);
          (split; [reflexivity|]; split; [reflexivity|];
           split; [intro H; now elim H|];
           split; [|intros _ H; now elim H];
           intros _ _; split; [|reflexivity];
           cbn [taskTable set_taskTable set_taskPrioBitMap set_primask];
           rewrite upd_same; apply Hrem).
      + split; [reflexivity|]. split; [reflexivity|].
        split; [intro H; now elim H|].
        split; [intros _ H; now elim Hs|].
        intros _ _. split; reflexivity.
    - split; [reflexivity|]. split; [reflexivity|].
      split; [intros _; split; [apply Hrem | reflexivity]|].
      split; [intro H; now elim Hd | intro H; now elim Hd]. }
  destruct H2 as (A1 & A2 & A3 & A4 & A5).
  assert (Hcall : cleanCall s2 task
                  = match clean (tasks s task) with
                    | Some f => [(f, cleanParam (tasks s task))]
                    | None => []
                    end).
  { unfold cleanCall. rewrite A1. reflexivity. }
  split; [exact Hcall|].
  clearbody s2.
  destruct (ptr_eqb (curTask s2) (Some task)).
  - destruct (tTaskSched_frame (tTaskExitCritical (primask s) s2))
      as (T1 & T2 & _ & _ & T5 & _ & T7 & _ & _).
    cbn [tTaskExitCritical tasks events taskTable tTaskDelayedList set_primask].
    rewrite T1, T2, T5, T7.
    cbn [tTaskExitCritical tasks events taskTable tTaskDelayedList set_primask].
    repeat split; try assumption; try tauto.
  - cbn [tTaskExitCritical tasks events taskTable tTaskDelayedList set_primask].
    repeat split; try assumption; try tauto.
Qed.

(** X8.  The cleanup function registered with [tTaskSetCleanCallFunc] is
    what [tTaskForceDelete] calls; a task fresh from [tTaskInit] has none
    and its deletion calls nothing. *)
Theorem tTaskSetCleanCallFunc_tTaskForceDelete (s : Kernel) (task : TaskId)
    (f param : Z) :
  fst (tTaskForceDelete cfg (tTaskSetCleanCallFunc s task (Some f) param) task)
    = [(f, param)] /\
  (forall entry arg prio_ stack_ stackSize_,
     fst (tTaskForceDelete cfg
            (tTaskInit cfg s task entry arg prio_ stack_ stackSize_) task) = []).
Proof.
  split.
  - rewrite tTaskForceDelete_called.
    unfold tTaskSetCleanCallFunc. rewrite !tasks_task_upd_same. reflexivity.
  - intros entry arg prio_ stack_ stackSize_.
    rewrite tTaskForceDelete_called.
    destruct (tTaskInit_effect cfg s task entry arg prio_ stack_ stackSize_) as [Ht _].
    rewrite Ht. reflexivity.
Qed.

(** X9.  [tTaskDeleteSelf] has no result without a current task; otherwise
    it calls the cleanup function of the current task, if any, and leaves
    the current task off the ready list of its priority, the task objects
    unchanged. *)
Theorem tTaskDeleteSelf_spec (s : Kernel) :
  (curTask s = None -> tTaskDeleteSelf s = None) /\
  (forall c, curTask s = Some c ->
     exists s',
       tTaskDeleteSelf s
       = Some (match clean (tasks s c) with
               | Some f => [(f, cleanParam (tasks s c))]
               | None => []
               end, s') /\
       ~ In c (taskTable s' (prio (tasks s c))) /\
       tasks s' = tasks s /\
       curTask s' = Some c /\
       tTaskDelayedList s' = tTaskDelayedList s).
Proof.
  split.
  - intro H. unfold tTaskDeleteSelf. now rewrite H.
  - intros c Hc. unfold tTaskDeleteSelf. rewrite Hc. cbn [tTaskEnterCritical].
    set (s2 := tTaskSchedRemove (set_primask 1 s) c).
    assert (H2 : tasks s2 = tasks s /\ curTask s2 = Some c /\
                 tTaskDelayedList s2 = tTaskDelayedList s /\
                 ~ In c (taskTable s2 (prio (tasks s c)))).
    { subst s2. unfold tTaskSchedRemove.
      change (prio (tasks (set_primask 1 s) c)) with (prio (tasks s c)).
      destruct (tListCount _ =? 0);
        (split; [reflexivity|]; split; [exact Hc|]; split; [reflexivity|];
         cbn [taskTable set_taskTable set_taskPrioBitMap set_primask];
         rewrite upd_same; unfold tListRemove;
         rewrite filter_In, Z.eqb_refl; intros [_ H]; discriminate). }
    destruct H2 as (A1 & A2 & A3 & A4).
    assert (Hcall : cleanCall s2 c
                    = match clean (tasks s c) with
                      | Some f => [(f, cleanParam (tasks s c))]
                      | None => []
                      end).
    { unfold cleanCall. rewrite A1. reflexivity. }
    rewrite Hcall. clearbody s2.
    eexists. split; [reflexivity|].
    destruct (tTaskSched_frame (tTaskExitCritical (primask s) s2))
      as (T1 & _ & T3 & _ & T5 & _ & T7 & _ & _).
    rewrite T1, T3, T5, T7.
    cbn [tTaskExitCritical tasks curTask taskTable tTaskDelayedList set_primask].
    repeat split; assumption.
Qed.

(** X10.  A delete request is seen by the task it is addressed to: after
    [tTaskRequestDelete(task)], [tTaskIsRequestedDeleted] answers 1 when
    [task] is the current task, and the unchanged flag of the current task
    when it is another one; the query changes nothing. *)
Theorem tTaskRequestDelete_seen (s : Kernel) (task c : TaskId) :
  curTask s = Some c ->
  tTaskIsRequestedDeleted (tTaskRequestDelete s task)
  = Some (if c =? task then 1 else requestDeleteFlag (tasks s c) mod 256,
          tTaskRequestDelete s task).
Proof.
  intro Hc. unfold tTaskIsRequestedDeleted.
  assert (Hc' : curTask (tTaskRequestDelete s task) = Some c) by exact Hc.
  rewrite Hc'. cbn [tTaskEnterCritical].
  pose proof (exit_enter_critical (tTaskRequestDelete s task)) as He.
  cbn [tTaskEnterCritical fst snd] in He. rewrite He.
  f_equal. f_equal.
  change (tasks (set_primask 1 (tTaskRequestDelete s task)) c)
    with (upd (tasks s) task (set_requestDeleteFlag 1 (tasks s task)) c).
  unfold upd. destruct (c =? task); reflexivity.
Qed.

End DeleteTask.

Lemma tTaskForceDelete_spec_witness :
  ~ In task1 (taskTable (snd (tTaskForceDelete sampleConfig (withTask1 sampleConfig)
                                task1)) 1) /\
  ~ In task1 (tTaskDelayedList
                (snd (tTaskForceDelete sampleConfig (task1Delayed sampleConfig) task1))).
Proof.
  split.
  - assert (Hd : Z.land (state (tasks (withTask1 sampleConfig) task1))
                   (TINYOS_TASK_STATE_DELAYED sampleConfig) <> 0 ->
                 In task1 (tTaskDelayedList (withTask1 sampleConfig)))
      by (intro H; vm_compute in H; now elim H).
    assert (Hr : Z.land (state (tasks (withTask1 sampleConfig) task1))
                   (TINYOS_TASK_STATE_DELAYED sampleConfig) = 0 ->
                 Z.land (state (tasks (withTask1 sampleConfig) task1))
                   (TINYOS_TASK_STATE_SUSPEND sampleConfig) = 0 ->
                 In task1 (taskTable (withTask1 sampleConfig)
                             (prio (tasks (withTask1 sampleConfig) task1))))
      by (intros _ _; vm_compute; left; reflexivity).
    destruct (tTaskForceDelete_spec sampleConfig (withTask1 sampleConfig) task1 Hd Hr)
      as (_ & _ & _ & _ & H & _).
    replace 1 with (prio (tasks (withTask1 sampleConfig) task1)) at 2
      by (vm_compute; reflexivity).
    apply H; vm_compute; reflexivity.
  - assert (Hd : Z.land (state (tasks (task1Delayed sampleConfig) task1))
                   (TINYOS_TASK_STATE_DELAYED sampleConfig) <> 0 ->
                 In task1 (tTaskDelayedList (task1Delayed sampleConfig)))
      by (intros _; vm_compute; left; reflexivity).
    assert (Hr : Z.land (state (tasks (task1Delayed sampleConfig) task1))
                   (TINYOS_TASK_STATE_DELAYED sampleConfig) = 0 ->
                 Z.land (state (tasks (task1Delayed sampleConfig) task1))
                   (TINYOS_TASK_STATE_SUSPEND sampleConfig) = 0 ->
                 In task1 (taskTable (task1Delayed sampleConfig)
                             (prio (tasks (task1Delayed sampleConfig) task1))))
      by (intros H _; vm_compute in H; discriminate).
    destruct (tTaskForceDelete_spec sampleConfig (task1Delayed sampleConfig) task1 Hd Hr)
      as (_ & _ & _ & H & _).
    apply H. vm_compute. discriminate.
Defined.

Lemma tTaskDeleteSelf_spec_witness :
  exists s',
    tTaskDeleteSelf (booted sampleConfig) = Some ([], s') /\
    ~ In TtaskIdle (taskTable s' 31).
Proof.
  assert (Hc : curTask (booted sampleConfig) = Some TtaskIdle)
    by (vm_compute; reflexivity).
  destruct (proj2 (tTaskDeleteSelf_spec (booted sampleConfig))
              TtaskIdle Hc) as (s' & Hrun & Hnot & _).
  exists s'. split.
  - rewrite Hrun.
    replace (clean (tasks (booted sampleConfig) TtaskIdle)) with (@None Z)
      by (vm_compute; reflexivity).
    reflexivity.
  - replace 31 with (prio (tasks (booted sampleConfig) TtaskIdle))
      by (vm_compute; reflexivity).
    exact Hnot.
Defined.

Lemma tTaskRequestDelete_seen_witness :
  tTaskIsRequestedDeleted (tTaskRequestDelete (booted sampleConfig) TtaskIdle)
  = Some (1, tTaskRequestDelete (booted sampleConfig) TtaskIdle).
Proof.
  assert (Hc : curTask (booted sampleConfig) = Some TtaskIdle)
    by (vm_compute; reflexivity).
  rewrite (tTaskRequestDelete_seen (booted sampleConfig) TtaskIdle TtaskIdle Hc).
  rewrite Z.eqb_refl. reflexivity.
Defined.

(** ** Sleeping *)

Section Sleeping.

Variable cfg : tConfig.

Lemma tListRemove_absent (l : tList) (x : tNode) :
  ~ In x l -> tListRemove l x = l.
Proof.
  induction l as [|y l IH]; intro Hn; simpl; [reflexivity|].
  destruct (Z.eqb_spec y x) as [->|Hne]; simpl.
  - elim Hn. now left.
  - rewrite IH; [reflexivity|]. intro H. apply Hn. now right.
Qed.

Lemma tListRemove_AddLast (l : tList) (x : tNode) :
  ~ In x l -> tListRemove (tListAddLast l x) x = l.
Proof.
  intro Hn. unfold tListRemove, tListAddLast.
  rewrite filter_app. simpl. rewrite Z.eqb_refl. simpl.
  rewrite app_nil_r. now apply tListRemove_absent.
Qed.

(** X11.  [tTimeTaskWait] appends the task to the delay list with the given
    count and sets the DELAYED bit; [tTimeTaskWakeUp] undoes it: for a task
    that was not on the delay list, the list afterwards is the list before
    and the DELAYED bit is clear. *)
Theorem tTimeTaskWakeUp_tTimeTaskWait (s : Kernel) (task : TaskId) (ticks : Z) :
  ~ In task (tTaskDelayedList s) ->
  let s1 := tTimeTaskWait cfg s task ticks in
  let s2 := tTimeTaskWakeUp cfg s1 task in
  tTaskDelayedList s1 = tTaskDelayedList s ++ [task] /\
  delayTicks (tasks s1 task) = ticks /\
  Z.land (state (tasks s1 task)) (TINYOS_TASK_STATE_DELAYED cfg)
    = TINYOS_TASK_STATE_DELAYED cfg /\
  tTaskDelayedList s2 = tTaskDelayedList s /\
  Z.land (state (tasks s2 task)) (TINYOS_TASK_STATE_DELAYED cfg) = 0 /\
  (forall p, taskTable s2 p = taskTable s p).
Proof.
  intros Hn s1 s2.
  assert (H1 : tTaskDelayedList s1 = tTaskDelayedList s ++ [task]) by reflexivity.
  assert (H1t : tasks s1 task
                = set_state (Z.lor (state (tasks s task)) (TINYOS_TASK_STATE_DELAYED cfg))
                    (set_delayTicks ticks (tasks s task))).
  { subst s1. unfold tTimeTaskWait. rewrite tasks_task_upd_same.
    cbn [tasks set_tTaskDelayedList]. rewrite tasks_task_upd_same. reflexivity. }
  split; [exact H1|].
  split; [rewrite H1t; reflexivity|].
  split.
  { rewrite H1t. cbn [state set_state].
    rewrite Z.land_lor_distr_l, Z.land_diag.
    apply Z.bits_inj'. intros i _.
    rewrite Z.lor_spec, Z.land_spec.
    destruct (Z.testbit (state (tasks s task)) i),
             (Z.testbit (TINYOS_TASK_STATE_DELAYED cfg) i); reflexivity. }
  assert (H1p : taskTable s1 = taskTable s) by reflexivity.
  clearbody s1. subst s2. unfold tTimeTaskWakeUp.
  cbn [tTaskDelayedList taskTable task_upd set_tasks set_tTaskDelayedList].
  rewrite tasks_task_upd_same. cbn [state set_state tasks set_tTaskDelayedList].
  split; [rewrite H1; now apply tListRemove_AddLast|].
  split; [apply land_clear_mask|].
  intro p. now rewrite H1p.
Qed.

(** One tick for a task that sleeps for at least two more ticks. *)
Lemma tickDelayed_sleeping (s : Kernel) (task : TaskId) (d : Z) :
  NoDup (tTaskDelayedList s) ->
  In task (tTaskDelayedList s) ->
  delayTicks (tasks s task) = d ->
  2 <= d < 2 ^ 32 ->
  let s' := tickDelayed cfg s in
  NoDup (tTaskDelayedList s') /\
  In task (tTaskDelayedList s') /\
  tasks s' task = set_delayTicks (d - 1) (tasks s task).
Proof.
  intros Hnd Hin Hd Hr s'.
  destruct (tickDelayed_fold cfg (tTaskDelayedList s) s Hnd)
    as (_ & _ & _ & Hdl & Hb).
  change (fold_left (tickDelayedTask cfg) (tTaskDelayedList s) s) with s' in Hdl, Hb.
  destruct (Hb task Hin) as (_ & Hsleep & _).
  assert (Hu : u32 (delayTicks (tasks s task) - 1) = d - 1).
  { rewrite Hd. unfold u32. apply Z.mod_small. lia. }
  assert (Hw : wakes (tasks s task) = false).
  { unfold wakes. rewrite Hu. apply Z.eqb_neq. lia. }
  split; [rewrite Hdl; now apply NoDup_filter|].
  split.
  - rewrite Hdl. apply filter_In. split; [exact Hin|].
    rewrite Hw. now rewrite andb_false_r.
  - rewrite (Hsleep Hw), Hu. reflexivity.
Qed.

Lemma tickDelayed_countdown (s : Kernel) (task : TaskId) (n : nat) :
  NoDup (tTaskDelayedList s) ->
  In task (tTaskDelayedList s) ->
  delayTicks (tasks s task) = Z.of_nat n ->
  Z.of_nat n < 2 ^ 32 ->
  forall k, (k < n)%nat ->
    let sk := Nat.iter k (tickDelayed cfg) s in
    NoDup (tTaskDelayedList sk) /\
    In task (tTaskDelayedList sk) /\
    tasks sk task = set_delayTicks (Z.of_nat n - Z.of_nat k) (tasks s task).
Proof.
  intros Hnd Hin Hd Hlt.
  induction k as [|k IH]; intro Hk; cbv zeta.
  - cbn [Nat.iter nat_rect].
    split; [exact Hnd|]. split; [exact Hin|].
    replace (Z.of_nat n - Z.of_nat 0) with (delayTicks (tasks s task))
      by (rewrite Hd; simpl; lia).
    destruct (tasks s task); reflexivity.
  - assert (Hk' : (k < n)%nat) by lia.
    destruct (IH Hk') as (Knd & Kin & Kt).
    change (Nat.iter (S k) (tickDelayed cfg) s)
      with (tickDelayed cfg (Nat.iter k (tickDelayed cfg) s)).
    set (sk := Nat.iter k (tickDelayed cfg) s) in *.
    assert (Kd : delayTicks (tasks sk task) = Z.of_nat n - Z.of_nat k)
      by (rewrite Kt; reflexivity).
    destruct (tickDelayed_sleeping sk task _ Knd Kin Kd) as (Snd & Sin & St); [lia|].
    split; [exact Snd|]. split; [exact Sin|].
    rewrite St, Kt.
    replace (Z.of_nat n - Z.of_nat (S k)) with (Z.of_nat n - Z.of_nat k - 1) by lia.
    reflexivity.
Qed.

(** X12.  A task on the delay list with count [n] ([1 <= n < 2^32]) is
    still asleep after each of the first [n - 1] ticks, its count going down
    by one per tick, and the [n]-th tick takes it off the delay list, clears
    the DELAYED bit and puts it on the ready list of its priority. *)
Theorem tickDelayed_wakes_after (s : Kernel) (task : TaskId) (n : nat) :
  NoDup (tTaskDelayedList s) ->
  In task (tTaskDelayedList s) ->
  delayTicks (tasks s task) = Z.of_nat n ->
  (1 <= n)%nat -> Z.of_nat n < 2 ^ 32 ->
  (forall k, (k < n)%nat ->
     let sk := Nat.iter k (tickDelayed cfg) s in
     In task (tTaskDelayedList sk) /\
     delayTicks (tasks sk task) = Z.of_nat n - Z.of_nat k) /\
  (let sn := Nat.iter n (tickDelayed cfg) s in
   ~ In task (tTaskDelayedList sn) /\
   delayTicks (tasks sn task) = 0 /\
   Z.land (state (tasks sn task)) (TINYOS_TASK_STATE_DELAYED cfg) = 0 /\
   In task (taskTable sn (prio (tasks s task)))).
Proof.
  intros Hnd Hin Hd Hn Hlt.
  split.
  - intros k Hk.
    destruct (tickDelayed_countdown s task n Hnd Hin Hd Hlt k Hk) as (_ & Kin & Kt).
    split; [exact Kin|]. cbv zeta. rewrite Kt. reflexivity.
  - destruct n as [|n]; [lia|]. cbv zeta.
    destruct (tickDelayed_countdown s task (S n) Hnd Hin Hd Hlt n) as (Knd & Kin & Kt);
      [lia|].
    change (Nat.iter (S n) (tickDelayed cfg) s)
      with (tickDelayed cfg (Nat.iter n (tickDelayed cfg) s)).
    set (sk := Nat.iter n (tickDelayed cfg) s) in *.
    destruct (tickDelayed_fold cfg (tTaskDelayedList sk) sk Knd)
      as (_ & _ & _ & Hdl & Hb).
    change (fold_left (tickDelayedTask cfg) (tTaskDelayedList sk) sk)
      with (tickDelayed cfg sk) in Hdl, Hb.
    destruct (Hb task Kin) as (Hdt & _ & Hwake).
    assert (Hu : u32 (delayTicks (tasks sk task) - 1) = 0).
    { rewrite Kt. cbn [delayTicks set_delayTicks].
      replace (Z.of_nat (S n) - Z.of_nat n - 1) with 0 by lia. reflexivity. }
    assert (Hw : wakes (tasks sk task) = true)
      by (unfold wakes; rewrite Hu; reflexivity).
    destruct (Hwake Hw) as (W1 & W2 & _).
    split.
    { rewrite Hdl, filter_In. rewrite Hw.
      apply existsb_eqb_In in Kin. rewrite Kin. intros [_ H]. discriminate. }
    split; [rewrite Hdt; exact Hu|].
    split; [exact W1|].
    rewrite Kt in W2. exact W2.
Qed.

(** X13.  A count of 0 is no "no delay": a task put on the delay list with
    [tTimeTaskWait(task, 0)] is still on the list after the next tick, with
    count [2^32 - 1]. *)
Theorem tTimeTaskWait_zero_ticks (s : Kernel) (task : TaskId) :
  NoDup (tTaskDelayedList s) ->
  ~ In task (tTaskDelayedList s) ->
  let s' := tickDelayed cfg (tTimeTaskWait cfg s task 0) in
  In task (tTaskDelayedList s') /\
  delayTicks (tasks s' task) = 4294967295.
Proof.
  intros Hnd Hn s'.
  set (s1 := tTimeTaskWait cfg s task 0) in *.
  assert (H1 : tTaskDelayedList s1 = tTaskDelayedList s ++ [task]) by reflexivity.
  assert (H1d : delayTicks (tasks s1 task) = 0).
  { subst s1. unfold tTimeTaskWait. rewrite tasks_task_upd_same.
    cbn [tasks set_tTaskDelayedList]. rewrite tasks_task_upd_same. reflexivity. }
  clearbody s1.
  assert (Hnd1 : NoDup (tTaskDelayedList s1)).
  { rewrite H1. apply NoDup_app; [exact Hnd | repeat constructor; intros [] |].
    intros x Hx [<-|[]]. contradiction. }
  assert (Hin1 : In task (tTaskDelayedList s1)).
  { rewrite H1. apply in_or_app. right. now left. }
  destruct (tickDelayed_fold cfg (tTaskDelayedList s1) s1 Hnd1)
    as (_ & _ & _ & Hdl & Hb).
  change (fold_left (tickDelayedTask cfg) (tTaskDelayedList s1) s1) with s' in Hdl, Hb.
  destruct (Hb task Hin1) as (Hdt & _ & _).
  rewrite H1d in Hdt.
  split; [|rewrite Hdt; reflexivity].
  rewrite Hdl. apply filter_In. split; [exact Hin1|].
  unfold wakes. rewrite H1d. change (u32 (0 - 1) =? 0) with false.
  now rewrite andb_false_r.
Qed.

End Sleeping.

Lemma tTimeTaskWakeUp_tTimeTaskWait_witness :
  tTaskDelayedList
    (tTimeTaskWakeUp sampleConfig
       (tTimeTaskWait sampleConfig (withTask1 sampleConfig) task1 5) task1)
  = tTaskDelayedList (withTask1 sampleConfig).
Proof.
  assert (Hn : ~ In task1 (tTaskDelayedList (withTask1 sampleConfig)))
    by (vm_compute; intros []).
  destruct (tTimeTaskWakeUp_tTimeTaskWait sampleConfig (withTask1 sampleConfig)
              task1 5 Hn) as (_ & _ & _ & H & _).
  exact H.
Defined.

Lemma tickDelayed_wakes_after_witness :
  In task1 (taskTable (Nat.iter 5 (tickDelayed sampleConfig) (task1Delayed sampleConfig)) 1).
Proof.
  assert (Hnd : NoDup (tTaskDelayedList (task1Delayed sampleConfig))).
  { vm_compute. repeat constructor. intros []. }
  assert (Hin : In task1 (tTaskDelayedList (task1Delayed sampleConfig)))
    by (vm_compute; now left).
  assert (Hd : delayTicks (tasks (task1Delayed sampleConfig) task1) = Z.of_nat 5)
    by (vm_compute; reflexivity).
  assert (Hn : (1 <= 5)%nat) by lia.
  assert (Hlt : Z.of_nat 5 < 2 ^ 32) by (vm_compute; reflexivity).
  destruct (tickDelayed_wakes_after sampleConfig (task1Delayed sampleConfig) task1 5
              Hnd Hin Hd Hn Hlt) as (_ & _ & _ & _ & H).
  replace 1 with (prio (tasks (task1Delayed sampleConfig) task1)) at 1
    by (vm_compute; reflexivity).
  exact H.
Defined.

Lemma tTimeTaskWait_zero_ticks_witness :
  delayTicks
    (tasks (tickDelayed sampleConfig
              (tTimeTaskWait sampleConfig (withTask1 sampleConfig) task1 0)) task1)
  = 4294967295.
Proof.
  assert (Hnd : NoDup (tTaskDelayedList (withTask1 sampleConfig)))
    by (vm_compute; constructor).
  assert (Hn : ~ In task1 (tTaskDelayedList (withTask1 sampleConfig)))
    by (vm_compute; intros []).
  exact (proj2 (tTimeTaskWait_zero_ticks sampleConfig (withTask1 sampleConfig) task1
                  Hnd Hn)).
Defined.

(** ** Task information *)

(** The scan counts the zero words in front of the first word that is not
    0, when that word lies inside the region. *)
Lemma stackFreeScan_count (s : Kernel) (task : TaskId) (k : nat) :
  let t := tasks s task in
  let base := stackBase t in
  base + Z.of_nat k < base + stackSize t / sizeof_tTaskStack ->
  Z.of_nat k < 2 ^ 32 ->
  (forall a, base <= a < base + Z.of_nat k -> mem s a = 0) ->
  mem s (base + Z.of_nat k) <> 0 ->
  forall (j fuel : nat),
    (j <= k)%nat -> (j < fuel)%nat ->
    stackFreeScan s task fuel (base + Z.of_nat k - Z.of_nat j)
      (Z.of_nat k - Z.of_nat j)
    = ScanDone (Z.of_nat k).
Proof.
  intros t base Hin Hk Hzero Hnz.
  induction j as [|j IH]; intros fuel Hj Hfuel;
    (destruct fuel as [|fuel]; [lia|]); cbn [stackFreeScan];
    unfold stackWord; fold t; fold base.
  - replace (base + Z.of_nat k - Z.of_nat 0) with (base + Z.of_nat k) by (simpl; lia).
    assert (H1 : (base <=? base + Z.of_nat k) = true) by (apply Z.leb_le; lia).
    assert (H2 : (base + Z.of_nat k <? base + stackSize t / sizeof_tTaskStack) = true)
      by (apply Z.ltb_lt; lia).
    rewrite H1, H2. cbn [andb].
    apply Z.eqb_neq in Hnz. rewrite Hnz. cbn [andb].
    f_equal. simpl. lia.
  - assert (H1 : (base <=? base + Z.of_nat k - Z.of_nat (S j)) = true)
      by (apply Z.leb_le; lia).
    assert (H2 : (base + Z.of_nat k - Z.of_nat (S j)
                  <? base + stackSize t / sizeof_tTaskStack) = true)
      by (apply Z.ltb_lt; lia).
    rewrite H1, H2. cbn [andb].
    rewrite Hzero by lia. rewrite Z.eqb_refl.
    assert (H3 : (base + Z.of_nat k - Z.of_nat (S j) + 1
                  <=? base + stackSize t / sizeof_tTaskStack) = true)
      by (apply Z.leb_le; lia).
    rewrite H3. cbn [andb].
    replace (base + Z.of_nat k - Z.of_nat (S j) + 1)
      with (base + Z.of_nat k - Z.of_nat j) by lia.
    replace (u32 (Z.of_nat k - Z.of_nat (S j) + 1))
      with (Z.of_nat k - Z.of_nat j)
      by (unfold u32; rewrite Z.mod_small; lia).
    apply IH; lia.
Qed.

(** The scan from the base of the stack, with the fuel of [tTaskGetInfo]. *)
Lemma stackFreeScan_from_base (s : Kernel) (task : TaskId) (k : nat) :
  let t := tasks s task in
  Z.of_nat k < stackSize t / sizeof_tTaskStack ->
  Z.of_nat k < 2 ^ 32 ->
  (forall a, stackBase t <= a < stackBase t + Z.of_nat k -> mem s a = 0) ->
  mem s (stackBase t + Z.of_nat k) <> 0 ->
  stackFreeScan s task (scanFuel s task) (stackBase t) 0 = ScanDone (Z.of_nat k).
Proof.
  intros t Hin Hk Hzero Hnz.
  pose proof (stackFreeScan_count s task k) as Hc. cbv zeta in Hc. fold t in Hc.
  specialize (Hc ltac:(lia) Hk Hzero Hnz k (scanFuel s task) (Nat.le_refl k)).
  replace (stackBase t + Z.of_nat k - Z.of_nat k) with (stackBase t) in Hc by lia.
  replace (Z.of_nat k - Z.of_nat k) with 0 in Hc by lia.
  apply Hc. unfold scanFuel. fold t. lia.
Qed.

(** X14.  When the stack region of a task starts with [k] zero words
    followed, inside the region, by a word that is not 0, [tTaskGetInfo]
    reports [4 k] free bytes, copies [delayTicks], [prio], [slice], [state],
    [suspendCount] and [stackSize] from the task, and leaves the kernel as
    it was. *)
Theorem tTaskGetInfo_spec (s : Kernel) (task : TaskId) (k : nat) :
  let t := tasks s task in
  Z.of_nat k < stackSize t / sizeof_tTaskStack ->
  Z.of_nat k < 2 ^ 32 ->
  (forall a, stackBase t <= a < stackBase t + Z.of_nat k -> mem s a = 0) ->
  mem s (stackBase t + Z.of_nat k) <> 0 ->
  tTaskGetInfo s task
  = Some (mkTaskInfo (delayTicks t) (prio t) (slice t) (state t) (suspendCount t)
            (stackSize t) (u32 (Z.of_nat k * sizeof_tTaskStack)),
          s).
Proof.
  intros t Hin Hk Hzero Hnz.
  unfold tTaskGetInfo. cbn [tTaskEnterCritical].
  change (tasks (set_primask 1 s) task) with t.
  change (scanFuel (set_primask 1 s) task) with (scanFuel s task).
  rewrite (stackFreeScan_ext (set_primask 1 s) s task eq_refl eq_refl).
  pose proof (stackFreeScan_from_base s task k Hin Hk Hzero Hnz) as Hscan.
  fold t in Hscan. rewrite Hscan.
  pose proof (exit_enter_critical s) as He.
  cbn [tTaskEnterCritical fst snd] in He. rewrite He. reflexivity.
Qed.

(** [tTaskGetInfo] from the result of its scan. *)
Lemma tTaskGetInfo_of_scan (s : Kernel) (task : TaskId) (free : Z) :
  let t := tasks s task in
  stackFreeScan s task (scanFuel s task) (stackBase t) 0 = ScanDone free ->
  tTaskGetInfo s task
  = Some (mkTaskInfo (delayTicks t) (prio t) (slice t) (state t) (suspendCount t)
            (stackSize t) (u32 (free * sizeof_tTaskStack)),
          s).
Proof.
  intros t Hscan.
  unfold tTaskGetInfo. cbn [tTaskEnterCritical].
  change (tasks (set_primask 1 s) task) with t.
  change (scanFuel (set_primask 1 s) task) with (scanFuel s task).
  rewrite (stackFreeScan_ext (set_primask 1 s) s task eq_refl eq_refl).
  rewrite Hscan.
  pose proof (exit_enter_critical s) as He.
  cbn [tTaskEnterCritical fst snd] in He. rewrite He. reflexivity.
Qed.

Lemma pushWords_last (vs : list Z) :
  forall (m : Z -> Z) (top v : Z),
    fst (pushWords m top (vs ++ [v])) (top - Z.of_nat (length vs) - 1) = v.
Proof.
  induction vs as [|x vs IH]; intros m top v.
  - cbn [app pushWords fst length].
    replace (top - Z.of_nat 0 - 1) with (top - 1) by (simpl; lia).
    apply upd_same.
  - cbn [app pushWords length].
    replace (top - Z.of_nat (S (length vs)) - 1)
      with (top - 1 - Z.of_nat (length vs) - 1) by lia.
    apply IH.
Qed.

(** X15.  For a task fresh from [tTaskInit] with a stack of at least 64 bytes
    [tTaskGetInfo] reports every byte below the initial frame as free,
    [4 (stackSize / 4) - 64] bytes, the stack size given, state READY and
    no delay or suspension, and leaves the kernel as it was. *)
Theorem tTaskGetInfo_tTaskInit (cfg : tConfig) (s : Kernel) (task : TaskId)
    (entry param prio_ stack_ stackSize_ : Z) :
  64 <= stackSize_ < 2 ^ 32 ->
  let s' := tTaskInit cfg s task entry param prio_ stack_ stackSize_ in
  tTaskGetInfo s' task
  = Some (mkTaskInfo 0 prio_ (TINYOS_SLICE_MAX cfg) TINYOS_TASK_STATE_RDY 0
            stackSize_ (4 * (stackSize_ / 4) - 64),
          s').
Proof.
  intros Hsize s'.
  destruct (tTaskInit_effect cfg s task entry param prio_ stack_ stackSize_)
    as [Ht Hm].
  fold s' in Ht, Hm. cbv zeta in Ht, Hm.
  set (n := stackSize_ / sizeof_tTaskStack) in *.
  assert (Hn : 16 <= n < 2 ^ 30).
  { subst n. unfold sizeof_tTaskStack. split.
    - apply Z.div_le_lower_bound; lia.
    - apply Z.div_lt_upper_bound; lia. }
  assert (Hzero : forall a, stack_ <= a < stack_ + (n - 16) -> mem s' a = 0).
  { intros a Ha. rewrite Hm.
    rewrite pushWords_below by (cbn [initialFrame length Z.of_nat]; simpl; lia).
    apply memset_zero_words. fold sizeof_tTaskStack. fold n. lia. }
  assert (Hr4 : mem s' (stack_ + (n - 16)) = 4).
  { rewrite Hm.
    change (initialFrame entry param)
      with ([Z.shiftl 1 24; entry; 0x14; 0x12; 0x3; 0x2; 0x1; param;
             0x11; 0x10; 0x9; 0x8; 0x7; 0x6; 0x5] ++ [0x4]).
    replace (stack_ + (n - 16))
      with (stack_ + n
            - Z.of_nat (length [Z.shiftl 1 24; entry; 0x14; 0x12; 0x3; 0x2; 0x1;
                                param; 0x11; 0x10; 0x9; 0x8; 0x7; 0x6; 0x5]) - 1)
      by (simpl; lia).
    apply pushWords_last. }
  assert (Hb : stackBase (tasks s' task) = stack_) by (rewrite Ht; reflexivity).
  assert (Hs : stackSize (tasks s' task) = stackSize_) by (rewrite Ht; reflexivity).
  pose proof (stackFreeScan_from_base s' task (Z.to_nat (n - 16))) as Hscan.
  cbv zeta in Hscan. rewrite Hb, Hs in Hscan. fold n in Hscan.
  rewrite Z2Nat.id in Hscan by lia.
  assert (Hnz : mem s' (stack_ + (n - 16)) <> 0) by (rewrite Hr4; discriminate).
  specialize (Hscan ltac:(lia) ltac:(lia) Hzero Hnz).
  rewrite <- Hb in Hscan at 1.
  rewrite (tTaskGetInfo_of_scan s' task (n - 16) Hscan).
  rewrite Ht. cbn [delayTicks prio slice state suspendCount].
  f_equal. f_equal. f_equal.
  unfold u32, sizeof_tTaskStack in *. rewrite Z.mod_small by lia.
  fold n. lia.
Qed.

Lemma tTaskGetInfo_spec_witness :
  option_map (fun r => info_stackFree (fst r))
    (tTaskGetInfo (withTask1 sampleConfig) task1) = Some 448.
Proof.
  destruct (tTaskInit_effect sampleConfig (booted sampleConfig) task1 0x201 0 1
              task1Stack 512) as [Ht Hm].
  cbv zeta in Ht, Hm. fold (withTask1 sampleConfig) in Ht, Hm.
  assert (Hb : stackBase (tasks (withTask1 sampleConfig) task1) = task1Stack)
    by (rewrite Ht; reflexivity).
  assert (Hs : stackSize (tasks (withTask1 sampleConfig) task1) = 512)
    by (rewrite Ht; reflexivity).
  pose proof (tTaskGetInfo_spec (withTask1 sampleConfig) task1 112) as H.
  cbv zeta in H. rewrite Hb, Hs in H.
  rewrite H.
  - reflexivity.
  - vm_compute. reflexivity.
  - vm_compute. reflexivity.
  - intros a Ha. rewrite Hm.
    rewrite pushWords_below
      by (cbn [initialFrame length]; unfold task1Stack in *; simpl in Ha |- *; lia).
    apply memset_zero_words. unfold task1Stack in *. simpl in Ha |- *. lia.
  - rewrite Hm. vm_compute. discriminate.
Defined.

Lemma tTaskGetInfo_tTaskInit_witness :
  option_map (fun r => info_stackFree (fst r))
    (tTaskGetInfo (withTask1 sampleConfig) task1) = Some 448.
Proof.
  assert (Hsize : 64 <= 512 < 2 ^ 32) by (vm_compute; split; [discriminate | reflexivity]).
  pose proof (tTaskGetInfo_tTaskInit sampleConfig (booted sampleConfig) task1 0x201 0 1
                task1Stack 512 Hsize) as H.
  cbv zeta in H. fold (withTask1 sampleConfig) in H.
  rewrite H. reflexivity.
Defined.

(** ** Timers: life cycle *)

Module TimerLife.
Import Timer.

(** The list a timer is linked into, by its configuration. *)
Lemma tTimerStart_effect (s : TimerModule) (timer : TimerId) :
  state (timers s timer) = tTimerCreated \/ state (timers s timer) = tTimerStopped ->
  0 < tTimerProtectSem s <= 1 ->
  let t := timers s timer in
  let hard := negb (Z.land (config t) TIMER_CONFIG_TYPE_HARD =? 0) in
  exists s',
    tTimerStart s timer = Some s' /\
    timers s' timer
      = set_state tTimerStarted
          (set_delayTicks (if negb (startDelayTicks t =? 0)
                           then startDelayTicks t else durationTicks t) t) /\
    (forall x, x <> timer -> timers s' x = timers s x) /\
    tTimerHardList s'
      = (if hard then tListAddFirst (tTimerHardList s) timer else tTimerHardList s) /\
    tTimerSoftList s'
      = (if hard then tTimerSoftList s else tListAddLast (tTimerSoftList s) timer) /\
    tTimerProtectSem s' = tTimerProtectSem s /\
    primask s' = primask s /\
    calls s' = calls s.
Proof.
  intros Hst Hsem t hard.
  assert (Hrun : tTimerStart s timer
                 = let s := timer_upd timer
                              (fun t => set_delayTicks
                                          (if negb (startDelayTicks t =? 0)
                                           then startDelayTicks t
                                           else durationTicks t) t) s in
                   let s := timer_upd timer (set_state tTimerStarted) s in
                   if negb (Z.land (config (timers s timer)) TIMER_CONFIG_TYPE_HARD =? 0)
                   then
                     let (status, s) := tTaskEnterCritical s in
                     let s := set_tTimerHardList
                                (tListAddFirst (tTimerHardList s) timer) s in
                     Some (tTaskExitCritical status s)
                   else
                     match tSemWait_protect s with
                     | None => None
                     | Some s =>
                         let s := set_tTimerSoftList
                                    (tListAddLast (tTimerSoftList s) timer) s in
                         Some (tSemNotify_protect s)
                     end).
  { unfold tTimerStart. destruct Hst as [-> | ->]; reflexivity. }
  rewrite Hrun. clear Hrun. cbv zeta.
  assert (Hc : config (timers (timer_upd timer (set_state tTimerStarted)
                 (timer_upd timer
                    (fun t => set_delayTicks
                                (if negb (startDelayTicks t =? 0)
                                 then startDelayTicks t else durationTicks t) t) s))
                 timer) = config t).
  { unfold timer_upd. simpl. rewrite !upd_same. reflexivity. }
  rewrite Hc. fold hard.
  destruct hard.
  - eexists. split; [reflexivity|].
    unfold timer_upd. simpl. rewrite !upd_same.
    split; [reflexivity|].
    split; [intros x Hx; now rewrite !upd_other by exact Hx|].
    repeat split.
  - unfold tSemWait_protect, tSemNotify_protect, timer_upd. simpl.
    assert (H1 : (0 <? tTimerProtectSem s) = true) by (apply Z.ltb_lt; lia).
    rewrite H1. simpl.
    assert (H2 : (tTimerProtectSem s - 1 <? 1) = true) by (apply Z.ltb_lt; lia).
    rewrite H2.
    eexists. split; [reflexivity|].
    simpl. rewrite !upd_same.
    split; [reflexivity|].
    split; [intros x Hx; now rewrite !upd_other by exact Hx|].
    repeat split. lia.
Qed.

(** After [tTimerStart] has returned the timer is neither CREATED nor
    STOPPED. *)
Lemma tTimerStart_state (s s' : TimerModule) (timer : TimerId) :
  tTimerStart s timer = Some s' ->
  state (timers s' timer) <> tTimerCreated /\
  state (timers s' timer) <> tTimerStopped.
Proof.
  unfold tTimerStart, tSemWait_protect, tSemNotify_protect.
  intro H.
  destruct (state (timers s timer)) eqn:E;
    try (injection H as <-; rewrite E; split; discriminate);
    (destruct (negb (Z.land (config (timers (timer_upd timer _ (timer_upd timer _ s))
                                       timer)) TIMER_CONFIG_TYPE_HARD =? 0));
     [ injection H as <-
     | destruct (0 <? tTimerProtectSem _); [|discriminate];
       cbn [set_tTimerSoftList set_tTimerProtectSem tTimerProtectSem] in H;
       destruct (_ <? 1); injection H as <- ]);
    unfold timer_upd; simpl; rewrite !upd_same; split; discriminate.
Qed.

(** X16.  Starting a timer twice is starting it once: the second
    [tTimerStart] finds the timer neither CREATED nor STOPPED and returns
    without linking it again. *)
Theorem tTimerStart_twice (s : TimerModule) (timer : TimerId) :
  andThen (tTimerStart s timer) (fun s' => tTimerStart s' timer)
  = tTimerStart s timer.
Proof.
  destruct (tTimerStart s timer) as [s'|] eqn:E; [|reflexivity].
  cbn [andThen].
  destruct (tTimerStart_state s s' timer E) as [Hc Hs].
  unfold tTimerStart.
  destruct (state (timers s' timer)); try reflexivity; congruence.
Qed.

(** ** Timers: counting down over scans *)

(** One scan, seen from a timer of the list. *)
Lemma scan_once (which : TimerList) (s : TimerModule) (t : TimerId) :
  NoDup (getList which s) -> In t (getList which s) ->
  let s' := tTimerCallFuncList which s in
  timers s' t = visited (timers s t) /\
  NoDup (getList which s') /\
  (In t (getList which s') <-> stops (timers s t) = false).
Proof.
  intros Hnd Hin s'.
  pose proof (TimerFacts.scan_fold which (getList which s) s Hnd) as H.
  cbv zeta in H.
  change (fold_left (callFuncTimer which) (getList which s) s) with s' in H.
  destruct H as (Ht & Hl & _).
  split; [|split].
  - rewrite Ht. apply existsb_eqb_In in Hin. now rewrite Hin.
  - rewrite Hl. now apply NoDup_filter.
  - rewrite Hl, filter_In.
    pose proof Hin as Hin'. apply existsb_eqb_In in Hin'. rewrite Hin'.
    cbn [andb]. destruct (stops (timers s t)); simpl; intuition congruence.
Qed.

(** The scan leaves the protect semaphore and the interrupt mask alone. *)
Lemma scan_frame (which : TimerList) (l : list TimerId) :
  forall s,
    tTimerProtectSem (fold_left (callFuncTimer which) l s) = tTimerProtectSem s /\
    primask (fold_left (callFuncTimer which) l s) = primask s.
Proof.
  induction l as [|a l IH]; intro s; [split; reflexivity|].
  cbn [fold_left]. destruct (IH (callFuncTimer which s a)) as [H1 H2].
  rewrite H1, H2.
  unfold callFuncTimer, expire.
  destruct (delayTicks (timers s a) =? 0); simpl.
  - destruct (0 <? durationTicks _); destruct which; split; reflexivity.
  - destruct (delayTicks _ =? 0); simpl; [|split; reflexivity].
    destruct (0 <? durationTicks _); destruct which; split; reflexivity.
Qed.

Lemma set_delayTicks_same (t : tTimer) : set_delayTicks (delayTicks t) t = t.
Proof. destruct t; reflexivity. Qed.

(** While the countdown is above 1 it goes down by 1 per scan. *)
Lemma countdown_running (which : TimerList) (s : TimerModule) (t : TimerId) (d : Z) :
  NoDup (getList which s) -> In t (getList which s) ->
  delayTicks (timers s t) = d -> d < 2 ^ 32 ->
  forall k : nat, Z.of_nat k < d ->
    let s' := Nat.iter k (tTimerCallFuncList which) s in
    NoDup (getList which s') /\
    In t (getList which s') /\
    timers s' t = set_delayTicks (d - Z.of_nat k) (timers s t).
Proof.
  intros Hnd Hin Hd Hlt.
  induction k as [|k IH]; intro Hk; cbv zeta.
  - cbn [Nat.iter nat_rect].
    split; [exact Hnd|]. split; [exact Hin|].
    replace (d - Z.of_nat 0) with (delayTicks (timers s t)) by (simpl; lia).
    symmetry. apply set_delayTicks_same.
  - assert (Hk' : Z.of_nat k < d) by lia.
    specialize (IH Hk'). cbv zeta in IH.
    change (Nat.iter (S k) (tTimerCallFuncList which) s)
      with (tTimerCallFuncList which (Nat.iter k (tTimerCallFuncList which) s)).
    set (s1 := Nat.iter k (tTimerCallFuncList which) s) in *.
    destruct IH as (I1 & I2 & I3).
    destruct (scan_once which s1 t I1 I2) as (S1 & S2 & S3).
    assert (Hf : fires (timers s1 t) = false).
    { unfold fires. rewrite I3. cbn [delayTicks set_delayTicks].
      apply orb_false_iff. split; apply Z.eqb_neq; [lia|].
      unfold u32. rewrite Z.mod_small; lia. }
    split; [exact S2|]. split.
    + apply S3. unfold stops. now rewrite Hf.
    + rewrite S1. unfold visited. rewrite Hf, I3.
      cbn [delayTicks set_delayTicks startDelayTicks durationTicks timerFunc arg
           config state].
      unfold u32. rewrite Z.mod_small by lia.
      unfold set_delayTicks.
      cbn [delayTicks startDelayTicks durationTicks timerFunc arg config state].
      f_equal. lia.
Qed.

(** X17.  A timer on a scanned list without repetitions whose countdown is
    [d >= 1] is decremented by the first [d - 1] scans, which do not call
    it, and fires at scan [d]: a periodic timer is then reloaded with
    [durationTicks] and stays on the list in state STARTED, a one-shot timer
    is taken off the list in state STOPPED. *)
Theorem tTimerCallFuncList_countdown (which : TimerList) (s : TimerModule)
    (t : TimerId) (d : Z) :
  NoDup (getList which s) -> In t (getList which s) ->
  delayTicks (timers s t) = d -> 1 <= d < 2 ^ 32 ->
  let scans k := Nat.iter k (tTimerCallFuncList which) s in
  let t0 := timers s t in
  (forall k : nat, Z.of_nat k < d ->
     In t (getList which (scans k)) /\
     timers (scans k) t = set_delayTicks (d - Z.of_nat k) t0 /\
     (fires (timers (scans k) t) = true <-> Z.of_nat k = d - 1)) /\
  (0 < durationTicks t0 ->
     In t (getList which (scans (Z.to_nat d))) /\
     timers (scans (Z.to_nat d)) t
       = set_state tTimerStarted (set_delayTicks (durationTicks t0) t0)) /\
  (durationTicks t0 <= 0 ->
     ~ In t (getList which (scans (Z.to_nat d))) /\
     timers (scans (Z.to_nat d)) t
       = set_state tTimerStopped (set_delayTicks 0 t0)).
Proof.
  intros Hnd Hin Hd Hr scans t0.
  assert (Hrun := countdown_running which s t d Hnd Hin Hd (proj2 Hr)).
  cbv zeta in Hrun.
  split.
  - intros k Hk. destruct (Hrun k Hk) as (_ & R2 & R3).
    split; [exact R2|]. split; [exact R3|].
    unfold scans. rewrite R3. unfold fires. cbn [delayTicks set_delayTicks].
    rewrite orb_true_iff, !Z.eqb_eq. unfold u32.
    rewrite Z.mod_small by lia. lia.
  - assert (Hlast : Z.to_nat d = S (Z.to_nat (d - 1)))
      by (rewrite <- Z2Nat.inj_succ by lia; f_equal; lia).
    destruct (Hrun (Z.to_nat (d - 1))) as (R1 & R2 & R3);
      [rewrite Z2Nat.id; lia|].
    rewrite Z2Nat.id in R3 by lia.
    replace (d - (d - 1)) with 1 in R3 by lia.
    unfold scans. rewrite Hlast.
    change (Nat.iter (S (Z.to_nat (d - 1))) (tTimerCallFuncList which) s)
      with (tTimerCallFuncList which
              (Nat.iter (Z.to_nat (d - 1)) (tTimerCallFuncList which) s)).
    set (s1 := Nat.iter (Z.to_nat (d - 1)) (tTimerCallFuncList which) s) in *.
    destruct (scan_once which s1 t R1 R2) as (S1 & _ & S3).
    assert (Hf : fires (timers s1 t) = true) by (rewrite R3; reflexivity).
    assert (Hdur : durationTicks (timers s1 t) = durationTicks t0)
      by (rewrite R3; reflexivity).
    split.
    + intro Hp. apply Z.ltb_lt in Hp.
      split.
      * apply S3. unfold stops. rewrite Hf, Hdur, Hp. reflexivity.
      * rewrite S1. unfold visited. rewrite Hf, Hdur, Hp, R3. reflexivity.
    + intro Hp. apply Z.ltb_ge in Hp.
      split.
      * intro Hc. apply S3 in Hc. unfold stops in Hc.
        rewrite Hf, Hdur, Hp in Hc. discriminate.
      * rewrite S1. unfold visited. rewrite Hf, Hdur, Hp, R3. reflexivity.
Qed.

(** X18.  A one-shot timer that the scan has called and taken off its list
    is left in state STOPPED, and a [tTimerStart] then works: the timer is
    STARTED, its countdown reloaded, and it is back on its list once. *)
Theorem tTimerStart_after_expiry (s : TimerModule) (t : TimerId) :
  let t0 := timers s t in
  let which := if negb (Z.land (config t0) TIMER_CONFIG_TYPE_HARD =? 0)
               then HardList else SoftList in
  NoDup (getList which s) -> In t (getList which s) ->
  stops t0 = true ->
  0 < tTimerProtectSem s <= 1 ->
  let s1 := tTimerCallFuncList which s in
  state (timers s1 t) = tTimerStopped /\
  ~ In t (getList which s1) /\
  exists s2,
    tTimerStart s1 t = Some s2 /\
    state (timers s2 t) = tTimerStarted /\
    delayTicks (timers s2 t)
      = (if negb (startDelayTicks t0 =? 0)
         then startDelayTicks t0 else durationTicks t0) /\
    In t (getList which s2) /\
    NoDup (getList which s2).
Proof.
  intros t0 which Hnd Hin Hstop Hsem s1.
  destruct (scan_once which s t Hnd Hin) as (S1 & S2 & S3).
  fold s1 in S1, S2, S3. fold t0 in S1, S3.
  assert (Hv : visited t0
               = mkTimer (startDelayTicks t0) (durationTicks t0) 0
                   (timerFunc t0) (arg t0) (config t0) tTimerStopped).
  { unfold visited. unfold stops in Hstop.
    apply andb_true_iff in Hstop. destruct Hstop as [Hf Hd].
    rewrite Hf. apply negb_true_iff in Hd. now rewrite Hd. }
  rewrite Hv in S1.
  assert (Hnot : ~ In t (getList which s1)).
  { intro Hc. apply S3 in Hc. congruence. }
  split; [rewrite S1; reflexivity|].
  split; [exact Hnot|].
  assert (Hsem1 : 0 < tTimerProtectSem s1 <= 1).
  { unfold s1, tTimerCallFuncList.
    destruct (scan_frame which (getList which s) s) as [-> _]. exact Hsem. }
  destruct (tTimerStart_effect s1 t) as (s2 & Hrun & Ht & _ & Hh & Hs & _);
    [right; rewrite S1; reflexivity | exact Hsem1 |].
  rewrite S1 in Ht, Hh, Hs.
  cbn [config startDelayTicks durationTicks] in Ht, Hh, Hs.
  exists s2. split; [exact Hrun|].
  rewrite Ht. split; [reflexivity|]. split; [reflexivity|].
  subst which.
  destruct (negb (Z.land (config t0) TIMER_CONFIG_TYPE_HARD =? 0));
    cbn [getList] in *.
  - rewrite Hh. unfold tListAddFirst. split; [now left|].
    constructor; assumption.
  - rewrite Hs. unfold tListAddLast. split.
    + apply in_or_app. right. now left.
    + apply NoDup_app; [exact S2 | repeat constructor; intros [] |].
      intros a Ha [<-|[]]. contradiction.
Qed.

(** ** Timers: destruction *)

(** [tTimerStop] on a timer that is STARTED or RUNNING takes it off the list
    its configuration names; the timer objects stay as they are. *)
Lemma tTimerStop_effect (s s' : TimerModule) (timer : TimerId) :
  tTimerStop s timer = Some s' ->
  timers s' = timers s /\
  (state (timers s timer) = tTimerStarted \/
   state (timers s timer) = tTimerRunning ->
   ~ In timer
       (getList (if negb (Z.land (config (timers s timer)) TIMER_CONFIG_TYPE_HARD =? 0)
                 then HardList else SoftList) s')).
Proof.
  assert (Hrem : forall l x, ~ In x (tListRemove l x)).
  { intros l x. unfold tListRemove. rewrite filter_In, Z.eqb_refl.
    intros [_ H]. discriminate. }
  unfold tTimerStop, tSemWait_protect, tSemNotify_protect.
  intro H.
  destruct (state (timers s timer)) eqn:E;
    try (injection H as <-; split; [reflexivity | intros [?|?]; discriminate]);
    (destruct (negb (Z.land (config (timers s timer)) TIMER_CONFIG_TYPE_HARD =? 0));
     [ injection H as <-
     | destruct (0 <? tTimerProtectSem s); [|discriminate];
       cbn [set_tTimerSoftList set_tTimerProtectSem tTimerProtectSem] in H;
       destruct (_ <? 1); injection H as <- ]);
    (split; [reflexivity | intros _; simpl; apply Hrem]).
Qed.

(** X19.  [tTimerDestroy] returns for every hard timer, and for a soft timer
    when the protect semaphore is free.  It leaves the timer DESTROYED and,
    if it was STARTED or RUNNING, off the list its configuration names; no
    other timer is written.  A destroyed timer cannot be started any more,
    and stopping it changes nothing. *)
Theorem tTimerDestroy_spec (s : TimerModule) (timer : TimerId) :
  let t0 := timers s timer in
  let hard := negb (Z.land (config t0) TIMER_CONFIG_TYPE_HARD =? 0) in
  (hard = true \/ 0 < tTimerProtectSem s ->
     exists s', tTimerDestroy s timer = Some s') /\
  (forall s', tTimerDestroy s timer = Some s' ->
     timers s' timer = set_state tTimerDestroyed t0 /\
     (forall x, x <> timer -> timers s' x = timers s x) /\
     (state t0 = tTimerStarted \/ state t0 = tTimerRunning ->
        ~ In timer (getList (if hard then HardList else SoftList) s')) /\
     tTimerStart s' timer = Some s' /\
     tTimerStop s' timer = Some s').
Proof.
  intros t0 hard. split.
  - intro Hfree. unfold tTimerDestroy.
    assert (Hstop : exists s1, tTimerStop s timer = Some s1).
    { unfold tTimerStop, tSemWait_protect. fold t0. fold hard.
      destruct (state t0); try (eexists; reflexivity);
        (destruct hard; [eexists; reflexivity|];
         destruct Hfree as [Hh|Hp]; [discriminate|];
         apply Z.ltb_lt in Hp; rewrite Hp; eexists; reflexivity). }
    destruct Hstop as [s1 ->]. eexists. reflexivity.
  - intros s' H. unfold tTimerDestroy in H.
    destruct (tTimerStop s timer) as [s1|] eqn:E; [|discriminate].
    injection H as <-.
    destruct (tTimerStop_effect s s1 timer E) as [Ht Hl].
    fold t0 in Hl. fold hard in Hl.
    assert (Hd : timers (timer_upd timer (set_state tTimerDestroyed) s1) timer
                 = set_state tTimerDestroyed t0).
    { unfold timer_upd. cbn [timers set_timers]. rewrite upd_same, Ht. reflexivity. }
    split; [exact Hd|].
    split.
    { intros x Hx. unfold timer_upd. cbn [timers set_timers].
      rewrite upd_other by exact Hx. now rewrite Ht. }
    split.
    { intro Hst. specialize (Hl Hst). destruct hard; exact Hl. }
    unfold tTimerStart, tTimerStop. rewrite Hd. split; reflexivity.
Qed.

End TimerLife.

Lemma tTimerCallFuncList_countdown_witness :
  Timer.delayTicks
    (Timer.timers
       (Nat.iter 4 (Timer.tTimerCallFuncList Timer.HardList) Timer.scanSample) 2)
  = 1 /\
  Timer.state
    (Timer.timers
       (Nat.iter 5 (Timer.tTimerCallFuncList Timer.HardList) Timer.scanSample) 2)
  = Timer.tTimerStopped.
Proof.
  assert (Hnd : NoDup (Timer.getList Timer.HardList Timer.scanSample)).
  { simpl. repeat constructor; simpl; intuition discriminate. }
  assert (Hin : In 2 (Timer.getList Timer.HardList Timer.scanSample))
    by (simpl; tauto).
  assert (Hd : Timer.delayTicks (Timer.timers Timer.scanSample 2) = 5)
    by reflexivity.
  assert (Hr : 1 <= 5 < 2 ^ 32) by (split; [discriminate | reflexivity]).
  destruct (TimerLife.tTimerCallFuncList_countdown Timer.HardList Timer.scanSample
              2 5 Hnd Hin Hd Hr) as (Hrun & _ & Hone).
  split.
  - destruct (Hrun 4%nat) as (_ & H & _); [reflexivity|].
    rewrite H. reflexivity.
  - destruct Hone as [_ H]; [discriminate|].
    change (Z.to_nat 5) with 5%nat in H. rewrite H. reflexivity.
Defined.

Lemma tTimerStart_after_expiry_witness :
  exists s2,
    Timer.tTimerStart (Timer.tTimerCallFuncList Timer.HardList Timer.scanSample) 3
      = Some s2 /\
    In 3 (Timer.getList Timer.HardList s2).
Proof.
  assert (Hnd : NoDup (Timer.getList Timer.HardList Timer.scanSample)).
  { simpl. repeat constructor; simpl; intuition discriminate. }
  assert (Hin : In 3 (Timer.getList Timer.HardList Timer.scanSample))
    by (simpl; tauto).
  assert (Hstop : Timer.stops (Timer.timers Timer.scanSample 3) = true)
    by (vm_compute; reflexivity).
  assert (Hsem : 0 < Timer.tTimerProtectSem Timer.scanSample <= 1)
    by (vm_compute; split; [reflexivity | discriminate]).
  destruct (TimerLife.tTimerStart_after_expiry Timer.scanSample 3 Hnd Hin Hstop Hsem)
    as (_ & _ & s2 & Hrun & _ & _ & Hon & _).
  exists s2. split; [exact Hrun | exact Hon].
Defined.

Lemma tTimerDestroy_spec_witness :
  exists s',
    Timer.tTimerDestroy Timer.scanSample 1 = Some s' /\
    Timer.state (Timer.timers s' 1) = Timer.tTimerDestroyed /\
    ~ In 1 (Timer.getList Timer.HardList s') /\
    Timer.tTimerStart s' 1 = Some s'.
Proof.
  destruct (TimerLife.tTimerDestroy_spec Timer.scanSample 1) as [Hret Hspec].
  destruct Hret as [s' Hrun]; [left; vm_compute; reflexivity|].
  destruct (Hspec s' Hrun) as (Ht & _ & Hoff & Hstart & _).
  exists s'. split; [exact Hrun|].
  split; [rewrite Ht; reflexivity|].
  split; [|exact Hstart].
  apply Hoff. left. vm_compute. reflexivity.
Defined.

(** ** Boot *)

(** What [tTaskInit] does outside the task object and its stack. *)
Lemma tTaskInit_tables (cfg : tConfig) (s : Kernel) (task : TaskId)
    (entry param prio_ stack_ stackSize_ : Z) :
  let s' := tTaskInit cfg s task entry param prio_ stack_ stackSize_ in
  taskTable s' = upd (taskTable s) prio_ (tListAddFirst (taskTable s prio_) task) /\
  taskPrioBitMap s' = tBitMapSet (taskPrioBitMap s) prio_ /\
  tTaskDelayedList s' = tTaskDelayedList s /\
  schedLockCounter s' = schedLockCounter s /\
  tickCount s' = tickCount s /\
  curTask s' = curTask s /\
  nextTask s' = nextTask s /\
  pendSV s' = pendSV s /\
  primask s' = primask s.
Proof.
  intro s'. subst s'. unfold tTaskInit.
  cbn [mem set_mem task_upd set_tasks].
  destruct (pushWords (memset (mem s) stack_ 0 stackSize_)
              (stack_ + stackSize_ / sizeof_tTaskStack)
              (initialFrame entry param)) as [m top].
  unfold tTaskSchedRdy.
  cbn [tasks mem set_mem task_upd set_tasks set_taskTable set_taskPrioBitMap
       taskTable taskPrioBitMap tTaskDelayedList schedLockCounter tickCount
       curTask nextTask pendSV primask].
  rewrite !upd_same. cbn [prio set_prio set_state set_slice set_suspendCount
                          set_clean set_cleanParam set_requestDeleteFlag].
  repeat split.
Qed.

(** With a single bit set the search of the bitmap finds that bit. *)
Lemma tBitMapGetFirstSet_single (p : Z) :
  0 <= p < 32 -> tBitMapGetFirstSet (tBitMapSet 0 p) = p.
Proof.
  intro Hp.
  destruct (tBitMapGetFirstSet_lowest (tBitMapSet 0 p) p Hp
              (testbit_tBitMapSet_same 0 p Hp)) as (Hr & Hb & _).
  cbv zeta in Hr, Hb.
  destruct (Z.eq_dec (tBitMapGetFirstSet (tBitMapSet 0 p)) p) as [E|E]; [exact E|].
  rewrite testbit_tBitMapSet_other in Hb by lia.
  rewrite Z.testbit_0_l in Hb. discriminate.
Qed.

(** The globals after the initialisation calls that open [main]. *)
Lemma main_init_globals (cfg : tConfig) (s : Kernel) :
  let s0 := initCpuUsageState
              (tTimeTickInit (tTaskDelayedInit (tTaskSchedInit cfg s))) in
  (forall p, 0 <= p < TINYOS_PRIO_COUNT cfg -> taskTable s0 p = []) /\
  taskPrioBitMap s0 = taskPrioBitMap s /\
  tTaskDelayedList s0 = [] /\
  schedLockCounter s0 = 0 /\
  tickCount s0 = 0 /\
  primask s0 = primask s.
Proof.
  unfold tTaskSchedInit.
  cbn [tTaskEnterCritical tTaskExitCritical initCpuUsageState tTimeTickInit
       tTaskDelayedInit taskTable taskPrioBitMap tTaskDelayedList
       schedLockCounter tickCount primask set_primask set_schedLockCounter
       set_taskTable set_tTaskDelayedList set_tickCount
       set_enableCpuUsageState set_idleCount set_cpuUsage set_idleMaxCount].
  split; [|repeat split].
  intros p Hp.
  assert (E1 : (0 <=? p) = true) by (apply Z.leb_le; lia).
  assert (E2 : (p <? TINYOS_PRIO_COUNT cfg) = true) by (apply Z.ltb_lt; lia).
  rewrite E1, E2. reflexivity.
Qed.

(** The first selection, from a ready table that holds one task. *)
Lemma first_selection (cfg : tConfig) (s1 : Kernel) (task : TaskId) (q : Z) :
  0 <= q < TINYOS_PRIO_COUNT cfg -> TINYOS_PRIO_COUNT cfg <= 32 ->
  (forall p, 0 <= p < TINYOS_PRIO_COUNT cfg ->
     taskTable s1 p = if p =? q then [task] else []) ->
  taskPrioBitMap s1 = tBitMapSet 0 q ->
  let s' := tTaskRunFirst (set_nextTask (tTaskHighestReady s1) s1) in
  nextTask s' = Some task /\
  pendSV s' = true /\
  prioBitMap_inv cfg s'.
Proof.
  intros Hq Hq' Htab Hbit s'. subst s'.
  split; [|split; [reflexivity|]].
  - cbn [tTaskRunFirst nextTask set_pendSV set_nextTask].
    unfold tTaskHighestReady. rewrite Hbit, tBitMapGetFirstSet_single by lia.
    rewrite Htab by lia. rewrite Z.eqb_refl. reflexivity.
  - intros p Hp.
    change (taskTable (tTaskRunFirst (set_nextTask (tTaskHighestReady s1) s1)) p)
      with (taskTable s1 p).
    change (taskPrioBitMap
              (tTaskRunFirst (set_nextTask (tTaskHighestReady s1) s1)))
      with (taskPrioBitMap s1).
    rewrite Htab by exact Hp. rewrite Hbit.
    destruct (Z.eqb_spec p q) as [->|Hne].
    + rewrite testbit_tBitMapSet_same by lia. split; [reflexivity | discriminate].
    + rewrite testbit_tBitMapSet_other by lia. rewrite Z.testbit_0_l.
      split; [intro H; now elim H | discriminate].
Qed.

(** X20.  [main] leaves the idle task as the only ready task, at the lowest
    priority, selected as [nextTask] with the first context switch pended,
    the delay list empty, the scheduler unlocked and the tick count 0, and
    the ready-table invariant holds.  [main] never initialises
    [taskPrioBitMap]: the result needs the bitmap to be 0 on entry. *)
Theorem main_boots_idle_task (cfg : tConfig) (s : Kernel) :
  1 <= TINYOS_PRIO_COUNT cfg <= 32 ->
  taskPrioBitMap s = 0 ->
  let s' := main cfg s in
  nextTask s' = Some TtaskIdle /\
  pendSV s' = true /\
  (forall p, 0 <= p < TINYOS_PRIO_COUNT cfg ->
     taskTable s' p = if p =? TINYOS_PRIO_COUNT cfg - 1 then [TtaskIdle] else []) /\
  prioBitMap_inv cfg s' /\
  tTaskDelayedList s' = [] /\
  schedLockCounter s' = 0 /\
  tickCount s' = 0 /\
  primask s' = primask s.
Proof.
  intros Hn Hb.
  destruct (main_init_globals cfg s) as (Z1 & Z2 & Z3 & Z4 & Z5 & Z6).
  cbv zeta in Z1, Z2, Z3, Z4, Z5, Z6.
  unfold main. cbv zeta.
  generalize dependent (initCpuUsageState
                          (tTimeTickInit (tTaskDelayedInit (tTaskSchedInit cfg s)))).
  intros s0 Z1 Z2 Z3 Z4 Z5 Z6.
  destruct (tTaskInit_tables cfg s0 TtaskIdle taskIdle 0 (TINYOS_PRIO_COUNT cfg - 1)
              taskIdleStack (TINYOS_IDLETASK_STACK_SIZE cfg))
    as (I1 & I2 & I3 & I4 & I5 & _ & _ & _ & I9).
  cbv zeta in I1, I2, I3, I4, I5, I9.
  generalize dependent (tTaskInit cfg s0 TtaskIdle taskIdle 0
                          (TINYOS_PRIO_COUNT cfg - 1) taskIdleStack
                          (TINYOS_IDLETASK_STACK_SIZE cfg)).
  intros s1 I1 I2 I3 I4 I5 I9.
  rewrite Z2, Hb in I2. rewrite Z1 in I1 by lia.
  assert (Htab : forall p, 0 <= p < TINYOS_PRIO_COUNT cfg ->
            taskTable s1 p
            = if p =? TINYOS_PRIO_COUNT cfg - 1 then [TtaskIdle] else []).
  { intros p Hp. rewrite I1. unfold upd, tListAddFirst.
    destruct (p =? TINYOS_PRIO_COUNT cfg - 1); [reflexivity | now apply Z1]. }
  destruct (first_selection cfg s1 TtaskIdle (TINYOS_PRIO_COUNT cfg - 1))
    as (F1 & F2 & F3); [lia | lia | exact Htab | exact I2 |].
  split; [exact F1|]. split; [exact F2|].
  split; [exact Htab|]. split; [exact F3|].
  cbn [tTaskRunFirst tTaskDelayedList schedLockCounter tickCount primask
       set_pendSV set_nextTask].
  rewrite I3, I4, I5, I9, Z3, Z4, Z5, Z6. repeat split.
Qed.

Lemma main_boots_idle_task_witness :
  nextTask (main sampleConfig resetKernel) = Some TtaskIdle /\
  taskTable (main sampleConfig resetKernel) 31 = [TtaskIdle].
Proof.
  assert (Hn : 1 <= TINYOS_PRIO_COUNT sampleConfig <= 32)
    by (vm_compute; split; discriminate).
  assert (Hb : taskPrioBitMap resetKernel = 0) by reflexivity.
  assert (H31 : 0 <= 31 < TINYOS_PRIO_COUNT sampleConfig)
    by (vm_compute; split; [discriminate | reflexivity]).
  pose proof (main_boots_idle_task sampleConfig resetKernel Hn Hb) as H.
  cbv zeta in H. destruct H as (Hnext & _ & Htab & _).
  split; [exact Hnext|].
  rewrite (Htab 31 H31). reflexivity.
Defined.

(** ** The tick handler as a whole *)

Section TickHandler.

Variable cfg : tConfig.
Variable tTimerModuleTickNotify : Kernel -> Kernel.

Lemma tEventRemoveTask_curTask (s : Kernel) (a : TaskId) (msg res : Z) :
  curTask (tEventRemoveTask cfg s a msg res) = curTask s.
Proof. unfold tEventRemoveTask. destruct (waitEvent (tasks s a)); reflexivity. Qed.

Lemma tickDelayedTask_curTask (s : Kernel) (a : TaskId) :
  curTask (tickDelayedTask cfg s a) = curTask s.
Proof.
  unfold tickDelayedTask.
  destruct (delayTicks (tasks (task_upd a _ s) a) =? 0); [|reflexivity].
  unfold tTaskSchedRdy, tTimeTaskWakeUp.
  cbn [curTask set_taskPrioBitMap set_taskTable task_upd set_tasks
       set_tTaskDelayedList].
  destruct (waitEvent (tasks (task_upd a _ s) a)); [|reflexivity].
  rewrite tEventRemoveTask_curTask. reflexivity.
Qed.

Lemma tickDelayed_curTask (s : Kernel) :
  curTask (tickDelayed cfg s) = curTask s.
Proof.
  unfold tickDelayed. generalize (tTaskDelayedList s). intro l. revert s.
  induction l as [|a l IH]; intro s; cbn [fold_left]; [reflexivity|].
  rewrite IH. apply tickDelayedTask_curTask.
Qed.

Lemma checkCpuUsage_inv (s : Kernel) :
  prioBitMap_inv cfg s -> prioBitMap_inv cfg (checkCpuUsage cfg s).
Proof.
  intros Hinv. unfold checkCpuUsage.
  destruct (enableCpuUsageState s =? 0).
  - revert Hinv. apply prioBitMap_inv_ext; reflexivity.
  - destruct (tickCount s =? TICKS_PER_SEC cfg).
    + apply tTaskSchedEnable_inv.
      revert Hinv. apply prioBitMap_inv_ext; reflexivity.
    + destruct (tickCount s mod TICKS_PER_SEC cfg =? 0); [|exact Hinv].
      revert Hinv. apply prioBitMap_inv_ext; reflexivity.
Qed.

(** X21.  [tTaskSystemTickHandler] dereferences [curTask] unchecked and has
    a result exactly when there is a current task.  When the notification
    of the timer module keeps the ready-table invariant, so does the whole
    handler: the delay loop, the rotation of the time slice, the CPU usage
    check (which may enable the scheduler) and the final [tTaskSched]. *)
Theorem tTaskSystemTickHandler_inv (s : Kernel) :
  (tTaskSystemTickHandler cfg tTimerModuleTickNotify s = None <-> curTask s = None) /\
  (TINYOS_PRIO_COUNT cfg <= 32 ->
   (forall s0, prioBitMap_inv cfg s0 ->
      prioBitMap_inv cfg (tTimerModuleTickNotify s0)) ->
   prioBitMap_inv cfg s ->
   forall s', tTaskSystemTickHandler cfg tTimerModuleTickNotify s = Some s' ->
     prioBitMap_inv cfg s').
Proof.
  unfold tTaskSystemTickHandler. cbn [tTaskEnterCritical].
  assert (Hcur : curTask (tickDelayed cfg (set_primask 1 s)) = curTask s)
    by (rewrite tickDelayed_curTask; reflexivity).
  split.
  - unfold tickSlice at 1. rewrite Hcur.
    destruct (curTask s) as [c|]; [|tauto].
    split; [|discriminate].
    destruct (slice (tasks (task_upd c _ _) c) =? 0); [|discriminate].
    destruct (0 <? tListCount _); discriminate.
  - intros Hc Hnotify Hinv s' Hrun.
    assert (H1 : prioBitMap_inv cfg (tickDelayed cfg (set_primask 1 s))).
    { apply (tickDelayed_inv cfg Hc).
      revert Hinv. apply prioBitMap_inv_ext; reflexivity. }
    generalize dependent (tickDelayed cfg (set_primask 1 s)).
    intros s1 _ Hrun H1.
    destruct (tickSlice cfg s1) as [s2|] eqn:Es; [|discriminate].
    pose proof (tickSlice_inv cfg s1 s2 H1 Es) as H2.
    clear Es. injection Hrun as <-.
    apply tTaskSched_inv, Hnotify.
    assert (H3 : prioBitMap_inv cfg (set_tickCount (u32 (tickCount s2 + 1)) s2))
      by (revert H2; apply prioBitMap_inv_ext; reflexivity).
    pose proof (checkCpuUsage_inv _ H3) as H4.
    revert H4. apply prioBitMap_inv_ext; reflexivity.
Qed.

End TickHandler.

Lemma tTaskSystemTickHandler_inv_witness :
  exists s',
    tTaskSystemTickHandler sampleConfig (fun s => s) (booted sampleConfig) = Some s' /\
    prioBitMap_inv sampleConfig s'.
Proof.
  assert (Hc : TINYOS_PRIO_COUNT sampleConfig <= 32) by (vm_compute; discriminate).
  destruct (tTaskSystemTickHandler sampleConfig (fun s => s) (booted sampleConfig))
    as [s'|] eqn:E.
  - exists s'. split; [reflexivity|].
    apply (proj2 (tTaskSystemTickHandler_inv sampleConfig (fun s => s)
                    (booted sampleConfig)) Hc (fun s0 H => H)
                 (booted_inv sampleConfig Hc) s' E).
  - apply (proj1 (tTaskSystemTickHandler_inv sampleConfig (fun s => s)
                    (booted sampleConfig))) in E.
    vm_compute in E. discriminate.
Defined.
